(** * MyLibraryPy: the borrowing and reservation core of [src/app.py]

    A shallow embedding of the Flask application's in-memory tables and of
    the endpoints that change them, followed by the properties that the
    design document states about them.

    Conventions of the embedding.
    - The three global lists [users_data], [books_data] and
      [borrowing_records_data] are the fields of [State]; an endpoint is a
      function from the state before the call to the state after it and the
      HTTP response.  [save_data] only copies the lists to disk and is left
      out.
    - Row identifiers are kept in the tables as the decimal text of an
      integer ([str(n)]) and compared as text; they are modelled by the
      integer itself.  The copy counts are likewise the integers whose text
      the table holds.
    - A date column holds either the empty string or [d.isoformat()], which
      is never empty; it is modelled by [option datetime], [None] standing
      for the empty string.
    - A [datetime] is its proleptic Gregorian ordinal (day 1 is Monday,
      1 January of year 1, as [date.toordinal]) and its time of day.  The
      upper end of Python's calendar (year 9999) is not modelled.
    - The header lookup of [login_required] belongs to the access-control
      layer; an endpoint receives the user row that lookup attached to the
      request, and [role_required] is modelled on it. *)

From Stdlib Require Import ZArith List String Bool Lia.
Import ListNotations.

Open Scope string_scope.
Open Scope list_scope.
Open Scope Z_scope.

(** ** Dates *)

Record datetime := mkDatetime {
  ordinal : Z;
  hour : Z;
  minute : Z;
  second : Z;
  microsecond : Z
}.

(** [date.weekday()]: Monday is 0, Sunday is 6. *)
Definition weekday (d : datetime) : Z := (ordinal d + 6) mod 7.

(** [d + timedelta(days=k)] *)
Definition add_days (d : datetime) (k : Z) : datetime :=
  mkDatetime (ordinal d + k) (hour d) (minute d) (second d) (microsecond d).

(** [d.replace(hour=23, minute=59, second=59, microsecond=999999)] *)
Definition end_of_day (d : datetime) : datetime :=
  mkDatetime (ordinal d) 23 59 59 999999.

Definition is_working_day (date : datetime) : bool := weekday date <? 5.

(** The [for _ in range(...)] loop of [calculate_due_date]; [n] is the
    number of iterations that remain. *)
Fixpoint due_date_loop (n : nat) (max_weeks : Z) (current_date : datetime)
         (working_days_count : Z) : datetime :=
  match n with
  | O => current_date
  | S n' =>
      let current_date := add_days current_date 1 in
      let working_days_count :=
        if is_working_day current_date then working_days_count + 1
        else working_days_count in
      if working_days_count >=? max_weeks * 5 then current_date
      else due_date_loop n' max_weeks current_date working_days_count
  end.

Definition calculate_due_date (borrow_date : datetime) (max_weeks : Z) : datetime :=
  let max_calendar_days := max_weeks * 7 in
  end_of_day
    (due_date_loop (Z.to_nat (max_calendar_days + 7)) max_weeks borrow_date 0).

(** The default argument [max_weeks=4]. *)
Definition default_max_weeks : Z := 4.


(** The loop only looks at the day of the week: it can be run on the
    number of days walked so far. *)
Fixpoint due_offset (n : nat) (max_weeks w off count : Z) : Z :=
  match n with
  | O => off
  | S n' =>
      let off := off + 1 in
      let count := if (w + off) mod 7 <? 5 then count + 1 else count in
      if count >=? max_weeks * 5 then off
      else due_offset n' max_weeks w off count
  end.


(** ** Tables *)

Record User := mkUser {
  uid : Z;
  username : string;
  password_hash : string;
  role : string;
  token : string
}.

Record Book := mkBook {
  bid : Z;
  title : string;
  author : string;
  isbn : string;
  publication_year : option Z;
  available_copies : Z;
  total_copies : Z
}.

Record BorrowingRecord := mkRecord {
  rid : Z;
  student_id : Z;
  book_id : Z;
  borrow_date : option datetime;
  due_date : option datetime;
  return_date : option datetime;
  status : string
}.

Record State := mkState {
  users_data : list User;
  books_data : list Book;
  borrowing_records_data : list BorrowingRecord
}.

(** The tables before anything was written to the CSV files. *)
Definition empty_state : State := mkState [] [] [].

Inductive Payload :=
| NoPayload
| UserPayload (user_id : Z) (tok : string)
| BookPayload (b : Book)
| RecordPayload (r : BorrowingRecord).

Record Response := mkResponse {
  code : Z;
  message : string;
  payload : Payload
}.

Definition fail (c : Z) (msg : string) : Response := mkResponse c msg NoPayload.

(** ** List helpers for dictionaries mutated in place *)

(** [x = next((y for y in l if p y), None)] followed by assignments to the
    keys of [x]: the first row that satisfies [p] is replaced by [f x]. *)
Fixpoint update_first {A : Type} (p : A -> bool) (f : A -> A) (l : list A) : list A :=
  match l with
  | [] => []
  | x :: l' => if p x then f x :: l' else x :: update_first p f l'
  end.

(** [i = next((i for i, y in enumerate(l) if p y), None)] followed by
    [del l[i]]. *)
Fixpoint remove_first {A : Type} (p : A -> bool) (l : list A) : list A :=
  match l with
  | [] => []
  | x :: l' => if p x then l' else x :: remove_first p l'
  end.

(** [max(int(item['id']) for item in data)] for a non-empty [data]. *)
Fixpoint max_id (x : Z) (l : list Z) : Z :=
  match l with
  | [] => x
  | y :: l' => max_id (Z.max x y) l'
  end.

(** [_get_next_id], on the list of the identifiers of the rows. *)
Definition _get_next_id (ids : list Z) : Z :=
  match ids with
  | [] => 1
  | x :: l => max_id x l + 1
  end.

(** ** Field updates *)

Definition set_token (u : User) (t : string) : User :=
  mkUser (uid u) (username u) (password_hash u) (role u) t.

Definition set_title (b : Book) (t : string) : Book :=
  mkBook (bid b) t (author b) (isbn b) (publication_year b)
         (available_copies b) (total_copies b).

Definition set_author (b : Book) (a : string) : Book :=
  mkBook (bid b) (title b) a (isbn b) (publication_year b)
         (available_copies b) (total_copies b).

Definition set_isbn (b : Book) (i : string) : Book :=
  mkBook (bid b) (title b) (author b) i (publication_year b)
         (available_copies b) (total_copies b).

Definition set_publication_year (b : Book) (y : option Z) : Book :=
  mkBook (bid b) (title b) (author b) (isbn b) y
         (available_copies b) (total_copies b).

Definition set_available_copies (b : Book) (n : Z) : Book :=
  mkBook (bid b) (title b) (author b) (isbn b) (publication_year b)
         n (total_copies b).

Definition set_total_copies (b : Book) (n : Z) : Book :=
  mkBook (bid b) (title b) (author b) (isbn b) (publication_year b)
         (available_copies b) n.

Definition set_status (r : BorrowingRecord) (s : string) : BorrowingRecord :=
  mkRecord (rid r) (student_id r) (book_id r) (borrow_date r) (due_date r)
           (return_date r) s.

Definition set_borrow_date (r : BorrowingRecord) (d : option datetime) : BorrowingRecord :=
  mkRecord (rid r) (student_id r) (book_id r) d (due_date r)
           (return_date r) (status r).

Definition set_due_date (r : BorrowingRecord) (d : option datetime) : BorrowingRecord :=
  mkRecord (rid r) (student_id r) (book_id r) (borrow_date r) d
           (return_date r) (status r).

Definition set_return_date (r : BorrowingRecord) (d : option datetime) : BorrowingRecord :=
  mkRecord (rid r) (student_id r) (book_id r) (borrow_date r) (due_date r)
           d (status r).

Definition with_users (st : State) (us : list User) : State :=
  mkState us (books_data st) (borrowing_records_data st).

Definition with_books (st : State) (bs : list Book) : State :=
  mkState (users_data st) bs (borrowing_records_data st).

Definition with_records (st : State) (rs : list BorrowingRecord) : State :=
  mkState (users_data st) (books_data st) rs.

(** ** Predicates used by the endpoints *)

Definition has_book_id (k : Z) (b : Book) : bool := bid b =? k.

Definition has_record_id (k : Z) (r : BorrowingRecord) : bool := rid r =? k.

(** [rec['status'] in ['borrowed', 'reserved']] *)
Definition is_active (r : BorrowingRecord) : bool :=
  (status r =? "borrowed")%string || (status r =? "reserved")%string.

(** [rec['student_id'] == student_id_str and rec['status'] == 'borrowed'] *)
Definition borrowed_by (s : Z) (r : BorrowingRecord) : bool :=
  (student_id r =? s) && (status r =? "borrowed")%string.

(** [rec['student_id'] == student_id_str and rec['book_id'] == book_id_str
    and rec['status'] in ['borrowed', 'reserved']] *)
Definition active_for (s k : Z) (r : BorrowingRecord) : bool :=
  (student_id r =? s) && (book_id r =? k) && is_active r.

(** [rec['book_id'] == book_id_str and rec['status'] in [...]] *)
Definition active_on (k : Z) (r : BorrowingRecord) : bool :=
  (book_id r =? k) && is_active r.

(** [rec['id'] == borrow_id_str and rec['student_id'] == student_id_str] *)
Definition own_record (k s : Z) (r : BorrowingRecord) : bool :=
  (rid r =? k) && (student_id r =? s).

(** [role_required(role)]: the wrapped endpoint runs only for that role. *)
Definition role_required (required : string) (current_user : User)
           (st : State) (k : State * Response) : State * Response :=
  if negb (role current_user =? required)%string
  then (st, fail 403 ("Access denied: " ++ required ++ " role required"))
  else k.

(** ** Registration *)

(** [register_user].  An absent JSON key and an empty string are both falsy
    for the first test and are not told apart.  [new_token] is the text of
    the [uuid4] drawn by the call and [pw_hash] the value returned by
    [generate_password_hash]. *)
Definition register_user (st : State) (uname pwd urole new_token pw_hash : string)
  : State * Response :=
  if (uname =? "")%string || (pwd =? "")%string || (urole =? "")%string
  then (st, fail 400 "Missing username, password, or role")
  else if negb ((urole =? "student")%string || (urole =? "librarian")%string)
  then (st, fail 400 "Invalid role. Must be 'student' or 'librarian'")
  else
    let same_name := fun u : User => (username u =? uname)%string in
    let existing_user := find same_name (users_data st) in
    let new_user_id := _get_next_id (map uid (users_data st)) in
    if (urole =? "student")%string then
      match existing_user with
      | Some u =>
          if negb (token u =? "")%string
          then (st, mkResponse 200 "Student already registered"
                               (UserPayload (uid u) (token u)))
          else (with_users st
                  (update_first same_name (fun u => set_token u new_token)
                                (users_data st)),
                mkResponse 200 "Student already registered, token generated"
                           (UserPayload (uid u) new_token))
      | None =>
          let new_user := mkUser new_user_id uname pw_hash urole new_token in
          (with_users st (users_data st ++ [new_user]),
           mkResponse 201 "Student registered successfully"
                      (UserPayload new_user_id new_token))
      end
    else
      match existing_user with
      | Some _ => (st, fail 409 "Librarian already registered")
      | None =>
          let new_user := mkUser new_user_id uname pw_hash urole "" in
          (with_users st (users_data st ++ [new_user]),
           mkResponse 201 "Librarian registered successfully"
                      (UserPayload new_user_id ""))
      end.

(** ** Books *)

(** The JSON body of [POST /books]; an absent text key reads as [""]. *)
Record BookForm := mkBookForm {
  form_title : string;
  form_author : string;
  form_isbn : string;
  form_publication_year : option Z;
  form_total_copies : option Z
}.

(** [str(y) if y else '']: a missing, null or zero year is stored empty. *)
Definition year_column (y : option Z) : option Z :=
  match y with
  | Some v => if v =? 0 then None else Some v
  | None => None
  end.

Definition add_book (st : State) (current_user : User) (data : BookForm)
  : State * Response :=
  role_required "librarian" current_user st
    (let total := match form_total_copies data with Some n => n | None => 0 end in
     if (form_title data =? "")%string || (form_author data =? "")%string
        || (form_isbn data =? "")%string
     then (st, fail 400 "Missing required book details (title, author, isbn)")
     else if existsb (fun b => (isbn b =? form_isbn data)%string) (books_data st)
     then (st, fail 409 "Book with this ISBN already exists")
     else
       let new_book_id := _get_next_id (map bid (books_data st)) in
       let new_book :=
         mkBook new_book_id (form_title data) (form_author data) (form_isbn data)
                (year_column (form_publication_year data)) total total in
       (with_books st (books_data st ++ [new_book]),
        mkResponse 201 "Book added successfully" (BookPayload new_book))).

(** The JSON body of [PUT /books/<id>]: [None] is a key that is not in
    the body. *)
Record BookPatch := mkBookPatch {
  patch_title : option string;
  patch_author : option string;
  patch_isbn : option string;
  patch_publication_year : option (option Z);
  patch_total_copies : option Z
}.

(** The row [book] is a dictionary of [books_data]: what was assigned to
    its keys before a [return] stays in the table. *)
Definition store_book (st : State) (k : Z) (book : Book) : State :=
  with_books st (update_first (has_book_id k) (fun _ => book) (books_data st)).

(** The [total_copies] branch of [update_book] and the final response. *)
Definition update_total_copies (st : State) (k : Z) (book : Book)
           (new_total : option Z) : State * Response :=
  match new_total with
  | Some new_total_copies =>
      let current_borrowed := total_copies book - available_copies book in
      if new_total_copies <? current_borrowed
      then (store_book st k book,
            fail 400 "Cannot reduce total copies below currently borrowed copies")
      else
        let book := set_available_copies book
                      (available_copies book + (new_total_copies - total_copies book)) in
        let book := set_total_copies book new_total_copies in
        (store_book st k book,
         mkResponse 200 "Book updated successfully" (BookPayload book))
  | None =>
      (store_book st k book,
       mkResponse 200 "Book updated successfully" (BookPayload book))
  end.

Definition update_book (st : State) (current_user : User) (k : Z) (data : BookPatch)
  : State * Response :=
  role_required "librarian" current_user st
    match find (has_book_id k) (books_data st) with
    | None => (st, fail 404 "Book not found")
    | Some book =>
        let book := match patch_title data with
                    | Some t => set_title book t
                    | None => book
                    end in
        let book := match patch_author data with
                    | Some a => set_author book a
                    | None => book
                    end in
        let isbn_taken :=
          match patch_isbn data with
          | Some i =>
              negb (i =? isbn book)%string
              && existsb (fun b => negb (has_book_id k b) && (isbn b =? i)%string)
                         (books_data st)
          | None => false
          end in
        if isbn_taken
        then (store_book st k book, fail 409 "Book with this ISBN already exists")
        else
          let book := match patch_isbn data with
                      | Some i => set_isbn book i
                      | None => book
                      end in
          let book := match patch_publication_year data with
                      | Some y => set_publication_year book (year_column y)
                      | None => book
                      end in
          update_total_copies st k book (patch_total_copies data)
    end.

Definition delete_book (st : State) (current_user : User) (k : Z) : State * Response :=
  role_required "librarian" current_user st
    match find (has_book_id k) (books_data st) with
    | None => (st, fail 404 "Book not found")
    | Some _ =>
        let active_records := filter (active_on k) (borrowing_records_data st) in
        match active_records with
        | _ :: _ =>
            (st, fail 400 "Cannot delete book: active borrowing or reservation records exist")
        | [] =>
            (with_books st (remove_first (has_book_id k) (books_data st)),
             mkResponse 200 "Book deleted successfully" NoPayload)
        end
    end.

(** ** Borrowing, reserving, cancelling and returning *)

Definition decrement_available (b : Book) : Book :=
  set_available_copies b (available_copies b - 1).

Definition increment_available (b : Book) : Book :=
  set_available_copies b (available_copies b + 1).

(** The assignments that turn a reservation into a loan.  [now1] and [now2]
    are the two readings of [datetime.utcnow()]. *)
Definition collect_reservation (now1 now2 : datetime) (r : BorrowingRecord)
  : BorrowingRecord :=
  set_due_date
    (set_borrow_date (set_status r "borrowed") (Some now1))
    (Some (calculate_due_date now2 default_max_weeks)).

(** [borrow_book].  The branch that makes a new record reads the clock
    once, the branch that collects a reservation reads it twice. *)
Definition borrow_book (st : State) (current_user : User) (k : Z)
           (now1 now2 : datetime) : State * Response :=
  role_required "student" current_user st
    (let student_id_str := uid current_user in
     let records := borrowing_records_data st in
     match find (has_book_id k) (books_data st) with
     | None => (st, fail 404 "Book not found")
     | Some book =>
         if available_copies book <=? 0
         then (st, fail 400 "No copies of this book are currently available")
         else
           let borrowed_count :=
             Z.of_nat (List.length (filter (borrowed_by student_id_str) records)) in
           if borrowed_count >=? 3
           then (st, fail 400 "You have reached the maximum limit of 3 borrowed books")
           else
             let fresh_borrow :=
               let borrow_date := now1 in
               let due_date := calculate_due_date borrow_date default_max_weeks in
               let new_record_id := _get_next_id (map rid records) in
               let new_record :=
                 mkRecord new_record_id student_id_str k (Some borrow_date)
                          (Some due_date) None "borrowed" in
               (mkState (users_data st)
                        (update_first (has_book_id k) decrement_available (books_data st))
                        (records ++ [new_record]),
                mkResponse 201 "Book borrowed successfully" (RecordPayload new_record)) in
             match find (active_for student_id_str k) records with
             | Some existing_record =>
                 if (status existing_record =? "borrowed")%string
                 then (st, fail 400 "You have already borrowed this book")
                 else if (status existing_record =? "reserved")%string
                 then
                   (mkState (users_data st)
                            (update_first (has_book_id k) decrement_available
                                          (books_data st))
                            (update_first (active_for student_id_str k)
                                          (collect_reservation now1 now2) records),
                    mkResponse 200 "Reserved book collected and borrowed successfully"
                               (RecordPayload
                                  (collect_reservation now1 now2 existing_record)))
                 else fresh_borrow
             | None => fresh_borrow
             end
     end).

Definition reserve_book (st : State) (current_user : User) (k : Z) : State * Response :=
  role_required "student" current_user st
    (let student_id_str := uid current_user in
     let records := borrowing_records_data st in
     match find (has_book_id k) (books_data st) with
     | None => (st, fail 404 "Book not found")
     | Some _ =>
         match find (active_for student_id_str k) records with
         | Some _ => (st, fail 400 "You have already borrowed or reserved this book")
         | None =>
             let new_record_id := _get_next_id (map rid records) in
             let new_record :=
               mkRecord new_record_id student_id_str k None None None "reserved" in
             (with_records st (records ++ [new_record]),
              mkResponse 201 "Book reserved successfully" (RecordPayload new_record))
         end
     end).

Definition mark_cancelled (now : datetime) (r : BorrowingRecord) : BorrowingRecord :=
  set_return_date (set_status r "cancelled") (Some now).

Definition cancel_reservation (st : State) (current_user : User) (borrow_id : Z)
           (now : datetime) : State * Response :=
  role_required "student" current_user st
    (let student_id_str := uid current_user in
     let records := borrowing_records_data st in
     match find (own_record borrow_id student_id_str) records with
     | None => (st, fail 404 "Reservation record not found or does not belong to you")
     | Some record =>
         if negb (status record =? "reserved")%string
         then (st, fail 400 "Only reserved books can be cancelled")
         else
           (with_records st
              (update_first (own_record borrow_id student_id_str)
                            (mark_cancelled now) records),
            mkResponse 200 "Reservation cancelled successfully"
                       (RecordPayload (mark_cancelled now record)))
     end).

Definition mark_returned (now : datetime) (r : BorrowingRecord) : BorrowingRecord :=
  set_status (set_return_date r (Some now)) "returned".

(** [if record['borrow_date']:] a non-empty date column. *)
Definition was_borrowed (r : BorrowingRecord) : bool :=
  match borrow_date r with Some _ => true | None => false end.

Definition return_book (st : State) (current_user : User) (borrow_id : Z)
           (now : datetime) : State * Response :=
  role_required "librarian" current_user st
    (let records := borrowing_records_data st in
     match find (has_record_id borrow_id) records with
     | None => (st, fail 404 "Borrowing record not found")
     | Some record =>
         if negb (is_active record)
         then (st, fail 400 "Book is not currently borrowed or reserved")
         else
           match find (has_book_id (book_id record)) (books_data st) with
           | None => (st, fail 500 "Associated book not found")
           | Some _ =>
               let books :=
                 if was_borrowed record
                 then update_first (has_book_id (book_id record)) increment_available
                                   (books_data st)
                 else books_data st in
               (mkState (users_data st) books
                        (update_first (has_record_id borrow_id) (mark_returned now) records),
                mkResponse 200 "Book returned successfully"
                           (RecordPayload (mark_returned now record)))
           end
     end).

(** ** Requests and reachable states *)

Inductive Action :=
| AddBook (data : BookForm)
| UpdateBook (k : Z) (data : BookPatch)
| DeleteBook (k : Z)
| BorrowBook (k : Z) (now1 now2 : datetime)
| ReserveBook (k : Z)
| CancelReservation (borrow_id : Z) (now : datetime)
| ReturnBook (borrow_id : Z) (now : datetime).

Definition perform (st : State) (current_user : User) (a : Action) : State * Response :=
  match a with
  | AddBook data => add_book st current_user data
  | UpdateBook k data => update_book st current_user k data
  | DeleteBook k => delete_book st current_user k
  | BorrowBook k now1 now2 => borrow_book st current_user k now1 now2
  | ReserveBook k => reserve_book st current_user k
  | CancelReservation i now => cancel_reservation st current_user i now
  | ReturnBook i now => return_book st current_user i now
  end.

(** The request headers read by [login_required]; [None] is a header that
    is absent or empty.  [X-User-ID] is compared with the text of the row
    identifier and is modelled by the integer it spells. *)
Record Headers := mkHeaders {
  x_user_id : option Z;
  x_auth_token : option string
}.

(** The row that [login_required] attaches to the request. *)
Definition login_required (st : State) (h : Headers) : option User :=
  match x_user_id h with
  | Some i => find (fun u => uid u =? i) (users_data st)
  | None =>
      match x_auth_token h with
      | Some t =>
          if (t =? "")%string then None
          else find (fun u => (token u =? t)%string) (users_data st)
      | None => None
      end
  end.

Inductive Request :=
| Register (uname pwd urole new_token pw_hash : string)
| Call (h : Headers) (a : Action).

Definition serve (st : State) (req : Request) : State * Response :=
  match req with
  | Register uname pwd urole new_token pw_hash =>
      register_user st uname pwd urole new_token pw_hash
  | Call h a =>
      match login_required st h with
      | None => (st, fail 401 "Authentication required or invalid credentials")
      | Some current_user => perform st current_user a
      end
  end.

(** The tables after a sequence of requests. *)
Definition run (st : State) (reqs : list Request) : State :=
  fold_left (fun s req => fst (serve s req)) reqs st.

(** The states the service can be in, starting from empty tables.  An
    endpoint other than registration runs on behalf of a row of
    [users_data], the one [login_required] found. *)
Inductive reachable : State -> Prop :=
| reach_empty : reachable empty_state
| reach_register st uname pwd urole new_token pw_hash :
    reachable st ->
    reachable (fst (register_user st uname pwd urole new_token pw_hash))
| reach_perform st current_user a :
    reachable st ->
    In current_user (users_data st) ->
    reachable (fst (perform st current_user a)).

(** ** Quantities of the invariants *)

Definition borrowed_on (k : Z) (r : BorrowingRecord) : bool :=
  (book_id r =? k) && (status r =? "borrowed")%string.

(** [count(records where book_id = k and status == 'borrowed')] *)
Definition borrowed_copies (st : State) (k : Z) : Z :=
  Z.of_nat (List.length (filter (borrowed_on k) (borrowing_records_data st))).

(** [count(records where student_id = s and status == 'borrowed')] *)
Definition borrowed_count (st : State) (s : Z) : Z :=
  Z.of_nat (List.length (filter (borrowed_by s) (borrowing_records_data st))).

(** Number of non-terminal records of the pair [(s, k)]. *)
Definition active_count (st : State) (s k : Z) : nat :=
  List.length (filter (active_for s k) (borrowing_records_data st)).

Definition ledger_ok (st : State) : Prop :=
  forall b, In b (books_data st) ->
            available_copies b = total_copies b - borrowed_copies st (bid b).

Definition unique_active (st : State) : Prop :=
  forall s k, (active_count st s k <= 1)%nat.

Definition within_limit (st : State) : Prop :=
  forall s, borrowed_count st s <= 3.

(** What the endpoints keep true of the tables besides the ledger: keys are
    not shared, a loan carries its borrow date and points to a book, a
    reservation carries no borrow date. *)
Definition consistent (st : State) : Prop :=
  NoDup (map bid (books_data st))
  /\ NoDup (map rid (borrowing_records_data st))
  /\ (forall r, In r (borrowing_records_data st) -> status r = "borrowed" ->
        was_borrowed r = true /\ In (book_id r) (map bid (books_data st)))
  /\ (forall r, In r (borrowing_records_data st) -> status r = "reserved" ->
        was_borrowed r = false)
  /\ ledger_ok st.

(** ** Sample data *)

(** Monday 1 January 2024, 10:30:00. *)
Definition monday_2024_01_01 : datetime := mkDatetime 738886 10 30 0 0.

Definition noon : datetime := monday_2024_01_01.

Definition sample_librarian : User := mkUser 1 "lib" "h1" "librarian" "".

Definition sample_student : User := mkUser 2 "stu" "h2" "student" "tok-1".

Definition librarian_headers : Headers := mkHeaders (Some 1) None.

Definition student_headers : Headers := mkHeaders None (Some "tok-1").

(** A book form like the one of the test fixture [add_test_book]. *)
Definition book_form (i : string) (copies : Z) : BookForm :=
  mkBookForm "Test Book" "Test Author" i (Some 2023) (Some copies).

(** A librarian and a student register. *)
Definition setup : list Request :=
  [Register "lib" "pw" "librarian" "" "h1";
   Register "stu" "pw" "student" "tok-1" "h2"].

(** One book with a single copy. *)
Definition one_book_state : State :=
  run empty_state (setup ++ [Call librarian_headers (AddBook (book_form "TEST-1" 1))]).

(** The student reserved the only book. *)
Definition reserved_state : State :=
  run one_book_state [Call student_headers (ReserveBook 1)].

(** The student borrowed the only book and the librarian took it back. *)
Definition returned_state : State :=
  run one_book_state
      [Call student_headers (BorrowBook 1 noon noon);
       Call librarian_headers (ReturnBook 1 noon)].

(** Three single-copy books on loan to the student, and a fourth and a
    fifth book, with no copy and with one copy. *)
Definition limit_state : State :=
  run empty_state
      (setup ++
       [Call librarian_headers (AddBook (book_form "TEST-1" 1));
        Call librarian_headers (AddBook (book_form "TEST-2" 1));
        Call librarian_headers (AddBook (book_form "TEST-3" 1));
        Call librarian_headers (AddBook (book_form "TEST-4" 0));
        Call librarian_headers (AddBook (book_form "TEST-5" 1));
        Call student_headers (BorrowBook 1 noon noon);
        Call student_headers (BorrowBook 2 noon noon);
        Call student_headers (BorrowBook 3 noon noon)]).



(** ** Further definitions for the due-date calculator *)


(** Weekend days at the start of the walk: 1 for a borrow on Saturday, 2
    for a borrow on Sunday. *)
Definition weekend_shift (d : datetime) : Z :=
  if weekday d <? 5 then 0 else weekday d - 4.

(** ** Endpoints that only read the tables *)

(** The answer of an endpoint that returns data: the status code with the
    JSON body, or the status code with the error message. *)
Inductive Result (A : Type) :=
| Ok (c : Z) (body : A)
| Err (c : Z) (msg : string).

Arguments Ok {A} c body.
Arguments Err {A} c msg.








Definition has_user_id (s : Z) (u : User) : bool := uid u =? s.




Section Search.

(** [str.lower], which works on the whole of Unicode, is not spelled out. *)
Variable lower : string -> string.


End Search.

(** The body of a successful login; the token key is present for a student
    row with a non-empty token. *)
Record LoginBody := mkLoginBody {
  login_message : string;
  login_user_id : Z;
  login_role : string;
  login_token : option string
}.

Section Login.

(** [werkzeug.security.check_password_hash], applied to the stored hash and
    the password of the request. *)
Variable check_password_hash : string -> string -> bool.

(** [login_user]; an absent key and an empty string are both falsy. *)
Definition login_user (st : State) (uname pwd : string) : Result LoginBody :=
  if (uname =? "")%string || (pwd =? "")%string
  then Err 400 "Missing username or password"
  else
    match find (fun u : User => (username u =? uname)%string) (users_data st) with
    | None => Err 401 "Invalid username or password"
    | Some user =>
        if negb (check_password_hash (password_hash user) pwd)
        then Err 401 "Invalid username or password"
        else
          Ok 200
             (mkLoginBody "Login successful" (uid user) (role user)
                (if (role user =? "student")%string && negb (token user =? "")%string
                 then Some (token user) else None))
    end.

End Login.

(** ** Further invariants *)

(** User rows do not share an identifier or a name. *)
Definition users_unique (st : State) : Prop :=
  NoDup (map uid (users_data st)) /\ NoDup (map username (users_data st)).

Definition isbn_unique (st : State) : Prop :=
  NoDup (map isbn (books_data st)).

(** The date columns that go with each status.  The due date of a loan is
    what [calculate_due_date] gave for some reading of the clock. *)
Definition on_loan_dates (r : BorrowingRecord) : Prop :=
  (exists b, borrow_date r = Some b)
  /\ (exists now, due_date r = Some (calculate_due_date now default_max_weeks)).

Definition no_loan_dates (r : BorrowingRecord) : Prop :=
  borrow_date r = None /\ due_date r = None.

Definition record_shape (r : BorrowingRecord) : Prop :=
  (status r = "reserved" /\ no_loan_dates r /\ return_date r = None)
  \/ (status r = "borrowed" /\ on_loan_dates r /\ return_date r = None)
  \/ (status r = "cancelled" /\ no_loan_dates r
      /\ exists t, return_date r = Some t)
  \/ (status r = "returned" /\ (no_loan_dates r \/ on_loan_dates r)
      /\ exists t, return_date r = Some t).

(** A record belongs to a registered student, and while it is not terminal
    its book is in the store. *)
Definition references_ok (st : State) : Prop :=
  forall r, In r (borrowing_records_data st) ->
    (exists u, In u (users_data st) /\ uid u = student_id r
               /\ role u = "student")
    /\ (is_active r = true -> In (book_id r) (map bid (books_data st))).

(** The moves of the status of a record. *)
Definition legal_transition (s s' : string) : Prop :=
  (s = "reserved" /\ s' = "borrowed")
  \/ (s = "reserved" /\ s' = "cancelled")
  \/ (s = "reserved" /\ s' = "returned")
  \/ (s = "borrowed" /\ s' = "returned").

(** A row of the record table before and after a request. *)
Definition evolves (r r' : BorrowingRecord) : Prop :=
  rid r' = rid r /\ student_id r' = student_id r /\ book_id r' = book_id r
  /\ (r' = r \/ legal_transition (status r) (status r')).

(** ** Names for what the endpoints require and write *)

(** The role named by the [role_required] decorator of each endpoint. *)
Definition required_role (a : Action) : string :=
  match a with
  | AddBook _ | UpdateBook _ _ | DeleteBook _ | ReturnBook _ _ => "librarian"
  | BorrowBook _ _ _ | ReserveBook _ | CancelReservation _ _ => "student"
  end.

(** The columns of a book that describe it in the catalogue: all but
    [available_copies]. *)
Definition catalogue_entry (b : Book) : Z * string * string * string * option Z * Z :=
  (bid b, title b, author b, isbn b, publication_year b, total_copies b).

(** The assignments of [update_book] to [title] and [author]. *)
Definition patch_names (data : BookPatch) (book : Book) : Book :=
  let book := match patch_title data with
              | Some t => set_title book t
              | None => book
              end in
  match patch_author data with
  | Some a => set_author book a
  | None => book
  end.

(** The test that makes [update_book] answer 409. *)
Definition isbn_conflict (st : State) (k : Z) (data : BookPatch) (book : Book) : bool :=
  match patch_isbn data with
  | Some i =>
      negb (i =? isbn book)%string
      && existsb (fun b => negb (has_book_id k b) && (isbn b =? i)%string)
                 (books_data st)
  | None => false
  end.

(** The assignments of [update_book] to [isbn] and [publication_year]. *)
Definition patch_details (data : BookPatch) (book : Book) : Book :=
  let book := match patch_isbn data with
              | Some i => set_isbn book i
              | None => book
              end in
  match patch_publication_year data with
  | Some y => set_publication_year book (year_column y)
  | None => book
  end.

(** The assignments of [update_book] to the two copy counts. *)
Definition patch_copies (new_total : Z) (book : Book) : Book :=
  set_total_copies
    (set_available_copies book
       (available_copies book + (new_total - total_copies book)))
    new_total.


(** The record table before and after a request: the rows that were there
    stay in place and evolve, and at most one row, not terminal, is added
    at the end. *)
Definition history_step (rs rs' : list BorrowingRecord) : Prop :=
  exists updated added,
    rs' = updated ++ added
    /\ Forall2 evolves rs updated
    /\ (added = [] \/ exists r, added = [r] /\ is_active r = true).

Definition terminal (r : BorrowingRecord) : Prop :=
  status r = "returned" \/ status r = "cancelled".

(** The columns of a user row that no request changes. *)
Definition id_and_role (u : User) : Z * string := (uid u, role u).
(** * Properties *)

(** ** The due-date calculator *)

Section DueDate.

Lemma add_days_0 d : add_days d 0 = d.
Proof. destruct d; unfold add_days; simpl; f_equal; lia. Qed.

Lemma add_days_add d a b : add_days (add_days d a) b = add_days d (a + b).
Proof. unfold add_days; simpl; f_equal; lia. Qed.

Lemma weekday_add_days d k : weekday (add_days d k) = (weekday d + k) mod 7.
Proof.
  unfold weekday, add_days; simpl.
  rewrite Zplus_mod_idemp_l. f_equal. lia.
Qed.

Lemma due_date_loop_offset n max_weeks d :
  forall off count,
    due_date_loop n max_weeks (add_days d off) count
    = add_days d (due_offset n max_weeks (weekday d) off count).
Proof.
  induction n as [|n IH]; intros off count; simpl.
  - reflexivity.
  - rewrite add_days_add. unfold is_working_day.
    rewrite weekday_add_days.
    destruct ((weekday d + (off + 1)) mod 7 <? 5);
      match goal with |- context [?c >=? ?m] => destruct (c >=? m) end;
      auto.
Qed.


End DueDate.



(** ** Lists of rows *)

Section Rows.

Context {A : Type}.
Implicit Types (p q : A -> bool) (f : A -> A) (l : list A).

Lemma update_first_none p f l :
  find p l = None -> update_first p f l = l.
Proof.
  induction l as [|x l IH]; simpl; [reflexivity|].
  destruct (p x); [discriminate|]. intros H. now rewrite IH.
Qed.

(** Counting the rows that satisfy [q] before and after one row changed. *)
Lemma count_update_first p q f l x :
  find p l = Some x ->
  (List.length (filter q (update_first p f l)) + (if q x then 1 else 0)
   = List.length (filter q l) + (if q (f x) then 1 else 0))%nat.
Proof.
  induction l as [|y l IH]; simpl; [discriminate|].
  destruct (p y) eqn:Hp.
  - intros [= ->]. simpl.
    destruct (q x), (q (f x)); simpl; lia.
  - intros H. specialize (IH H). simpl.
    destruct (q y); simpl; lia.
Qed.

Lemma count_update_first_same p q f l x :
  find p l = Some x -> q (f x) = q x ->
  List.length (filter q (update_first p f l)) = List.length (filter q l).
Proof.
  intros H E. pose proof (count_update_first p q f l x H) as C.
  rewrite E in C. destruct (q x); lia.
Qed.

Lemma count_app_one q l x :
  List.length (filter q (l ++ [x]))
  = (List.length (filter q l) + (if q x then 1 else 0))%nat.
Proof.
  rewrite filter_app, length_app. simpl. destruct (q x); reflexivity.
Qed.

Lemma count_zero q l :
  (forall x, In x l -> q x = false) -> List.length (filter q l) = 0%nat.
Proof.
  induction l as [|x l IH]; simpl; intros H; [reflexivity|].
  rewrite (H x (or_introl eq_refl)). apply IH. intros y Hy. apply H. now right.
Qed.

Lemma count_positive q l x :
  In x l -> q x = true -> (1 <= List.length (filter q l))%nat.
Proof.
  intros Hin Hq.
  assert (In x (filter q l)) as H by (apply filter_In; auto).
  destruct (filter q l); [contradiction|simpl; lia].
Qed.

Lemma find_none_count p l :
  find p l = None -> List.length (filter p l) = 0%nat.
Proof.
  intros H. apply count_zero. intros x Hx. exact (find_none p l H x Hx).
Qed.

Lemma in_update_first p f l y :
  In y (update_first p f l) ->
  In y l \/ exists x, find p l = Some x /\ y = f x.
Proof.
  induction l as [|x l IH]; simpl; [tauto|].
  destruct (p x) eqn:Hp; simpl.
  - intros [<-|H]; [right; eauto|left; auto].
  - intros [<-|H]; [left; auto|].
    destruct (IH H) as [?|?]; auto.
Qed.

Lemma update_first_in p f l x :
  find p l = Some x -> In (f x) (update_first p f l).
Proof.
  induction l as [|y l IH]; simpl; [discriminate|].
  destruct (p y); [intros [= ->]; now left|]. intros H. right. auto.
Qed.

Lemma in_remove_first p l y : In y (remove_first p l) -> In y l.
Proof.
  induction l as [|x l IH]; simpl; [tauto|].
  destruct (p x); simpl; [auto|]. intros [<-|H]; auto.
Qed.

Lemma find_app_none p l x :
  find p l = None -> find p (l ++ [x]) = if p x then Some x else None.
Proof.
  induction l as [|y l IH]; simpl; [reflexivity|].
  destruct (p y); [discriminate|auto].
Qed.

Lemma find_app_some p l l' x :
  find p l = Some x -> find p (l ++ l') = Some x.
Proof.
  induction l as [|y l IH]; simpl; [discriminate|].
  destruct (p y); auto.
Qed.

Lemma find_update_first_hit p f l x :
  find p l = Some x -> p (f x) = true ->
  find p (update_first p f l) = Some (f x).
Proof.
  induction l as [|y l IH]; simpl; [discriminate|].
  destruct (p y) eqn:Hp.
  - intros [= ->] Hf. simpl. now rewrite Hf.
  - intros H Hf. simpl. rewrite Hp. auto.
Qed.

Lemma find_update_first_other p q f l :
  (forall y, p y = true -> q y = false /\ q (f y) = false) ->
  find q (update_first p f l) = find q l.
Proof.
  intros H. induction l as [|y l IH]; simpl; [reflexivity|].
  destruct (p y) eqn:Hp; simpl.
  - destruct (H y Hp) as [-> ->]. reflexivity.
  - now rewrite IH.
Qed.

Lemma update_first_self p l x :
  find p l = Some x -> update_first p (fun _ => x) l = l.
Proof.
  induction l as [|y l IH]; simpl; [discriminate|].
  destruct (p y); [now intros [= ->]|]. intros H. now rewrite IH.
Qed.

Lemma update_first_app_last p f l x :
  find p l = None -> p x = true ->
  update_first p f (l ++ [x]) = l ++ [f x].
Proof.
  induction l as [|y l IH]; simpl; intros H Hx.
  - now rewrite Hx.
  - destruct (p y); [discriminate|]. now rewrite IH.
Qed.

End Rows.

(** Identifiers handed out by [_get_next_id] are above all the others. *)
Lemma max_id_ge x ids : x <= max_id x ids.
Proof. revert x. induction ids as [|y ids IH]; simpl; intros x; [lia|].
  specialize (IH (Z.max x y)). lia. Qed.

Lemma max_id_bound x ids y : In y ids -> y <= max_id x ids.
Proof.
  revert x. induction ids as [|z ids IH]; simpl; intros x; [tauto|].
  intros [->|Hy]; [|auto].
  pose proof (max_id_ge (Z.max x y) ids). lia.
Qed.

Lemma next_id_fresh ids y : In y ids -> y < _get_next_id ids.
Proof.
  destruct ids as [|x ids]; simpl; [tauto|].
  intros [->|Hy].
  - pose proof (max_id_ge y ids). lia.
  - pose proof (max_id_bound x ids y Hy). lia.
Qed.

(** Rows addressed by an integer key that no two of them share. *)
Section Keyed.

Context {A : Type} (key : A -> Z).
Implicit Types (f : A -> A) (l : list A).

Lemma map_key_update_first (p : A -> bool) f l :
  (forall x, key (f x) = key x) ->
  map key (update_first p f l) = map key l.
Proof.
  intros Hf. induction l as [|x l IH]; simpl; [reflexivity|].
  destruct (p x); simpl; [now rewrite Hf|now rewrite IH].
Qed.

Lemma in_update_first_keyed k f l x y :
  NoDup (map key l) ->
  find (fun z => key z =? k) l = Some x ->
  In y (update_first (fun z => key z =? k) f l) ->
  y = f x \/ (In y l /\ key y <> k).
Proof.
  induction l as [|z l IH]; simpl; [discriminate|].
  intros Hnd. inversion Hnd as [|? ? Hz Hnd']; subst.
  destruct (key z =? k) eqn:Hk.
  - intros [= ->]. simpl. intros [<-|Hy]; [now left|].
    right. split; [now right|].
    apply Z.eqb_eq in Hk. intros E. apply Hz.
    rewrite Hk, <- E. now apply in_map.
  - intros Hf. simpl. intros [<-|Hy].
    + right. split; [now left|]. now apply Z.eqb_neq.
    + destruct (IH Hnd' Hf Hy) as [?|[? ?]]; auto.
Qed.

Lemma in_remove_first_keyed k l y :
  NoDup (map key l) ->
  In y (remove_first (fun z => key z =? k) l) ->
  In y l /\ key y <> k.
Proof.
  induction l as [|z l IH]; simpl; [tauto|].
  intros Hnd. inversion Hnd as [|? ? Hz Hnd']; subst.
  destruct (key z =? k) eqn:Hk.
  - intros Hy. split; [now right|].
    apply Z.eqb_eq in Hk. intros E. apply Hz.
    rewrite Hk, <- E. now apply in_map.
  - simpl. intros [<-|Hy].
    + split; [now left|]. now apply Z.eqb_neq.
    + destruct (IH Hnd' Hy). auto.
Qed.

Lemma remove_first_keeps k l y :
  In y l -> key y <> k -> In y (remove_first (fun z => key z =? k) l).
Proof.
  induction l as [|z l IH]; simpl; [tauto|].
  destruct (key z =? k) eqn:Hk.
  - intros [<-|Hy] Hne; [apply Z.eqb_eq in Hk; contradiction|assumption].
  - intros [<-|Hy] Hne; [now left|right; auto].
Qed.

Lemma update_first_keeps k f l y :
  In y l -> key y <> k -> In y (update_first (fun z => key z =? k) f l).
Proof.
  induction l as [|z l IH]; simpl; [tauto|].
  destruct (key z =? k) eqn:Hk.
  - intros [<-|Hy] Hne; [apply Z.eqb_eq in Hk; contradiction|now right].
  - intros [<-|Hy] Hne; [now left|right; auto].
Qed.

Lemma NoDup_remove_first k l :
  NoDup (map key l) -> NoDup (map key (remove_first (fun z => key z =? k) l)).
Proof.
  induction l as [|z l IH]; simpl; [auto|].
  intros Hnd. inversion Hnd as [|? ? Hz Hnd']; subst.
  destruct (key z =? k); [assumption|].
  simpl. constructor; [|auto].
  intros Hin. apply Hz. apply in_map_iff in Hin as (y & E & Hy).
  apply in_map_iff. exists y. split; [assumption|].
  eapply in_remove_first; eauto.
Qed.

Lemma find_key_unique k l x :
  NoDup (map key l) -> In x l -> key x = k -> find (fun z => key z =? k) l = Some x.
Proof.
  induction l as [|z l IH]; simpl; [tauto|].
  intros Hnd. inversion Hnd as [|? ? Hz Hnd']; subst.
  intros [->|Hx] E.
  - rewrite E, Z.eqb_refl. reflexivity.
  - destruct (key z =? k) eqn:Hk; [|auto].
    exfalso. apply Hz. apply Z.eqb_eq in Hk. rewrite Hk, <- E. now apply in_map.
Qed.

Lemma find_remove_first_none k l :
  NoDup (map key l) -> find (fun z => key z =? k) (remove_first (fun z => key z =? k) l) = None.
Proof.
  intros Hnd. destruct (find (fun z => key z =? k) (remove_first (fun z => key z =? k) l)) eqn:F; auto.
  apply find_some in F as [Hin Hk].
  apply in_remove_first_keyed in Hin as [_ Hne]; auto.
  simpl in Hk. apply Z.eqb_eq in Hk. contradiction.
Qed.

Lemma NoDup_app_next l x :
  NoDup (map key l) -> key x = _get_next_id (map key l) ->
  NoDup (map key (l ++ [x])).
Proof.
  intros Hnd E. rewrite map_app. simpl.
  apply NoDup_app; [assumption|repeat constructor; simpl; tauto|].
  intros y Hy [<-|[]]. apply next_id_fresh in Hy. lia.
Qed.

End Keyed.

(** ** Facts about the row predicates *)

Lemma find_book_spec k books b :
  find (has_book_id k) books = Some b -> In b books /\ bid b = k.
Proof.
  intros H. apply find_some in H as [Hin Hk].
  split; [assumption|]. now apply Z.eqb_eq.
Qed.

Lemma find_record_spec i records r :
  find (has_record_id i) records = Some r -> In r records /\ rid r = i.
Proof.
  intros H. apply find_some in H as [Hin Hk].
  split; [assumption|]. now apply Z.eqb_eq.
Qed.

Lemma active_for_spec s k r :
  active_for s k r = true <->
  student_id r = s /\ book_id r = k /\ is_active r = true.
Proof.
  unfold active_for. rewrite !andb_true_iff, !Z.eqb_eq. tauto.
Qed.

Lemma is_active_spec r :
  is_active r = true <-> status r = "borrowed" \/ status r = "reserved".
Proof.
  unfold is_active. rewrite orb_true_iff, !String.eqb_eq. tauto.
Qed.

Lemma borrowed_on_spec k r :
  borrowed_on k r = true <-> book_id r = k /\ status r = "borrowed".
Proof.
  unfold borrowed_on. rewrite andb_true_iff, Z.eqb_eq, String.eqb_eq. tauto.
Qed.

Lemma borrowed_by_spec s r :
  borrowed_by s r = true <-> student_id r = s /\ status r = "borrowed".
Proof.
  unfold borrowed_by. rewrite andb_true_iff, Z.eqb_eq, String.eqb_eq. tauto.
Qed.

Lemma borrowed_on_status k r s :
  status r = s -> s <> "borrowed" -> borrowed_on k r = false.
Proof.
  intros E Hs. unfold borrowed_on. rewrite E.
  apply String.eqb_neq in Hs. rewrite Hs. apply andb_false_r.
Qed.

Lemma borrowed_by_status x r s :
  status r = s -> s <> "borrowed" -> borrowed_by x r = false.
Proof.
  intros E Hs. unfold borrowed_by. rewrite E.
  apply String.eqb_neq in Hs. rewrite Hs. apply andb_false_r.
Qed.

Lemma is_active_terminal r s :
  status r = s -> s <> "borrowed" -> s <> "reserved" -> is_active r = false.
Proof.
  intros E H1 H2. unfold is_active. rewrite E.
  apply String.eqb_neq in H1, H2. now rewrite H1, H2.
Qed.

Lemma active_for_terminal x k r s :
  status r = s -> s <> "borrowed" -> s <> "reserved" -> active_for x k r = false.
Proof.
  intros E H1 H2. unfold active_for.
  rewrite (is_active_terminal r s E H1 H2). apply andb_false_r.
Qed.

(** ** The ledger under a change of one book and of the records *)

Lemma ledger_frame st st' :
  books_data st' = books_data st ->
  (forall k, borrowed_copies st' k = borrowed_copies st k) ->
  ledger_ok st -> ledger_ok st'.
Proof.
  intros Hb Hc L b Hin. rewrite Hb in Hin. rewrite Hc. auto.
Qed.

Lemma ledger_one_book st st' k g b0 :
  NoDup (map bid (books_data st)) ->
  find (has_book_id k) (books_data st) = Some b0 ->
  books_data st' = update_first (has_book_id k) g (books_data st) ->
  (forall j, j <> k -> borrowed_copies st' j = borrowed_copies st j) ->
  bid (g b0) = k ->
  available_copies (g b0) = total_copies (g b0) - borrowed_copies st' k ->
  ledger_ok st -> ledger_ok st'.
Proof.
  intros Hnd Hf Hb Hframe Hk Hnew L b Hin. rewrite Hb in Hin.
  apply (in_update_first_keyed bid k g _ b0) in Hin; auto.
  destruct Hin as [->|[Hin Hne]].
  - rewrite Hk. exact Hnew.
  - rewrite Hframe by assumption. auto.
Qed.

Lemma borrowed_copies_app us bs bs' rs new k :
  borrowed_copies (mkState us bs' (rs ++ [new])) k
  = borrowed_copies (mkState us bs rs) k + (if borrowed_on k new then 1 else 0).
Proof.
  unfold borrowed_copies. simpl. rewrite count_app_one.
  destruct (borrowed_on k new); lia.
Qed.

Lemma borrowed_copies_update us bs bs' rs p f x k :
  find p rs = Some x ->
  borrowed_copies (mkState us bs' (update_first p f rs)) k
  + (if borrowed_on k x then 1 else 0)
  = borrowed_copies (mkState us bs rs) k
    + (if borrowed_on k (f x) then 1 else 0).
Proof.
  intros H. unfold borrowed_copies. simpl.
  pose proof (count_update_first p (borrowed_on k) f rs x H).
  destruct (borrowed_on k x), (borrowed_on k (f x)); lia.
Qed.

(** ** The endpoints keep the tables consistent *)

Lemma books_keys_decrement p books :
  map bid (update_first p decrement_available books) = map bid books.
Proof. apply map_key_update_first. reflexivity. Qed.

Lemma books_keys_increment p books :
  map bid (update_first p increment_available books) = map bid books.
Proof. apply map_key_update_first. reflexivity. Qed.

Lemma found_book_key k books b :
  find (has_book_id k) books = Some b -> In k (map bid books).
Proof.
  intros H. apply find_book_spec in H as [Hin <-]. now apply in_map.
Qed.

Lemma borrow_fresh_consistent st s k book new :
  consistent st ->
  find (has_book_id k) (books_data st) = Some book ->
  new = mkRecord (_get_next_id (map rid (borrowing_records_data st))) s k
                 (borrow_date new) (due_date new) (return_date new) "borrowed" ->
  was_borrowed new = true ->
  consistent
    (mkState (users_data st)
             (update_first (has_book_id k) decrement_available (books_data st))
             (borrowing_records_data st ++ [new])).
Proof.
  intros (Hb & Hr & Hloan & Hres & L) Fb Enew Hwb.
  assert (rid new = _get_next_id (map rid (borrowing_records_data st))
          /\ book_id new = k /\ status new = "borrowed") as (Eid & Ek & Es)
      by (rewrite Enew; simpl; auto).
  unfold consistent; simpl. rewrite books_keys_decrement.
  split; [assumption|]. split; [now apply NoDup_app_next|].
  split; [|split].
  - intros r Hin Hs. apply in_app_or in Hin as [Hin|[<-|[]]]; [auto|].
    split; [assumption|]. rewrite Ek. eapply found_book_key; eauto.
  - intros r Hin Hs. apply in_app_or in Hin as [Hin|[<-|[]]]; [auto|].
    rewrite Es in Hs. discriminate.
  - eapply (ledger_one_book st _ k decrement_available book); simpl; eauto.
    + intros j Hj. destruct st as [us bs rs]; simpl.
      rewrite (borrowed_copies_app us bs).
      replace (borrowed_on j new) with false; [lia|].
      symmetry. unfold borrowed_on. rewrite Ek.
      apply Z.eqb_neq in Hj. rewrite Z.eqb_sym in Hj. now rewrite Hj.
    + apply find_book_spec in Fb. tauto.
    + destruct st as [us bs rs]; simpl in *.
      rewrite (borrowed_copies_app us bs).
      replace (borrowed_on k new) with true.
      * apply find_book_spec in Fb as [Hin Hk].
        specialize (L book Hin). rewrite Hk in L.
        unfold borrowed_copies in *; simpl in *. lia.
      * symmetry. apply borrowed_on_spec. auto.
Qed.

Lemma books_keys_store k book books :
  bid book = k ->
  map bid (update_first (has_book_id k) (fun _ => book) books) = map bid books.
Proof.
  intros E. induction books as [|x l IH]; simpl; [reflexivity|].
  unfold has_book_id at 1. destruct (bid x =? k) eqn:Hk; simpl.
  - apply Z.eqb_eq in Hk. congruence.
  - now rewrite IH.
Qed.

Lemma borrow_collect_consistent st s k book r now1 now2 :
  consistent st ->
  find (has_book_id k) (books_data st) = Some book ->
  find (active_for s k) (borrowing_records_data st) = Some r ->
  status r = "reserved" ->
  consistent
    (mkState (users_data st)
             (update_first (has_book_id k) decrement_available (books_data st))
             (update_first (active_for s k) (collect_reservation now1 now2)
                           (borrowing_records_data st))).
Proof.
  intros (Hb & Hr & Hloan & Hres & L) Fb Fr Es.
  assert (book_id r = k) as Ek
      by (apply find_some in Fr as [_ Fr]; apply active_for_spec in Fr; tauto).
  unfold consistent; simpl. rewrite books_keys_decrement.
  rewrite (map_key_update_first rid) by reflexivity.
  split; [assumption|]. split; [assumption|]. split; [|split].
  - intros r' Hin Hs. apply in_update_first in Hin as [Hin|(x & Fx & ->)]; [auto|].
    rewrite Fr in Fx. injection Fx as <-. split; [reflexivity|].
    simpl. rewrite Ek. eapply found_book_key; eauto.
  - intros r' Hin Hs. apply in_update_first in Hin as [Hin|(x & Fx & ->)]; [auto|].
    discriminate.
  - destruct st as [us bs rs]; simpl in *.
    assert (forall j, borrowed_on j r = false) as Hold
        by (intros j; eapply borrowed_on_status; eauto; discriminate).
    eapply (ledger_one_book (mkState us bs rs) _ k decrement_available book);
      simpl; eauto.
    + intros j Hj.
      pose proof (borrowed_copies_update us bs
                    (update_first (has_book_id k) decrement_available bs)
                    rs _ (collect_reservation now1 now2) r j Fr) as C.
      rewrite Hold in C.
      replace (borrowed_on j (collect_reservation now1 now2 r)) with false in C;
        [lia|].
      symmetry. unfold borrowed_on. simpl. rewrite Ek.
      apply Z.eqb_neq in Hj. rewrite Z.eqb_sym in Hj. now rewrite Hj.
    + apply find_book_spec in Fb. tauto.
    + pose proof (borrowed_copies_update us bs
                    (update_first (has_book_id k) decrement_available bs)
                    rs _ (collect_reservation now1 now2) r k Fr) as C.
      rewrite Hold in C.
      replace (borrowed_on k (collect_reservation now1 now2 r)) with true in C.
      * apply find_book_spec in Fb as [Hin Hk].
        specialize (L book Hin). rewrite Hk in L. lia.
      * symmetry. apply borrowed_on_spec. auto.
Qed.

Lemma borrow_book_consistent st u k now1 now2 :
  consistent st -> consistent (fst (borrow_book st u k now1 now2)).
Proof.
  intros Hc. unfold borrow_book, role_required.
  destruct (negb (role u =? "student")%string); [exact Hc|].
  destruct (find (has_book_id k) (books_data st)) as [book|] eqn:Fb; [|exact Hc].
  destruct (available_copies book <=? 0); [exact Hc|].
  match goal with |- context [?c >=? 3] => destruct (c >=? 3) end; [exact Hc|].
  cbv zeta.
  assert (consistent
            (mkState (users_data st)
               (update_first (has_book_id k) decrement_available (books_data st))
               (borrowing_records_data st ++
                [mkRecord (_get_next_id (map rid (borrowing_records_data st)))
                          (uid u) k (Some now1)
                          (Some (calculate_due_date now1 default_max_weeks))
                          None "borrowed"]))) as Hfresh
      by (eapply borrow_fresh_consistent; eauto; reflexivity).
  destruct (find (active_for (uid u) k) (borrowing_records_data st))
    as [r|] eqn:Fr; [|exact Hfresh].
  destruct (status r =? "borrowed")%string; [exact Hc|].
  destruct (status r =? "reserved")%string eqn:Es; [|exact Hfresh].
  apply String.eqb_eq in Es. simpl.
  eapply borrow_collect_consistent; eauto.
Qed.

Lemma reserve_book_consistent st u k :
  consistent st -> consistent (fst (reserve_book st u k)).
Proof.
  intros Hc. unfold reserve_book, role_required.
  destruct (negb (role u =? "student")%string); [exact Hc|].
  destruct (find (has_book_id k) (books_data st)) as [book|] eqn:Fb; [|exact Hc].
  cbv zeta.
  destruct (find (active_for (uid u) k) (borrowing_records_data st));
    [exact Hc|].
  destruct Hc as (Hb & Hr & Hloan & Hres & L).
  destruct st as [us bs rs]; unfold consistent, with_records; simpl in *.
  split; [assumption|]. split; [now apply NoDup_app_next|]. split; [|split].
  - intros r Hin Hs. apply in_app_or in Hin as [Hin|[<-|[]]]; [auto|discriminate].
  - intros r Hin Hs. apply in_app_or in Hin as [Hin|[<-|[]]]; [auto|reflexivity].
  - apply (ledger_frame (mkState us bs rs)); [reflexivity| |assumption].
    intros j. rewrite (borrowed_copies_app us bs).
    rewrite (borrowed_on_status j _ "reserved")
      by (first [reflexivity | discriminate]).
    lia.
Qed.

Lemma cancel_reservation_consistent st u i now :
  consistent st -> consistent (fst (cancel_reservation st u i now)).
Proof.
  intros Hc. unfold cancel_reservation, role_required.
  destruct (negb (role u =? "student")%string); [exact Hc|].
  cbv zeta.
  destruct (find (own_record i (uid u)) (borrowing_records_data st))
    as [r|] eqn:Fr; [|exact Hc].
  destruct (status r =? "reserved")%string eqn:Es; [|exact Hc].
  apply String.eqb_eq in Es.
  destruct Hc as (Hb & Hr & Hloan & Hres & L).
  destruct st as [us bs rs]; unfold consistent, with_records; simpl in *.
  rewrite (map_key_update_first rid) by reflexivity.
  split; [assumption|]. split; [assumption|]. split; [|split].
  - intros r' Hin Hs. apply in_update_first in Hin as [Hin|(x & Fx & ->)];
      [auto|discriminate].
  - intros r' Hin Hs. apply in_update_first in Hin as [Hin|(x & Fx & ->)];
      [auto|discriminate].
  - apply (ledger_frame (mkState us bs rs)); [reflexivity| |assumption].
    intros j.
    pose proof (borrowed_copies_update us bs bs rs _ (mark_cancelled now) r j Fr) as C.
    rewrite (borrowed_on_status j r "reserved") in C by (first [assumption | reflexivity | discriminate]).
    rewrite (borrowed_on_status j (mark_cancelled now r) "cancelled") in C
      by (first [assumption | reflexivity | discriminate]).
    lia.
Qed.

Lemma return_book_consistent st u i now :
  consistent st -> consistent (fst (return_book st u i now)).
Proof.
  intros Hc. unfold return_book, role_required.
  destruct (negb (role u =? "librarian")%string); [exact Hc|].
  cbv zeta.
  destruct (find (has_record_id i) (borrowing_records_data st))
    as [r|] eqn:Fr; [|exact Hc].
  destruct (is_active r) eqn:Ha; [|exact Hc].
  destruct (find (has_book_id (book_id r)) (books_data st)) as [book|] eqn:Fb;
    [|exact Hc].
  simpl.
  destruct Hc as (Hb & Hr & Hloan & Hres & L).
  pose proof (find_record_spec _ _ _ Fr) as [Hin _].
  assert (forall j, borrowed_on j (mark_returned now r) = false) as Hnew
      by (intros j; apply (borrowed_on_status j _ "returned"); auto; discriminate).
  destruct st as [us bs rs]; unfold consistent, with_records; simpl in *.
  rewrite (map_key_update_first rid) by reflexivity.
  assert (map bid (if was_borrowed r
                   then update_first (has_book_id (book_id r)) increment_available bs
                   else bs) = map bid bs) as Ekeys
      by (destruct (was_borrowed r); [apply books_keys_increment|reflexivity]).
  rewrite Ekeys.
  split; [assumption|]. split; [assumption|]. split; [|split].
  - intros r' Hin' Hs. apply in_update_first in Hin' as [Hin'|(x & Fx & ->)];
      [auto|discriminate].
  - intros r' Hin' Hs. apply in_update_first in Hin' as [Hin'|(x & Fx & ->)];
      [auto|discriminate].
  - apply is_active_spec in Ha as [Es|Es].
    + destruct (Hloan r Hin Es) as [Hwb _]. rewrite Hwb.
      eapply (ledger_one_book (mkState us bs rs) _ (book_id r)
                              increment_available book); simpl; eauto.
      * intros j Hj.
        pose proof (borrowed_copies_update us bs
                      (update_first (has_book_id (book_id r)) increment_available bs)
                      rs _ (mark_returned now) r j Fr) as C.
        rewrite Hnew in C.
        replace (borrowed_on j r) with false in C; [lia|].
        symmetry. unfold borrowed_on.
        apply Z.eqb_neq in Hj. rewrite Z.eqb_sym in Hj. now rewrite Hj.
      * apply find_book_spec in Fb. tauto.
      * pose proof (borrowed_copies_update us bs
                      (update_first (has_book_id (book_id r)) increment_available bs)
                      rs _ (mark_returned now) r (book_id r) Fr) as C.
        rewrite Hnew in C.
        replace (borrowed_on (book_id r) r) with true in C
          by (symmetry; apply borrowed_on_spec; auto).
        apply find_book_spec in Fb as [Hinb Hk].
        specialize (L book Hinb). rewrite Hk in L. lia.
    + rewrite (Hres r Hin Es).
      apply (ledger_frame (mkState us bs rs)); [reflexivity| |assumption].
      intros j.
      pose proof (borrowed_copies_update us bs bs rs _ (mark_returned now) r j Fr) as C.
      rewrite Hnew in C.
      rewrite (borrowed_on_status j r "reserved") in C by (first [assumption | reflexivity | discriminate]).
      lia.
Qed.

Lemma consistent_users st us :
  consistent st -> consistent (with_users st us).
Proof. intros H. exact H. Qed.

Lemma register_user_tables st uname pwd urole new_token pw_hash :
  let st' := fst (register_user st uname pwd urole new_token pw_hash) in
  books_data st' = books_data st
  /\ borrowing_records_data st' = borrowing_records_data st.
Proof.
  unfold register_user.
  repeat match goal with
         | |- context [if ?c then _ else _] => destruct c
         | |- context [match find ?p ?l with _ => _ end] => destruct (find p l)
         end; simpl; auto.
Qed.

Lemma register_user_consistent st uname pwd urole new_token pw_hash :
  consistent st ->
  consistent (fst (register_user st uname pwd urole new_token pw_hash)).
Proof.
  intros Hc.
  destruct (register_user_tables st uname pwd urole new_token pw_hash) as [Eb Er].
  destruct (fst (register_user st uname pwd urole new_token pw_hash)) as [us bs rs].
  destruct st as [us0 bs0 rs0]. simpl in *. subst. exact Hc.
Qed.

Lemma add_book_consistent st u data :
  consistent st -> consistent (fst (add_book st u data)).
Proof.
  intros Hc. unfold add_book, role_required.
  destruct (negb (role u =? "librarian")%string); [exact Hc|].
  cbv zeta.
  match goal with |- context [if ?c then _ else _] => destruct c end; [exact Hc|].
  match goal with |- context [if ?c then _ else _] => destruct c end; [exact Hc|].
  destruct Hc as (Hb & Hr & Hloan & Hres & L).
  destruct st as [us bs rs]; unfold consistent, with_books; simpl in *.
  split; [now apply NoDup_app_next|]. split; [assumption|]. split; [|split].
  - intros r Hin Hs. destruct (Hloan r Hin Hs) as [Hwb Hk].
    split; [assumption|]. rewrite map_app. apply in_or_app. now left.
  - assumption.
  - intros b Hin. apply in_app_or in Hin as [Hin|[<-|[]]].
    + exact (L b Hin).
    + simpl. unfold borrowed_copies; simpl.
      rewrite count_zero; [lia|].
      intros r Hin. destruct (borrowed_on (_get_next_id (map bid bs)) r) eqn:E; auto.
      apply borrowed_on_spec in E as [Ek Es].
      destruct (Hloan r Hin Es) as [_ Hk]. rewrite Ek in Hk.
      apply next_id_fresh in Hk. lia.
Qed.

Lemma store_book_consistent st k b0 book :
  consistent st ->
  find (has_book_id k) (books_data st) = Some b0 ->
  bid book = k ->
  total_copies book - available_copies book
  = total_copies b0 - available_copies b0 ->
  consistent (store_book st k book).
Proof.
  intros (Hb & Hr & Hloan & Hres & L) Fb Ek Ecopies.
  destruct st as [us bs rs]; unfold consistent, store_book, with_books; simpl in *.
  rewrite books_keys_store by assumption.
  split; [assumption|]. split; [assumption|]. split; [assumption|].
  split; [assumption|].
  eapply (ledger_one_book (mkState us bs rs) _ k (fun _ => book) b0);
    simpl; eauto.
  apply find_book_spec in Fb as [Hin Hk]. specialize (L b0 Hin).
  rewrite Hk in L. unfold borrowed_copies in *; simpl in *. lia.
Qed.

(** Every way out of [update_book] either leaves the tables alone or stores
    a row with the key of the book and the number of copies on loan that
    the book had. *)
Lemma update_book_shape st u k data :
  fst (update_book st u k data) = st
  \/ exists b0 book,
      find (has_book_id k) (books_data st) = Some b0
      /\ fst (update_book st u k data) = store_book st k book
      /\ bid book = bid b0
      /\ total_copies book - available_copies book
         = total_copies b0 - available_copies b0.
Proof.
  unfold update_book, role_required.
  destruct (negb (role u =? "librarian")%string); [now left|].
  destruct (find (has_book_id k) (books_data st)) as [b0|] eqn:Fb; [|now left].
  right. exists b0. cbv zeta. unfold update_total_copies.
  destruct (patch_title data), (patch_author data), (patch_isbn data),
    (patch_publication_year data), (patch_total_copies data);
    repeat match goal with
           | |- context [if ?c then _ else _] => destruct c
           end;
    eexists; (split; [reflexivity|]); (split; [reflexivity|]);
    simpl; split; (reflexivity || lia).
Qed.

Lemma update_book_consistent st u k data :
  consistent st -> consistent (fst (update_book st u k data)).
Proof.
  intros Hc.
  destruct (update_book_shape st u k data) as [->|(b0 & book & Fb & -> & Ek & Ec)];
    [exact Hc|].
  eapply store_book_consistent; eauto.
  apply find_book_spec in Fb as [_ <-]. exact Ek.
Qed.

Lemma delete_book_consistent st u k :
  consistent st -> consistent (fst (delete_book st u k)).
Proof.
  intros Hc. unfold delete_book, role_required.
  destruct (negb (role u =? "librarian")%string); [exact Hc|].
  destruct (find (has_book_id k) (books_data st)) as [b0|] eqn:Fb; [|exact Hc].
  cbv zeta.
  destruct (filter (active_on k) (borrowing_records_data st)) eqn:Fa; [|exact Hc].
  destruct Hc as (Hb & Hr & Hloan & Hres & L).
  destruct st as [us bs rs]; unfold consistent, with_books; simpl in *.
  split; [now apply NoDup_remove_first|]. split; [assumption|]. split; [|split].
  - intros r Hin Hs. destruct (Hloan r Hin Hs) as [Hwb Hk].
    split; [assumption|].
    apply in_map_iff in Hk as (b & Eb & Hinb).
    apply in_map_iff. exists b. split; [assumption|].
    apply (remove_first_keeps bid); [assumption|].
    intros E. assert (In r (filter (active_on k) rs)) as Habs.
    { apply filter_In. split; [assumption|]. unfold active_on.
      rewrite <- Eb, E, Z.eqb_refl. simpl. apply is_active_spec. now left. }
    rewrite Fa in Habs. contradiction.
  - assumption.
  - intros b Hin. apply in_remove_first in Hin. exact (L b Hin).
Qed.

Lemma perform_consistent st u a :
  consistent st -> consistent (fst (perform st u a)).
Proof.
  destruct a; simpl.
  - apply add_book_consistent.
  - apply update_book_consistent.
  - apply delete_book_consistent.
  - apply borrow_book_consistent.
  - apply reserve_book_consistent.
  - apply cancel_reservation_consistent.
  - apply return_book_consistent.
Qed.

Lemma empty_state_consistent : consistent empty_state.
Proof.
  unfold consistent, empty_state; simpl.
  repeat split; try constructor; try contradiction.
  intros b [].
Qed.

Lemma reachable_consistent st : reachable st -> consistent st.
Proof.
  induction 1.
  - apply empty_state_consistent.
  - now apply register_user_consistent.
  - now apply perform_consistent.
Qed.

(** ** Requests reach reachable states *)

Lemma login_required_in st h u :
  login_required st h = Some u -> In u (users_data st).
Proof.
  unfold login_required.
  destruct (x_user_id h); [intros H; now apply find_some in H|].
  destruct (x_auth_token h) as [t|]; [|discriminate].
  destruct (t =? "")%string; [discriminate|].
  intros H; now apply find_some in H.
Qed.

Lemma serve_reachable st req : reachable st -> reachable (fst (serve st req)).
Proof.
  intros H. destruct req; simpl.
  - now apply reach_register.
  - destruct (login_required st h) eqn:E; [|exact H].
    apply reach_perform; [assumption|]. eapply login_required_in; eauto.
Qed.

Lemma run_reachable reqs : forall st, reachable st -> reachable (run st reqs).
Proof.
  induction reqs as [|req reqs IH]; intros st H; simpl; [assumption|].
  apply IH. now apply serve_reachable.
Qed.

(** ** One non-terminal record per student and book *)

Lemma active_count_app us bs bs' rs new s k :
  active_count (mkState us bs' (rs ++ [new])) s k
  = (active_count (mkState us bs rs) s k
     + (if active_for s k new then 1 else 0))%nat.
Proof. unfold active_count. simpl. apply count_app_one. Qed.

Lemma active_count_update us bs bs' rs p f x s k :
  find p rs = Some x ->
  (active_count (mkState us bs' (update_first p f rs)) s k
   + (if active_for s k x then 1 else 0)
   = active_count (mkState us bs rs) s k
     + (if active_for s k (f x) then 1 else 0))%nat.
Proof. intros H. unfold active_count. simpl. now apply count_update_first. Qed.

Lemma unique_active_new us bs bs' rs new :
  unique_active (mkState us bs rs) ->
  (is_active new = true ->
   find (active_for (student_id new) (book_id new)) rs = None) ->
  unique_active (mkState us bs' (rs ++ [new])).
Proof.
  intros U Hnew s k. rewrite (active_count_app us bs).
  destruct (active_for s k new) eqn:E.
  - apply active_for_spec in E as (<- & <- & Ha).
    unfold active_count. simpl. rewrite find_none_count; auto.
  - specialize (U s k). lia.
Qed.

Lemma unique_active_update us bs bs' rs p f x :
  unique_active (mkState us bs rs) ->
  find p rs = Some x ->
  (forall s k, active_for s k (f x) = true -> active_for s k x = true) ->
  unique_active (mkState us bs' (update_first p f rs)).
Proof.
  intros U F Hf s k.
  pose proof (active_count_update us bs bs' rs p f x s k F) as C.
  specialize (U s k). specialize (Hf s k).
  destruct (active_for s k (f x)); [rewrite Hf in C by reflexivity; lia|].
  destruct (active_for s k x); lia.
Qed.

Lemma unique_active_records st st' :
  borrowing_records_data st' = borrowing_records_data st ->
  unique_active st -> unique_active st'.
Proof.
  intros E U s k. specialize (U s k). unfold active_count in *. now rewrite E.
Qed.

Lemma borrow_book_unique st u k now1 now2 :
  unique_active st -> unique_active (fst (borrow_book st u k now1 now2)).
Proof.
  intros U. unfold borrow_book, role_required.
  destruct (negb (role u =? "student")%string); [exact U|].
  destruct (find (has_book_id k) (books_data st)) as [book|] eqn:Fb; [|exact U].
  destruct (available_copies book <=? 0); [exact U|].
  match goal with |- context [?c >=? 3] => destruct (c >=? 3) end; [exact U|].
  cbv zeta. destruct st as [us bs rs]; simpl in *.
  destruct (find (active_for (uid u) k) rs) as [r|] eqn:Fr.
  - pose proof (find_some _ _ Fr) as [_ Hr].
    apply active_for_spec in Hr as (Hs & Hk & Ha).
    destruct (status r =? "borrowed")%string eqn:E1; [exact U|].
    destruct (status r =? "reserved")%string eqn:E2.
    + simpl. eapply unique_active_update; eauto.
      intros s' k' H. apply active_for_spec in H as (H1 & H2 & _).
      apply active_for_spec. auto.
    + apply is_active_spec in Ha as [Ha|Ha]; rewrite Ha in *; discriminate.
  - simpl. eapply unique_active_new; eauto.
Qed.

Lemma reserve_book_unique st u k :
  unique_active st -> unique_active (fst (reserve_book st u k)).
Proof.
  intros U. unfold reserve_book, role_required.
  destruct (negb (role u =? "student")%string); [exact U|].
  destruct (find (has_book_id k) (books_data st)) as [book|] eqn:Fb; [|exact U].
  cbv zeta. destruct st as [us bs rs]; unfold with_records; simpl in *.
  destruct (find (active_for (uid u) k) rs) as [r|] eqn:Fr; [exact U|].
  simpl. eapply unique_active_new; eauto.
Qed.

Lemma cancel_reservation_unique st u i now :
  unique_active st -> unique_active (fst (cancel_reservation st u i now)).
Proof.
  intros U. unfold cancel_reservation, role_required.
  destruct (negb (role u =? "student")%string); [exact U|].
  cbv zeta. destruct st as [us bs rs]; unfold with_records; simpl in *.
  destruct (find (own_record i (uid u)) rs) as [r|] eqn:Fr; [|exact U].
  destruct (negb (status r =? "reserved")%string); [exact U|].
  simpl. eapply unique_active_update; eauto.
  intros s k H.
  rewrite (active_for_terminal s k _ "cancelled") in H
    by (first [reflexivity | discriminate]).
  discriminate.
Qed.

Lemma return_book_unique st u i now :
  unique_active st -> unique_active (fst (return_book st u i now)).
Proof.
  intros U. unfold return_book, role_required.
  destruct (negb (role u =? "librarian")%string); [exact U|].
  cbv zeta. destruct st as [us bs rs]; simpl in *.
  destruct (find (has_record_id i) rs) as [r|] eqn:Fr; [|exact U].
  destruct (negb (is_active r)); [exact U|].
  destruct (find (has_book_id (book_id r)) bs); [|exact U].
  simpl. eapply unique_active_update; eauto.
  intros s k H.
  rewrite (active_for_terminal s k _ "returned") in H
    by (first [reflexivity | discriminate]).
  discriminate.
Qed.

Lemma add_book_records st u data :
  borrowing_records_data (fst (add_book st u data)) = borrowing_records_data st.
Proof.
  unfold add_book, role_required.
  repeat match goal with
         | |- context [if ?c then _ else _] => destruct c
         end; reflexivity.
Qed.

Lemma update_book_records st u k data :
  borrowing_records_data (fst (update_book st u k data))
  = borrowing_records_data st.
Proof.
  destruct (update_book_shape st u k data) as [->|(b0 & book & _ & -> & _)];
    reflexivity.
Qed.

Lemma delete_book_records st u k :
  borrowing_records_data (fst (delete_book st u k)) = borrowing_records_data st.
Proof.
  unfold delete_book, role_required.
  destruct (negb _); [reflexivity|].
  destruct (find _ _); [|reflexivity].
  cbv zeta. destruct (filter _ _); reflexivity.
Qed.

Lemma perform_unique st u a :
  unique_active st -> unique_active (fst (perform st u a)).
Proof.
  destruct a; simpl.
  - apply unique_active_records, add_book_records.
  - apply unique_active_records, update_book_records.
  - apply unique_active_records, delete_book_records.
  - apply borrow_book_unique.
  - apply reserve_book_unique.
  - apply cancel_reservation_unique.
  - apply return_book_unique.
Qed.

Lemma register_user_unique st uname pwd urole new_token pw_hash :
  unique_active st ->
  unique_active (fst (register_user st uname pwd urole new_token pw_hash)).
Proof.
  apply unique_active_records.
  apply (register_user_tables st uname pwd urole new_token pw_hash).
Qed.

Lemma reachable_unique st : reachable st -> unique_active st.
Proof.
  induction 1.
  - intros s k. unfold active_count. simpl. lia.
  - now apply register_user_unique.
  - now apply perform_unique.
Qed.

(** ** At most three loans per student *)

Lemma borrowed_by_loan s r :
  status r = "borrowed" -> borrowed_by s r = (student_id r =? s).
Proof. intros E. unfold borrowed_by. rewrite E. simpl. apply andb_true_r. Qed.

Lemma borrowed_count_app us bs bs' rs new s :
  borrowed_count (mkState us bs' (rs ++ [new])) s
  = borrowed_count (mkState us bs rs) s + (if borrowed_by s new then 1 else 0).
Proof.
  unfold borrowed_count. simpl. rewrite count_app_one.
  destruct (borrowed_by s new); lia.
Qed.

Lemma borrowed_count_update us bs bs' rs p f x s :
  find p rs = Some x ->
  borrowed_count (mkState us bs' (update_first p f rs)) s
  + (if borrowed_by s x then 1 else 0)
  = borrowed_count (mkState us bs rs) s
    + (if borrowed_by s (f x) then 1 else 0).
Proof.
  intros H. unfold borrowed_count. simpl.
  pose proof (count_update_first p (borrowed_by s) f rs x H).
  destruct (borrowed_by s x), (borrowed_by s (f x)); lia.
Qed.

Lemma within_limit_records st st' :
  borrowing_records_data st' = borrowing_records_data st ->
  within_limit st -> within_limit st'.
Proof.
  intros E W s. specialize (W s). unfold borrowed_count in *. now rewrite E.
Qed.

(** A record that leaves the status [borrowed], or never had it, does not
    raise any count. *)
Lemma within_limit_update us bs bs' rs p f x :
  within_limit (mkState us bs rs) ->
  find p rs = Some x ->
  (forall s, borrowed_by s (f x) = false) ->
  within_limit (mkState us bs' (update_first p f rs)).
Proof.
  intros W F Hf s.
  pose proof (borrowed_count_update us bs bs' rs p f x s F) as C.
  rewrite Hf in C. specialize (W s).
  destruct (borrowed_by s x); lia.
Qed.

Lemma borrow_book_limit st u k now1 now2 :
  within_limit st -> within_limit (fst (borrow_book st u k now1 now2)).
Proof.
  intros W. unfold borrow_book, role_required.
  destruct (negb (role u =? "student")%string); [exact W|].
  destruct (find (has_book_id k) (books_data st)) as [book|] eqn:Fb; [|exact W].
  destruct (available_copies book <=? 0); [exact W|].
  match goal with |- context [?c >=? 3] => destruct (c >=? 3) eqn:Hlim end;
    [exact W|].
  rewrite Z.geb_leb in Hlim. apply Z.leb_gt in Hlim.
  cbv zeta. destruct st as [us bs rs]; simpl in *.
  assert (within_limit
            (mkState us (update_first (has_book_id k) decrement_available bs)
               (rs ++ [mkRecord (_get_next_id (map rid rs)) (uid u) k (Some now1)
                         (Some (calculate_due_date now1 default_max_weeks))
                         None "borrowed"]))) as Hfresh.
  { intros s. rewrite (borrowed_count_app us bs). specialize (W s).
    rewrite borrowed_by_loan by reflexivity. simpl.
    destruct (uid u =? s) eqn:E; [|lia].
    apply Z.eqb_eq in E. subst s. unfold borrowed_count; simpl. lia. }
  destruct (find (active_for (uid u) k) rs) as [r|] eqn:Fr; [|exact Hfresh].
  destruct (status r =? "borrowed")%string eqn:E1; [exact W|].
  destruct (status r =? "reserved")%string eqn:E2; [|exact Hfresh].
  simpl. intros s.
  pose proof (borrowed_count_update us bs
                (update_first (has_book_id k) decrement_available bs) rs _
                (collect_reservation now1 now2) r s Fr) as C.
  apply String.eqb_eq in E2.
  rewrite (borrowed_by_status s r "reserved") in C
    by (first [assumption | discriminate]).
  specialize (W s).
  pose proof (find_some _ _ Fr) as [_ Hr].
  apply active_for_spec in Hr as (Hs & _ & _).
  rewrite borrowed_by_loan in C by reflexivity. simpl in C. rewrite Hs in C.
  destruct (uid u =? s) eqn:E; [|lia].
  apply Z.eqb_eq in E. subst s. unfold borrowed_count in *; simpl in *. lia.
Qed.

Lemma reserve_book_limit st u k :
  within_limit st -> within_limit (fst (reserve_book st u k)).
Proof.
  intros W. unfold reserve_book, role_required.
  destruct (negb (role u =? "student")%string); [exact W|].
  destruct (find (has_book_id k) (books_data st)) as [book|] eqn:Fb; [|exact W].
  cbv zeta. destruct st as [us bs rs]; unfold with_records; simpl in *.
  destruct (find (active_for (uid u) k) rs) as [r|] eqn:Fr; [exact W|].
  simpl. intros s. rewrite (borrowed_count_app us bs).
  rewrite (borrowed_by_status s _ "reserved")
    by (first [reflexivity | discriminate]).
  specialize (W s). lia.
Qed.

Lemma cancel_reservation_limit st u i now :
  within_limit st -> within_limit (fst (cancel_reservation st u i now)).
Proof.
  intros W. unfold cancel_reservation, role_required.
  destruct (negb (role u =? "student")%string); [exact W|].
  cbv zeta. destruct st as [us bs rs]; unfold with_records; simpl in *.
  destruct (find (own_record i (uid u)) rs) as [r|] eqn:Fr; [|exact W].
  destruct (negb (status r =? "reserved")%string); [exact W|].
  simpl. eapply within_limit_update; eauto.
  intros s. apply (borrowed_by_status s _ "cancelled");
    first [reflexivity | discriminate].
Qed.

Lemma return_book_limit st u i now :
  within_limit st -> within_limit (fst (return_book st u i now)).
Proof.
  intros W. unfold return_book, role_required.
  destruct (negb (role u =? "librarian")%string); [exact W|].
  cbv zeta. destruct st as [us bs rs]; simpl in *.
  destruct (find (has_record_id i) rs) as [r|] eqn:Fr; [|exact W].
  destruct (negb (is_active r)); [exact W|].
  destruct (find (has_book_id (book_id r)) bs); [|exact W].
  simpl. eapply within_limit_update; eauto.
  intros s. apply (borrowed_by_status s _ "returned");
    first [reflexivity | discriminate].
Qed.

Lemma perform_limit st u a :
  within_limit st -> within_limit (fst (perform st u a)).
Proof.
  destruct a; simpl.
  - apply within_limit_records, add_book_records.
  - apply within_limit_records, update_book_records.
  - apply within_limit_records, delete_book_records.
  - apply borrow_book_limit.
  - apply reserve_book_limit.
  - apply cancel_reservation_limit.
  - apply return_book_limit.
Qed.

Lemma reachable_limit st : reachable st -> within_limit st.
Proof.
  induction 1.
  - intros s. unfold borrowed_count. simpl. lia.
  - eapply within_limit_records; [|eassumption].
    apply (register_user_tables st uname pwd urole new_token pw_hash).
  - now apply perform_limit.
Qed.

(** ** Lookups after an operation *)

Lemma find_fresh_record rs :
  find (has_record_id (_get_next_id (map rid rs))) rs = None.
Proof.
  destruct (find _ rs) as [r|] eqn:F; [|reflexivity].
  apply find_record_spec in F as [Hin E].
  apply (in_map rid) in Hin. apply next_id_fresh in Hin. lia.
Qed.

Lemma find_other_book j k f books :
  j <> k -> (forall b, bid (f b) = bid b) ->
  find (has_book_id j) (update_first (has_book_id k) f books)
  = find (has_book_id j) books.
Proof.
  intros Hne Hf. apply find_update_first_other.
  intros b Hb. unfold has_book_id in *. rewrite Hf.
  apply Z.eqb_eq in Hb. subst k. split; now apply Z.eqb_neq.
Qed.

Lemma sample_states_reachable :
  reachable one_book_state /\ reachable reserved_state /\ reachable limit_state.
Proof.
  repeat split; repeat apply run_reachable; apply reach_empty.
Qed.

Lemma find_after_delete j k books :
  j <> k ->
  find (has_book_id j) (remove_first (has_book_id k) books)
  = find (has_book_id j) books.
Proof.
  intros Hne. induction books as [|b l IH]; simpl; [reflexivity|].
  destruct (has_book_id k b) eqn:Hk; simpl.
  - assert (has_book_id j b = false) as ->; [|reflexivity].
    unfold has_book_id in *. apply Z.eqb_eq in Hk. apply Z.eqb_neq. lia.
  - now rewrite IH.
Qed.

(** The [total_copies] branch for any body: whatever other keys the body
    carries, once the ISBN check has passed the copy columns of the stored
    row are untouched by a refusal and adjusted by a success.  (Keys
    assigned before the refusal, such as the title, stay in the row.) *)
Lemma update_book_copies_any_body st librarian k book data new_total :
  role librarian = "librarian" ->
  find (has_book_id k) (books_data st) = Some book ->
  patch_total_copies data = Some new_total ->
  code (snd (update_book st librarian k data)) <> 409 ->
  exists book',
    find (has_book_id k) (books_data (fst (update_book st librarian k data)))
    = Some book'
    /\ if new_total <? total_copies book - available_copies book
       then snd (update_book st librarian k data)
            = fail 400 "Cannot reduce total copies below currently borrowed copies"
            /\ available_copies book' = available_copies book
            /\ total_copies book' = total_copies book
       else snd (update_book st librarian k data)
            = mkResponse 200 "Book updated successfully" (BookPayload book')
            /\ available_copies book'
               = available_copies book + (new_total - total_copies book)
            /\ total_copies book' = new_total.
Proof.
  intros Hrole Fb Ht.
  pose proof (find_some _ _ Fb) as [_ Hk].
  unfold update_book, role_required, update_total_copies.
  rewrite Hrole, Fb, Ht. simpl.
  destruct (patch_title data), (patch_author data), (patch_isbn data),
    (patch_publication_year data); simpl;
    repeat match goal with
           | |- context [if ?c && ?d then _ else _] => destruct (c && d)
           end; simpl; try congruence;
    destruct (new_total <? total_copies book - available_copies book); simpl;
    intros _; eexists;
    (split; [apply (find_update_first_hit _ _ _ _ Fb); exact Hk|]);
    simpl; auto.
Qed.

(** * The claims *)



(** C2.  In every reachable state a student and a book have at most one
    record with status [reserved] or [borrowed] between them, and every
    operation keeps it so. *)
Theorem one_active_record_per_pair :
  (forall st, reachable st -> forall s k, (active_count st s k <= 1)%nat)
  /\ (forall st current_user a,
        (forall s k, (active_count st s k <= 1)%nat) ->
        forall s k, (active_count (fst (perform st current_user a)) s k <= 1)%nat).
Proof.
  split.
  - intros st R. exact (reachable_unique st R).
  - intros st u a U. exact (perform_unique st u a U).
Qed.

Lemma one_active_record_per_pair_witness :
  reachable reserved_state
  /\ (active_count reserved_state 2 1 <= 1)%nat
  /\ (active_count (fst (perform reserved_state sample_student
                                 (BorrowBook 1 noon noon))) 2 1 <= 1)%nat.
Proof.
  assert (reachable reserved_state) as R
      by (repeat apply run_reachable; apply reach_empty).
  split; [exact R|]. split.
  - exact (proj1 one_active_record_per_pair reserved_state R 2 1).
  - apply (proj2 one_active_record_per_pair reserved_state).
    exact (proj1 one_active_record_per_pair reserved_state R).
Defined.

(** C3, as the code has it.  No student ever has more than three records
    with status [borrowed].  A borrow attempt by a student who has three of
    them fails and leaves the tables as they were; the checks run in the
    order book, stock, limit, so the message is the one of the limit when
    the book exists and has a copy available, "Book not found" when there
    is no such book, and the out-of-stock message when no copy is
    available. *)
Theorem borrow_limit :
  (forall st, reachable st -> forall s, borrowed_count st s <= 3)
  /\ (forall st current_user k now1 now2,
        role current_user = "student" ->
        3 <= borrowed_count st (uid current_user) ->
        fst (borrow_book st current_user k now1 now2) = st
        /\ snd (borrow_book st current_user k now1 now2)
           = match find (has_book_id k) (books_data st) with
             | None => fail 404 "Book not found"
             | Some book =>
                 if available_copies book <=? 0
                 then fail 400 "No copies of this book are currently available"
                 else fail 400 "You have reached the maximum limit of 3 borrowed books"
             end).
Proof.
  split.
  - intros st R. exact (reachable_limit st R).
  - intros st u k now1 now2 Hrole Hcount.
    unfold borrow_book, role_required. rewrite Hrole. simpl.
    destruct (find (has_book_id k) (books_data st)) as [book|]; [|auto].
    destruct (available_copies book <=? 0); [auto|].
    unfold borrowed_count in Hcount.
    match goal with |- context [?c >=? 3] => destruct (c >=? 3) eqn:E end;
      [auto|].
    rewrite Z.geb_leb in E. apply Z.leb_gt in E. lia.
Qed.

Lemma borrow_limit_witness :
  reachable limit_state
  /\ borrowed_count limit_state 2 <= 3
  /\ borrow_book limit_state sample_student 5 noon noon
     = (limit_state,
        fail 400 "You have reached the maximum limit of 3 borrowed books").
Proof.
  assert (reachable limit_state) as R by (apply run_reachable, reach_empty).
  split; [exact R|]. split.
  - exact (proj1 borrow_limit limit_state R 2).
  - destruct (proj2 borrow_limit limit_state sample_student 5 noon noon)
      as [E1 E2]; [reflexivity|vm_compute; discriminate|].
    rewrite (surjective_pairing (borrow_book limit_state sample_student 5 noon noon)).
    rewrite E1, E2. reflexivity.
Defined.

(** C3 as it was stated fails: the student of [limit_state] has three
    loans, and the attempt on the fourth book, which has no copy, is
    answered with the out-of-stock message. *)
Lemma borrow_limit_message_counterexample :
  reachable limit_state
  /\ In sample_student (users_data limit_state)
  /\ role sample_student = "student"
  /\ borrowed_count limit_state (uid sample_student) = 3
  /\ snd (borrow_book limit_state sample_student 4 noon noon)
     = fail 400 "No copies of this book are currently available"
  /\ message (snd (borrow_book limit_state sample_student 4 noon noon))
     <> "You have reached the maximum limit of 3 borrowed books".
Proof.
  split; [apply run_reachable, reach_empty|].
  split; [vm_compute; tauto|].
  repeat split; vm_compute; discriminate.
Qed.

(** C4, as the code runs the scenario.  With a single-copy book that is
    available, a student below the limit and without a record on the book:
    the first borrow succeeds and leaves no copy available; the second
    borrow of the same book by the same student is refused, but by the stock
    check, which runs first, so the message is "No copies of this book are
    currently available" and not "You have already borrowed this book";
    after the librarian returns the record one copy is available again. *)
Theorem borrow_twice_single_copy :
  forall st student librarian k book now1 now2 now3 now4 now5,
    role student = "student" ->
    role librarian = "librarian" ->
    find (has_book_id k) (books_data st) = Some book ->
    total_copies book = 1 ->
    available_copies book = 1 ->
    borrowed_count st (uid student) < 3 ->
    find (active_for (uid student) k) (borrowing_records_data st) = None ->
    let st1 := fst (borrow_book st student k now1 now2) in
    exists r,
      snd (borrow_book st student k now1 now2)
      = mkResponse 201 "Book borrowed successfully" (RecordPayload r)
      /\ option_map available_copies (find (has_book_id k) (books_data st1))
         = Some 0
      /\ borrow_book st1 student k now3 now4
         = (st1, fail 400 "No copies of this book are currently available")
      /\ option_map available_copies
           (find (has_book_id k)
                 (books_data (fst (return_book st1 librarian (rid r) now5))))
         = Some 1.
Proof.
  intros st u lib k book now1 now2 now3 now4 now5 Hstu Hlib Fb Htot Hav Hlim Fr.
  assert (has_book_id k (decrement_available book) = true) as Hkd.
  { apply find_some in Fb as [_ Hk]. exact Hk. }
  assert (has_book_id k (increment_available (decrement_available book)) = true)
    as Hki by exact Hkd.
  assert (fst (borrow_book st u k now1 now2)
          = mkState (users_data st)
              (update_first (has_book_id k) decrement_available (books_data st))
              (borrowing_records_data st ++
               [mkRecord (_get_next_id (map rid (borrowing_records_data st)))
                         (uid u) k (Some now1)
                         (Some (calculate_due_date now1 default_max_weeks))
                         None "borrowed"])
          /\ snd (borrow_book st u k now1 now2)
             = mkResponse 201 "Book borrowed successfully"
                 (RecordPayload
                    (mkRecord (_get_next_id (map rid (borrowing_records_data st)))
                              (uid u) k (Some now1)
                              (Some (calculate_due_date now1 default_max_weeks))
                              None "borrowed"))) as [E1 E2].
  { unfold borrow_book, role_required. rewrite Hstu. simpl.
    rewrite Fb, Hav. simpl.
    unfold borrowed_count in Hlim.
    match goal with |- context [?c >=? 3] => destruct (c >=? 3) eqn:E end.
    - rewrite Z.geb_leb in E. apply Z.leb_le in E. lia.
    - rewrite Fr. simpl. auto. }
  intros st1. subst st1. rewrite E1, E2.
  eexists. split; [reflexivity|].
  pose proof (find_update_first_hit _ decrement_available _ _ Fb Hkd) as Fb1.
  split; [|split].
  - simpl. rewrite Fb1. simpl. rewrite Hav. reflexivity.
  - unfold borrow_book, role_required. rewrite Hstu. simpl.
    rewrite Fb1. simpl. rewrite Hav. reflexivity.
  - unfold return_book, role_required. rewrite Hlib. simpl.
    rewrite find_app_none by apply find_fresh_record.
    unfold has_record_id at 1. simpl. rewrite Z.eqb_refl. simpl.
    rewrite Fb1. simpl.
    rewrite (find_update_first_hit _ increment_available _ _ Fb1 Hki).
    simpl. rewrite Hav. reflexivity.
Qed.

Lemma borrow_twice_single_copy_witness :
  borrow_book
    (fst (borrow_book one_book_state sample_student 1 noon noon))
    sample_student 1 noon noon
  = (fst (borrow_book one_book_state sample_student 1 noon noon),
     fail 400 "No copies of this book are currently available").
Proof.
  destruct (borrow_twice_single_copy
              one_book_state sample_student sample_librarian 1
              (mkBook 1 "Test Book" "Test Author" "TEST-1" (Some 2023) 1 1)
              noon noon noon noon noon
              eq_refl eq_refl eq_refl eq_refl eq_refl eq_refl eq_refl)
    as (r & _ & _ & E & _).
  exact E.
Defined.

(** C5.  When a student's reservation of a book has succeeded and the
    student then borrows the book while it has a copy available and the
    student is below the limit, the borrow succeeds on the reservation
    record itself: the record it returns has the identifier of the
    reservation, status [borrowed] and a borrow date and a due date; the
    table has the same rows as before, that record changed in place; the
    book has one available copy less. *)
Theorem reserve_then_borrow :
  forall st student k reservation book now1 now2,
    snd (reserve_book st student k)
    = mkResponse 201 "Book reserved successfully" (RecordPayload reservation) ->
    let st1 := fst (reserve_book st student k) in
    find (has_book_id k) (books_data st1) = Some book ->
    1 <= available_copies book ->
    borrowed_count st1 (uid student) < 3 ->
    let st2 := fst (borrow_book st1 student k now1 now2) in
    exists r,
      snd (borrow_book st1 student k now1 now2)
      = mkResponse 200 "Reserved book collected and borrowed successfully"
                   (RecordPayload r)
      /\ rid r = rid reservation
      /\ student_id r = uid student
      /\ book_id r = k
      /\ status r = "borrowed"
      /\ borrow_date r = Some now1
      /\ due_date r = Some (calculate_due_date now2 4)
      /\ map rid (borrowing_records_data st2) = map rid (borrowing_records_data st1)
      /\ find (has_record_id (rid reservation)) (borrowing_records_data st2) = Some r
      /\ find (has_book_id k) (books_data st2)
         = Some (set_available_copies book (available_copies book - 1)).
Proof.
  intros st u k res book now1 now2 Hres st1 Fb Hav Hlim st2.
  subst st2 st1. revert Fb Hlim.
  unfold reserve_book, role_required in *.
  destruct (negb (role u =? "student")%string) eqn:Hrole; [discriminate|].
  destruct (find (has_book_id k) (books_data st)) as [b0|] eqn:Fb0;
    [|discriminate].
  cbv zeta in *.
  destruct (find (active_for (uid u) k) (borrowing_records_data st)) eqn:Fr;
    [discriminate|].
  simpl in Hres. injection Hres as Hres.
  simpl. intros Fb Hlim.
  unfold borrow_book, role_required. rewrite Hrole.
  cbn [books_data borrowing_records_data users_data with_records negb].
  rewrite Fb.
  destruct (available_copies book <=? 0) eqn:E0;
    [apply Z.leb_le in E0; lia|].
  unfold borrowed_count, with_records in Hlim. simpl in Hlim.
  match goal with |- context [?c >=? 3] => destruct (c >=? 3) eqn:E3 end;
    [rewrite Z.geb_leb in E3; apply Z.leb_le in E3; lia|].
  cbv zeta. rewrite Hres in *.
  assert (active_for (uid u) k res = true) as Hact
      by (rewrite <- Hres; unfold active_for; simpl; now rewrite !Z.eqb_refl).
  assert (rid res = _get_next_id (map rid (borrowing_records_data st))
          /\ status res = "reserved" /\ student_id res = uid u
          /\ book_id res = k) as (Eid & Es & Estu & Ek)
      by (rewrite <- Hres; simpl; auto).
  rewrite (find_app_none _ _ _ Fr), Hact, Es.
  cbn [String.eqb Ascii.eqb Bool.eqb fst snd].
  rewrite (update_first_app_last _ _ _ _ Fr Hact).
  eexists. split; [reflexivity|].
  cbn [books_data borrowing_records_data].
  repeat split; simpl; auto.
  - rewrite !map_app. reflexivity.
  - rewrite find_app_none.
    + unfold has_record_id. simpl. now rewrite Z.eqb_refl.
    + rewrite Eid. apply find_fresh_record.
  - apply (find_update_first_hit _ decrement_available _ _ Fb).
    apply find_some in Fb as [_ Hk]. exact Hk.
Qed.

Lemma reserve_then_borrow_witness :
  exists r,
    snd (borrow_book (fst (reserve_book one_book_state sample_student 1))
                     sample_student 1 noon noon)
    = mkResponse 200 "Reserved book collected and borrowed successfully"
                 (RecordPayload r)
    /\ rid r = 1 /\ status r = "borrowed".
Proof.
  destruct (reserve_then_borrow
              one_book_state sample_student 1
              (mkRecord 1 2 1 None None None "reserved")
              (mkBook 1 "Test Book" "Test Author" "TEST-1" (Some 2023) 1 1)
              noon noon eq_refl eq_refl)
    as (r & E & Hid & _ & _ & Hs & _).
  - vm_compute. discriminate.
  - reflexivity.
  - exists r. auto.
Defined.

(** C6.  [return_book] called by a librarian answers 404 (NotFound) when no
    record has the identifier, and 400 (InvalidState) when the record's
    status is neither [borrowed] nor [reserved], in both cases without
    touching the tables.  Otherwise, the book of the record being in the
    store, the record gets status [returned] and the return date [now] and
    keeps its other columns, and the book's [available_copies] grows by
    one exactly when the record had a borrow date: returning a reservation
    leaves the inventory as it was.  No other book changes. *)
Theorem return_book_spec :
  forall st librarian borrow_id now,
    role librarian = "librarian" ->
    let records := borrowing_records_data st in
    let st' := fst (return_book st librarian borrow_id now) in
    (find (has_record_id borrow_id) records = None ->
     return_book st librarian borrow_id now
     = (st, fail 404 "Borrowing record not found"))
    /\ (forall record,
          find (has_record_id borrow_id) records = Some record ->
          status record <> "borrowed" -> status record <> "reserved" ->
          return_book st librarian borrow_id now
          = (st, fail 400 "Book is not currently borrowed or reserved"))
    /\ (forall record book,
          find (has_record_id borrow_id) records = Some record ->
          status record = "borrowed" \/ status record = "reserved" ->
          find (has_book_id (book_id record)) (books_data st) = Some book ->
          let record' :=
            mkRecord (rid record) (student_id record) (book_id record)
                     (borrow_date record) (due_date record) (Some now) "returned" in
          snd (return_book st librarian borrow_id now)
          = mkResponse 200 "Book returned successfully" (RecordPayload record')
          /\ find (has_record_id borrow_id) (borrowing_records_data st')
             = Some record'
          /\ map rid (borrowing_records_data st') = map rid records
          /\ users_data st' = users_data st
          /\ find (has_book_id (book_id record)) (books_data st')
             = Some (set_available_copies book
                       (match borrow_date record with
                        | Some _ => available_copies book + 1
                        | None => available_copies book
                        end))
          /\ (forall j, j <> book_id record ->
                        find (has_book_id j) (books_data st')
                        = find (has_book_id j) (books_data st))).
Proof.
  intros st lib i now Hrole records st'. subst records st'.
  unfold return_book, role_required. rewrite Hrole. simpl.
  split; [|split].
  - intros ->. reflexivity.
  - intros r -> H1 H2.
    rewrite (is_active_terminal r (status r)) by auto. reflexivity.
  - intros r book Fr Hs Fb. rewrite Fr.
    apply is_active_spec in Hs. rewrite Hs, Fb. simpl.
    assert (has_record_id i (mark_returned now r) = true) as Hi.
    { unfold has_record_id. simpl.
      apply find_some in Fr as [_ Fr]. exact Fr. }
    split; [reflexivity|]. split; [|split; [|split; [reflexivity|split]]].
    + exact (find_update_first_hit _ (mark_returned now) _ _ Fr Hi).
    + apply map_key_update_first. reflexivity.
    + unfold was_borrowed. destruct (borrow_date r).
      * rewrite (find_update_first_hit _ increment_available _ _ Fb).
        -- reflexivity.
        -- apply find_some in Fb as [_ Hk]. exact Hk.
      * rewrite Fb. destruct book; reflexivity.
    + intros j Hj. destruct (was_borrowed r); [|reflexivity].
      apply find_other_book; auto.
Qed.

Lemma return_book_spec_witness :
  find (has_book_id 1)
       (books_data (fst (return_book reserved_state sample_librarian 1 noon)))
  = Some (mkBook 1 "Test Book" "Test Author" "TEST-1" (Some 2023) 1 1)
  /\ find (has_record_id 1)
          (borrowing_records_data
             (fst (return_book reserved_state sample_librarian 1 noon)))
     = Some (mkRecord 1 2 1 None None (Some noon) "returned").
Proof.
  destruct (return_book_spec reserved_state sample_librarian 1 noon eq_refl)
    as (_ & _ & H).
  destruct (H (mkRecord 1 2 1 None None None "reserved")
              (mkBook 1 "Test Book" "Test Author" "TEST-1" (Some 2023) 1 1)
              eq_refl (or_intror eq_refl) eq_refl)
    as (_ & Hrec & _ & _ & Hbook & _).
  split; [exact Hbook|exact Hrec].
Defined.

(** C7.  Returning a record whose status is [returned] is refused with 400
    (InvalidState) and the three tables are what they were.  This holds for
    the record a call resolves to in any state, and so, record identifiers
    being unique in reachable states, for every returned record of a
    reachable state. *)
Theorem return_twice_rejected :
  (forall st librarian borrow_id now record,
      role librarian = "librarian" ->
      find (has_record_id borrow_id) (borrowing_records_data st) = Some record ->
      status record = "returned" ->
      return_book st librarian borrow_id now
      = (st, fail 400 "Book is not currently borrowed or reserved"))
  /\ (forall st librarian now record,
        reachable st ->
        role librarian = "librarian" ->
        In record (borrowing_records_data st) ->
        status record = "returned" ->
        return_book st librarian (rid record) now
        = (st, fail 400 "Book is not currently borrowed or reserved")).
Proof.
  assert (forall st librarian borrow_id now record,
      role librarian = "librarian" ->
      find (has_record_id borrow_id) (borrowing_records_data st) = Some record ->
      status record = "returned" ->
      return_book st librarian borrow_id now
      = (st, fail 400 "Book is not currently borrowed or reserved")) as H.
  { intros st lib i now r Hrole Fr Hs.
    unfold return_book, role_required. rewrite Hrole. simpl. rewrite Fr.
    rewrite (is_active_terminal r "returned")
      by (first [assumption | discriminate]).
    reflexivity. }
  split; [exact H|].
  intros st lib now r R Hrole Hin Hs.
  apply (H st lib (rid r) now r Hrole); [|assumption].
  apply reachable_consistent in R. destruct R as (_ & Hnd & _).
  apply (find_key_unique rid); auto.
Qed.

Lemma return_twice_rejected_witness :
  reachable returned_state
  /\ return_book returned_state sample_librarian 1 noon
     = (returned_state, fail 400 "Book is not currently borrowed or reserved")
  /\ return_book returned_state sample_librarian 1 monday_2024_01_01
     = (returned_state, fail 400 "Book is not currently borrowed or reserved").
Proof.
  assert (reachable returned_state) as R
      by (repeat apply run_reachable; apply reach_empty).
  split; [exact R|]. split.
  - apply (proj1 return_twice_rejected returned_state sample_librarian 1 noon
                 (mkRecord 1 2 1 (Some noon) (Some (calculate_due_date noon 4))
                           (Some noon) "returned"));
      reflexivity.
  - apply (proj2 return_twice_rejected returned_state sample_librarian
                 monday_2024_01_01
                 (mkRecord 1 2 1 (Some noon) (Some (calculate_due_date noon 4))
                           (Some noon) "returned") R eq_refl).
    + left. reflexivity.
    + reflexivity.
Defined.



(** C10.  [delete_book] on a book of the store is refused with the message
    "Cannot delete book: active borrowing or reservation records exist",
    the book staying in place, as long as a record on that book has status
    [reserved] or [borrowed].  When no record on the book has such a status
    (each was cancelled or returned) it succeeds and takes the book out of
    the table, leaving the other books. *)
Theorem delete_book_spec :
  forall st librarian k book,
    role librarian = "librarian" ->
    find (has_book_id k) (books_data st) = Some book ->
    let st' := fst (delete_book st librarian k) in
    ((exists r, In r (borrowing_records_data st) /\ book_id r = k
                /\ (status r = "reserved" \/ status r = "borrowed")) ->
     delete_book st librarian k
     = (st, fail 400 "Cannot delete book: active borrowing or reservation records exist"))
    /\ ((forall r, In r (borrowing_records_data st) -> book_id r = k ->
                   status r <> "reserved" /\ status r <> "borrowed") ->
        snd (delete_book st librarian k)
        = mkResponse 200 "Book deleted successfully" NoPayload
        /\ books_data st' = remove_first (has_book_id k) (books_data st)
        /\ S (List.length (books_data st')) = List.length (books_data st)
        /\ (NoDup (map bid (books_data st)) ->
            find (has_book_id k) (books_data st') = None)
        /\ (forall j, j <> k ->
                      find (has_book_id j) (books_data st')
                      = find (has_book_id j) (books_data st))
        /\ borrowing_records_data st' = borrowing_records_data st
        /\ users_data st' = users_data st).
Proof.
  intros st lib k book Hrole Fb st'. subst st'.
  unfold delete_book, role_required. rewrite Hrole. simpl. rewrite Fb.
  cbv zeta. split.
  - intros (r & Hin & Hk & Hs).
    assert (In r (filter (active_on k) (borrowing_records_data st))) as Hf.
    { apply filter_In. split; [assumption|]. unfold active_on.
      rewrite Hk, Z.eqb_refl. simpl. apply is_active_spec. tauto. }
    destruct (filter (active_on k) (borrowing_records_data st));
      [contradiction|reflexivity].
  - intros Hnone.
    assert (filter (active_on k) (borrowing_records_data st) = []) as ->.
    { destruct (filter _ _) as [|r l] eqn:E; [reflexivity|].
      assert (In r (filter (active_on k) (borrowing_records_data st))) as Hf
          by (rewrite E; now left).
      apply filter_In in Hf as [Hin Ha].
      unfold active_on in Ha. apply andb_true_iff in Ha as [Hk Ha].
      apply Z.eqb_eq in Hk. apply is_active_spec in Ha.
      destruct (Hnone r Hin Hk). tauto. }
    simpl. split; [reflexivity|]. split; [reflexivity|].
    split; [|split; [|split; [|split; reflexivity]]].
    + clear Hnone. revert Fb. generalize (books_data st) as l.
      induction l as [|b l IH]; simpl; [discriminate|].
      destruct (has_book_id k b); [reflexivity|].
      intros H. simpl. now rewrite IH.
    + apply (find_remove_first_none bid).
    + intros j Hj. now apply find_after_delete.
Qed.

Lemma delete_book_spec_witness :
  delete_book reserved_state sample_librarian 1
  = (reserved_state,
     fail 400 "Cannot delete book: active borrowing or reservation records exist")
  /\ let cancelled :=
       fst (cancel_reservation reserved_state sample_student 1 noon) in
     snd (delete_book cancelled sample_librarian 1)
     = mkResponse 200 "Book deleted successfully" NoPayload
     /\ books_data (fst (delete_book cancelled sample_librarian 1)) = [].
Proof.
  split.
  - apply (delete_book_spec reserved_state sample_librarian 1
             (mkBook 1 "Test Book" "Test Author" "TEST-1" (Some 2023) 1 1)
             eq_refl eq_refl).
    exists (mkRecord 1 2 1 None None None "reserved").
    split; [now left|]. split; [reflexivity|]. now left.
  - intros cancelled.
    destruct (delete_book_spec cancelled sample_librarian 1
                (mkBook 1 "Test Book" "Test Author" "TEST-1" (Some 2023) 1 1)
                eq_refl eq_refl) as [_ H].
    destruct H as (Hresp & Hbooks & _).
    + intros r [<-|[]] _. split; discriminate.
    + split; [exact Hresp|]. rewrite Hbooks. reflexivity.
Defined.
(** * Further properties of the code *)

(** ** The due-date calculator for any day and any number of weeks *)

Lemma geb_false a b : a < b -> (a >=? b) = false.
Proof. intros H. rewrite Z.geb_leb. apply Z.leb_gt. exact H. Qed.


Lemma weekday_range d : 0 <= weekday d < 7.
Proof. unfold weekday. apply Z.mod_pos_bound. lia. Qed.







Lemma residue_cases x : 0 <= x < 7 ->
  x = 0 \/ x = 1 \/ x = 2 \/ x = 3 \/ x = 4 \/ x = 5 \/ x = 6.
Proof. lia. Qed.





(** The default of four weeks, for the due dates that [borrow_book] writes. *)
Lemma default_due_date borrow_date :
  calculate_due_date borrow_date 4
  = end_of_day (add_days borrow_date (28 - weekend_shift borrow_date))
  /\ is_working_day (add_days borrow_date (28 - weekend_shift borrow_date))
     = true.
Proof.
  unfold calculate_due_date, is_working_day, weekend_shift.
  rewrite <- (add_days_0 borrow_date) at 1.
  rewrite due_date_loop_offset, weekday_add_days.
  destruct (residue_cases (weekday borrow_date) (weekday_range borrow_date))
    as [H|[H|[H|[H|[H|[H|H]]]]]]; rewrite H; split; reflexivity.
Qed.




(** ** Keys that are not shared *)

Lemma map_update_first_same {A B : Type} (g : A -> B) (p : A -> bool)
      (f : A -> A) (l : list A) :
  (forall x, g (f x) = g x) -> map g (update_first p f l) = map g l.
Proof.
  intros Hf. induction l as [|x l IH]; simpl; [reflexivity|].
  destruct (p x); simpl; [now rewrite Hf|now rewrite IH].
Qed.

Lemma NoDup_map_remove_first {A B : Type} (g : A -> B) (p : A -> bool)
      (l : list A) :
  NoDup (map g l) -> NoDup (map g (remove_first p l)).
Proof.
  induction l as [|x l IH]; simpl; [auto|].
  intros Hnd. inversion Hnd as [|? ? Hx Hnd']; subst.
  destruct (p x); [assumption|]. simpl. constructor; [|auto].
  intros Hin. apply Hx. apply in_map_iff in Hin as (y & E & Hy).
  apply in_map_iff. exists y. split; [assumption|].
  eapply in_remove_first; eauto.
Qed.

Lemma perform_users st u a :
  users_data (fst (perform st u a)) = users_data st.
Proof.
  destruct a; simpl.
  - unfold add_book, role_required.
    repeat match goal with
           | |- context [if ?c then _ else _] => destruct c
           end; reflexivity.
  - destruct (update_book_shape st u k data) as [->|(b0 & book & _ & -> & _)];
      reflexivity.
  - unfold delete_book, role_required.
    destruct (negb _); [reflexivity|].
    destruct (find _ _); [|reflexivity].
    cbv zeta. destruct (filter _ _); reflexivity.
  - unfold borrow_book, role_required.
    destruct (negb _); [reflexivity|].
    destruct (find _ _); [|reflexivity].
    destruct (_ <=? _); [reflexivity|].
    match goal with |- context [?c >=? 3] => destruct (c >=? 3) end;
      [reflexivity|].
    cbv zeta. destruct (find _ _); [|reflexivity].
    destruct (_ =? _)%string; [reflexivity|].
    destruct (_ =? _)%string; reflexivity.
  - unfold reserve_book, role_required.
    destruct (negb _); [reflexivity|].
    destruct (find _ _); [|reflexivity].
    cbv zeta. destruct (find _ _); reflexivity.
  - unfold cancel_reservation, role_required.
    destruct (negb _); [reflexivity|].
    cbv zeta. destruct (find _ _); [|reflexivity].
    destruct (negb _); reflexivity.
  - unfold return_book, role_required.
    destruct (negb _); [reflexivity|].
    cbv zeta. destruct (find _ _); [|reflexivity].
    destruct (negb _); [reflexivity|].
    destruct (find _ _); reflexivity.
Qed.

Lemma find_username_none uname users :
  find (fun u : User => (username u =? uname)%string) users = None ->
  ~ In uname (map username users).
Proof.
  intros F Hin. apply in_map_iff in Hin as (u & E & Hu).
  pose proof (find_none _ _ F u Hu) as H. simpl in H.
  rewrite E, String.eqb_refl in H. discriminate.
Qed.

Lemma users_unique_append st u :
  users_unique st ->
  uid u = _get_next_id (map uid (users_data st)) ->
  ~ In (username u) (map username (users_data st)) ->
  users_unique (with_users st (users_data st ++ [u])).
Proof.
  intros [Hid Hname] Eid Hfresh. split; simpl.
  - now apply NoDup_app_next.
  - rewrite map_app. simpl. apply NoDup_app; [assumption| |].
    + repeat constructor. simpl. tauto.
    + intros x Hx [<-|[]]. contradiction.
Qed.

Lemma register_user_users_unique st uname pwd urole new_token pw_hash :
  users_unique st ->
  users_unique (fst (register_user st uname pwd urole new_token pw_hash)).
Proof.
  intros U. unfold register_user.
  destruct (_ || _); [exact U|].
  destruct (negb _); [exact U|].
  cbv zeta.
  destruct (find (fun u : User => (username u =? uname)%string) (users_data st))
    as [u|] eqn:F.
  - destruct (urole =? "student")%string; [|exact U].
    destruct (negb (token u =? "")%string); [exact U|].
    destruct U as [Hid Hname]. split; simpl.
    + now rewrite (map_update_first_same uid).
    + now rewrite (map_update_first_same username).
  - apply find_username_none in F.
    destruct (urole =? "student")%string; simpl;
      apply users_unique_append; auto.
Qed.

Lemma reachable_users_unique st : reachable st -> users_unique st.
Proof.
  induction 1.
  - split; constructor.
  - now apply register_user_users_unique.
  - unfold users_unique. now rewrite perform_users.
Qed.

(** What [update_book] stores, with respect to the ISBN column: the ISBN the
    book had, or one that no row with another identifier has. *)
Lemma update_book_isbn_shape st u k data :
  fst (update_book st u k data) = st
  \/ exists b0 book,
      find (has_book_id k) (books_data st) = Some b0
      /\ fst (update_book st u k data) = store_book st k book
      /\ bid book = bid b0
      /\ (isbn book = isbn b0
          \/ existsb (fun b => negb (has_book_id k b) && (isbn b =? isbn book)%string)
                     (books_data st) = false).
Proof.
  unfold update_book, role_required.
  destruct (negb (role u =? "librarian")%string); [now left|].
  destruct (find (has_book_id k) (books_data st)) as [b0|] eqn:Fb; [|now left].
  right. exists b0. cbv zeta. unfold update_total_copies.
  destruct (patch_title data), (patch_author data), (patch_isbn data) as [i|],
    (patch_publication_year data), (patch_total_copies data); simpl;
    repeat match goal with
           | |- context [if negb (?a =? ?b)%string && ?d then _ else _] =>
               let E1 := fresh "E" in let E2 := fresh "E" in
               destruct (a =? b)%string eqn:E1; destruct d eqn:E2; simpl
           | |- context [if ?c then _ else _] => destruct c
           end;
    eexists; (split; [reflexivity|]); (split; [reflexivity|]);
    simpl; (split; [reflexivity|]);
    try (left; reflexivity);
    try (left; apply String.eqb_eq; assumption);
    try (right; assumption).
Qed.

Lemma NoDup_isbn_store k b0 book books :
  NoDup (map bid books) ->
  NoDup (map isbn books) ->
  find (has_book_id k) books = Some b0 ->
  (isbn book = isbn b0
   \/ existsb (fun b => negb (has_book_id k b) && (isbn b =? isbn book)%string)
              books = false) ->
  NoDup (map isbn (update_first (has_book_id k) (fun _ => book) books)).
Proof.
  intros Hid Hisbn Fb [E|E].
  - rewrite <- (update_first_self _ _ _ Fb) in Hisbn.
    revert Hisbn. clear Hid. revert Fb.
    induction books as [|x l IH]; simpl; [discriminate|].
    destruct (has_book_id k x).
    + intros [= ->]. simpl. now rewrite E.
    + intros F. simpl. rewrite (update_first_self _ _ _ F). intros H.
      inversion H as [|? ? Hx Hnd]; subst. constructor.
      * intros Hin. apply Hx.
        apply in_map_iff in Hin as (y & Ey & Hy).
        apply in_update_first in Hy as [Hy|(z & Fz & ->)].
        -- apply in_map_iff. eauto.
        -- rewrite F in Fz. injection Fz as <-.
           apply find_some in F as [F _]. rewrite <- Ey, E.
           now apply in_map.
      * apply IH; auto. now rewrite (update_first_self _ _ _ F).
  - assert (forall b, In b books -> bid b <> k -> isbn b <> isbn book) as Hfree.
    { intros b Hb Hk Ei.
      assert (existsb (fun b => negb (has_book_id k b) && (isbn b =? isbn book)%string)
                      books = true) as T.
      { apply existsb_exists. exists b. split; [assumption|].
        unfold has_book_id. apply Z.eqb_neq in Hk. rewrite Hk, Ei. simpl.
        apply String.eqb_refl. }
      congruence. }
    clear E. revert Hid Hisbn Fb Hfree.
    induction books as [|x l IH]; simpl; [discriminate|].
    intros Hid Hisbn. inversion Hid as [|? ? Hx Hid']; subst.
    inversion Hisbn as [|? ? Hy Hisbn']; subst.
    destruct (has_book_id k x) eqn:Hk.
    + intros _ Hfree. simpl. constructor; [|assumption].
      intros Hin. apply in_map_iff in Hin as (y & Ey & Hin).
      apply (Hfree y); auto.
      unfold has_book_id in Hk. apply Z.eqb_eq in Hk.
      intros Ek. apply Hx. rewrite Hk, <- Ek. now apply in_map.
    + intros F Hfree. simpl. constructor.
      * intros Hin. apply in_map_iff in Hin as (y & Ey & Hin).
        apply in_update_first in Hin as [Hin|(z & Fz & ->)].
        -- apply Hy. apply in_map_iff. eauto.
        -- apply (Hfree x); auto.
           unfold has_book_id in Hk. now apply Z.eqb_neq.
      * apply IH; auto.
Qed.

Lemma perform_isbn_unique st u a :
  NoDup (map bid (books_data st)) ->
  isbn_unique st -> isbn_unique (fst (perform st u a)).
Proof.
  intros Hid U. unfold isbn_unique in *. destruct a; simpl.
  - unfold add_book, role_required.
    destruct (negb _); [exact U|]. cbv zeta.
    destruct (_ || _); [exact U|].
    destruct (existsb _ _) eqn:E; [exact U|].
    simpl. rewrite map_app. simpl. apply NoDup_app; [assumption| |].
    + repeat constructor. simpl. tauto.
    + intros x Hx [<-|[]].
      apply in_map_iff in Hx as (b & Eb & Hb).
      assert (existsb (fun b => (isbn b =? form_isbn data)%string) (books_data st)
              = true) as T
          by (apply existsb_exists; exists b; split; auto; rewrite Eb;
              apply String.eqb_refl).
      congruence.
  - destruct (update_book_isbn_shape st u k data)
      as [->|(b0 & book & Fb & -> & _ & Hi)]; [exact U|].
    simpl. eapply NoDup_isbn_store; eauto.
  - unfold delete_book, role_required.
    destruct (negb _); [exact U|].
    destruct (find _ _); [|exact U].
    cbv zeta. destruct (filter _ _); [|exact U].
    simpl. now apply NoDup_map_remove_first.
  - unfold borrow_book, role_required.
    destruct (negb _); [exact U|].
    destruct (find _ _); [|exact U].
    destruct (_ <=? _); [exact U|].
    match goal with |- context [?c >=? 3] => destruct (c >=? 3) end; [exact U|].
    cbv zeta.
    assert (NoDup (map isbn (update_first (has_book_id k) decrement_available
                                           (books_data st)))) as U'
        by (now rewrite (map_update_first_same isbn)).
    destruct (find _ _); [|exact U'].
    destruct (_ =? _)%string; [exact U|].
    destruct (_ =? _)%string; exact U'.
  - unfold reserve_book, role_required.
    destruct (negb _); [exact U|].
    destruct (find _ _); [|exact U].
    cbv zeta. destruct (find _ _); exact U.
  - unfold cancel_reservation, role_required.
    destruct (negb _); [exact U|].
    cbv zeta. destruct (find _ _); [|exact U].
    destruct (negb _); exact U.
  - unfold return_book, role_required.
    destruct (negb _); [exact U|].
    cbv zeta. destruct (find _ _) as [r|]; [|exact U].
    destruct (negb _); [exact U|].
    destruct (find _ _); [|exact U].
    simpl. destruct (was_borrowed r); [|exact U].
    now rewrite (map_update_first_same isbn).
Qed.

Lemma reachable_isbn_unique st : reachable st -> isbn_unique st.
Proof.
  induction 1.
  - constructor.
  - unfold isbn_unique.
    now rewrite (proj1 (register_user_tables st uname pwd urole new_token pw_hash)).
  - apply perform_isbn_unique; [|assumption].
    apply reachable_consistent in H. apply H.
Qed.

(** X3.  In every state the service can reach no two user rows share an
    identifier or a username, no two books share an identifier or an ISBN,
    and no two borrowing records share an identifier. *)
Theorem keys_unique :
  forall st, reachable st ->
    NoDup (map uid (users_data st))
    /\ NoDup (map username (users_data st))
    /\ NoDup (map bid (books_data st))
    /\ NoDup (map isbn (books_data st))
    /\ NoDup (map rid (borrowing_records_data st)).
Proof.
  intros st R.
  destruct (reachable_users_unique st R) as [H1 H2].
  pose proof (reachable_isbn_unique st R) as H4.
  destruct (reachable_consistent st R) as (H3 & H5 & _).
  auto.
Qed.

Lemma keys_unique_witness :
  reachable limit_state
  /\ NoDup (map isbn (books_data limit_state))
  /\ NoDup (map rid (borrowing_records_data limit_state)).
Proof.
  assert (reachable limit_state) as R by (apply run_reachable, reach_empty).
  destruct (keys_unique limit_state R) as (_ & _ & _ & H4 & H5).
  auto.
Defined.
(** ** Registration and authentication *)

Lemma find_unique_name users u :
  NoDup (map username users) -> In u users ->
  find (fun v : User => (username v =? username u)%string) users = Some u.
Proof.
  induction users as [|x l IH]; simpl; [tauto|].
  intros Hnd. inversion Hnd as [|? ? Hx Hnd']; subst.
  intros [->|Hin].
  - now rewrite String.eqb_refl.
  - destruct (username x =? username u)%string eqn:E; [|auto].
    exfalso. apply Hx. apply String.eqb_eq in E. rewrite E. now apply in_map.
Qed.

Lemma find_fresh_user users :
  find (has_user_id (_get_next_id (map uid users))) users = None.
Proof.
  destruct (find _ users) as [u|] eqn:F; [|reflexivity].
  apply find_some in F as [Hin E]. unfold has_user_id in E.
  apply Z.eqb_eq in E. apply (in_map uid) in Hin.
  apply next_id_fresh in Hin. lia.
Qed.

Lemma find_token_none tok users :
  (forall v, In v users -> token v <> tok) ->
  find (fun v : User => (token v =? tok)%string) users = None.
Proof.
  intros H. destruct (find _ users) as [u|] eqn:F; [|reflexivity].
  apply find_some in F as [Hin E]. apply String.eqb_eq in E.
  now apply H in Hin.
Qed.

Lemma nonempty_eqb s : s <> "" -> (s =? "")%string = false.
Proof. intros H. now apply String.eqb_neq. Qed.

(** X4.  Registering a student is idempotent and does not look at the
    password: after a student registration for a username, with a
    non-empty token drawn, a second student registration for that username
    with any password answers 200 "Student already registered" with the
    user id and token of the first answer and leaves the tables as they
    are. *)
Theorem register_student_twice :
  forall st uname pwd pwd' new_token new_token' pw_hash pw_hash',
    uname <> "" -> pwd <> "" -> pwd' <> "" -> new_token <> "" ->
    let st1 := fst (register_user st uname pwd "student" new_token pw_hash) in
    exists user_id tok,
      payload (snd (register_user st uname pwd "student" new_token pw_hash))
      = UserPayload user_id tok
      /\ tok <> ""
      /\ register_user st1 uname pwd' "student" new_token' pw_hash'
         = (st1, mkResponse 200 "Student already registered"
                            (UserPayload user_id tok)).
Proof.
  intros st uname pwd pwd' tok tok' h h' Hu Hp Hp' Ht st1. subst st1.
  unfold register_user.
  rewrite !(nonempty_eqb uname), !(nonempty_eqb pwd), !(nonempty_eqb pwd')
    by assumption.
  cbn [orb negb String.eqb Ascii.eqb Bool.eqb fst snd].
  destruct (find (fun u : User => (username u =? uname)%string) (users_data st))
    as [u|] eqn:F.
  - destruct (token u =? "")%string eqn:Et; cbn [negb fst snd payload].
    + exists (uid u), tok. split; [reflexivity|]. split; [assumption|].
      cbn [users_data with_users].
      rewrite (find_update_first_hit _ (fun u0 => set_token u0 tok) _ _ F)
        by (apply find_some in F as [_ F]; exact F).
      cbn [token set_token uid]. rewrite (nonempty_eqb tok) by assumption.
      reflexivity.
    + exists (uid u), (token u). split; [reflexivity|].
      split; [now apply String.eqb_neq|].
      rewrite F, Et. reflexivity.
  - cbn [fst snd payload users_data with_users].
    exists (_get_next_id (map uid (users_data st))), tok.
    split; [reflexivity|]. split; [assumption|].
    rewrite (find_app_none _ _ _ F). cbn [username].
    rewrite String.eqb_refl. cbn [token uid].
    rewrite (nonempty_eqb tok) by assumption. reflexivity.
Qed.

Lemma register_student_twice_witness :
  exists user_id tok,
    payload (snd (register_user empty_state "stu" "pw" "student" "tok-1" "h2"))
    = UserPayload user_id tok
    /\ tok <> ""
    /\ register_user
         (fst (register_user empty_state "stu" "pw" "student" "tok-1" "h2"))
         "stu" "other" "student" "tok-2" "h3"
       = (fst (register_user empty_state "stu" "pw" "student" "tok-1" "h2"),
          mkResponse 200 "Student already registered" (UserPayload user_id tok)).
Proof.
  apply (register_student_twice empty_state "stu" "pw" "other" "tok-1" "tok-2"
                                "h2" "h3");
    discriminate.
Defined.

(** X5.  A student registration does not check whose username it is given.
    In a reachable state, for a librarian row without a token, a student
    registration under the librarian's username, with any non-empty
    password and a token no row has, answers 200 "Student already
    registered, token generated" with the librarian's id and the new
    token; it writes the token into the librarian's row, and
    [login_required] then resolves the [X-Auth-Token] header with that
    token to this row, whose role is still [librarian]. *)
Theorem student_registration_under_librarian_name :
  forall st librarian pwd new_token pw_hash,
    reachable st ->
    In librarian (users_data st) ->
    role librarian = "librarian" ->
    token librarian = "" ->
    username librarian <> "" -> pwd <> "" -> new_token <> "" ->
    (forall v, In v (users_data st) -> token v <> new_token) ->
    let st' :=
      fst (register_user st (username librarian) pwd "student" new_token pw_hash) in
    snd (register_user st (username librarian) pwd "student" new_token pw_hash)
    = mkResponse 200 "Student already registered, token generated"
                 (UserPayload (uid librarian) new_token)
    /\ login_required st' (mkHeaders None (Some new_token))
       = Some (set_token librarian new_token)
    /\ In (set_token librarian new_token) (users_data st')
    /\ role (set_token librarian new_token) = "librarian".
Proof.
  intros st u pwd tok h R Hin Hrole Htok Hname Hpwd Hnew Hfresh st'. subst st'.
  pose proof (find_unique_name _ u
                (proj2 (reachable_users_unique st R)) Hin) as F.
  unfold register_user.
  rewrite (nonempty_eqb (username u)), (nonempty_eqb pwd) by assumption.
  cbn [orb negb String.eqb Ascii.eqb Bool.eqb].
  rewrite F, Htok. cbn [String.eqb negb fst snd].
  split; [reflexivity|].
  assert (In (set_token u tok)
             (update_first (fun u0 : User => (username u0 =? username u)%string)
                           (fun u0 => set_token u0 tok) (users_data st))) as Hin'
      by (exact (update_first_in _ (fun u0 => set_token u0 tok) _ u F)).
  split; [|split; [exact Hin'|exact Hrole]].
  unfold login_required. cbn [x_user_id x_auth_token users_data with_users].
  rewrite (nonempty_eqb tok) by assumption.
  clear Hin' Hin R. revert F Hfresh.
  induction (users_data st) as [|x l IH]; simpl; [discriminate|].
  destruct (username x =? username u)%string.
  - intros [= ->] _. simpl. now rewrite String.eqb_refl.
  - intros F Hfresh. simpl.
    destruct (token x =? tok)%string eqn:E.
    + apply String.eqb_eq in E. exfalso. apply (Hfresh x); auto.
    + apply IH; auto.
Qed.

Lemma student_registration_under_librarian_name_witness :
  login_required
    (fst (register_user one_book_state "lib" "guess" "student" "tok-9" "h9"))
    (mkHeaders None (Some "tok-9"))
  = Some (mkUser 1 "lib" "h1" "librarian" "tok-9").
Proof.
  assert (reachable one_book_state) as R by (apply run_reachable, reach_empty).
  assert (In sample_librarian (users_data one_book_state)) as Hin
      by (left; reflexivity).
  assert (forall v, In v (users_data one_book_state) -> token v <> "tok-9")
    as Hfresh by (intros v [<-|[<-|[]]]; discriminate).
  assert (username sample_librarian <> "") as H1 by discriminate.
  assert ("guess" <> "") as H2 by discriminate.
  assert ("tok-9" <> "") as H3 by discriminate.
  exact (proj1 (proj2 (student_registration_under_librarian_name
                         one_book_state sample_librarian "guess" "tok-9" "h9"
                         R Hin eq_refl eq_refl H1 H2 H3 Hfresh))).
Defined.
Lemma first_registration_row st uname pwd urole new_token pw_hash :
  uname <> "" -> pwd <> "" ->
  urole = "student" \/ urole = "librarian" ->
  (forall v, In v (users_data st) -> username v <> uname) ->
  users_data (fst (register_user st uname pwd urole new_token pw_hash))
  = users_data st
    ++ [mkUser (_get_next_id (map uid (users_data st))) uname pw_hash urole
               (if (urole =? "student")%string then new_token else "")].
Proof.
  intros Hu Hp Hrole Hfree.
  assert (find (fun u : User => (username u =? uname)%string) (users_data st)
          = None) as F.
  { destruct (find _ _) as [v|] eqn:F; [|reflexivity].
    apply find_some in F as [Hin E]. apply String.eqb_eq in E.
    now apply Hfree in Hin. }
  unfold register_user.
  rewrite (nonempty_eqb uname), (nonempty_eqb pwd) by assumption.
  destruct Hrole as [-> | ->]; cbn [orb negb String.eqb Ascii.eqb Bool.eqb];
    rewrite F; reflexivity.
Qed.

(** X6.  A first registration can be used at once.  For a username that no
    row has, a non-empty password and role [student] or [librarian], the
    answer is 201 with a user id above the existing ones, the new row is
    appended, and [login_required] resolves the [X-User-ID] header with
    that id to the new row; for a student whose token no other row has, it
    also resolves the [X-Auth-Token] header with the token to it.  A
    librarian row gets an empty token. *)
Theorem register_then_authenticate :
  forall st uname pwd urole new_token pw_hash,
    uname <> "" -> pwd <> "" ->
    urole = "student" \/ urole = "librarian" ->
    (forall v, In v (users_data st) -> username v <> uname) ->
    let user_id := _get_next_id (map uid (users_data st)) in
    let new_user :=
      mkUser user_id uname pw_hash urole
             (if (urole =? "student")%string then new_token else "") in
    let st' := fst (register_user st uname pwd urole new_token pw_hash) in
    code (snd (register_user st uname pwd urole new_token pw_hash)) = 201
    /\ payload (snd (register_user st uname pwd urole new_token pw_hash))
       = UserPayload user_id (token new_user)
    /\ (forall v, In v (users_data st) -> uid v < user_id)
    /\ users_data st' = users_data st ++ [new_user]
    /\ login_required st' (mkHeaders (Some user_id) None) = Some new_user
    /\ (urole = "student" -> new_token <> "" ->
        (forall v, In v (users_data st) -> token v <> new_token) ->
        login_required st' (mkHeaders None (Some new_token)) = Some new_user).
Proof.
  intros st uname pwd urole tok h Hu Hp Hrole Hfree user_id new_user st'.
  subst st' new_user user_id.
  assert (find (fun u : User => (username u =? uname)%string) (users_data st)
          = None) as F.
  { destruct (find _ _) as [v|] eqn:F; [|reflexivity].
    apply find_some in F as [Hin E]. apply String.eqb_eq in E.
    now apply Hfree in Hin. }
  assert (fst (register_user st uname pwd urole tok h)
          = with_users st
              (users_data st ++
               [mkUser (_get_next_id (map uid (users_data st))) uname h urole
                       (if (urole =? "student")%string then tok else "")])
          /\ snd (register_user st uname pwd urole tok h)
             = mkResponse 201
                 (if (urole =? "student")%string
                  then "Student registered successfully"
                  else "Librarian registered successfully")
                 (UserPayload (_get_next_id (map uid (users_data st)))
                              (if (urole =? "student")%string then tok else "")))
    as [E1 E2].
  { unfold register_user.
    rewrite (nonempty_eqb uname), (nonempty_eqb pwd) by assumption.
    destruct Hrole as [-> | ->]; cbn [orb negb String.eqb Ascii.eqb Bool.eqb];
      rewrite F; split; reflexivity. }
  rewrite E1, E2. cbn [users_data with_users code payload].
  split; [destruct (urole =? "student")%string; reflexivity|].
  split; [reflexivity|].
  split; [intros v Hv; apply next_id_fresh; now apply in_map|].
  split; [reflexivity|]. split.
  - unfold login_required, with_users. cbn [x_user_id users_data].
    change (fun u : User => uid u =? _get_next_id (map uid (users_data st)))
      with (has_user_id (_get_next_id (map uid (users_data st)))).
    rewrite (find_app_none _ _ _ (find_fresh_user (users_data st))).
    unfold has_user_id. cbn [uid]. now rewrite Z.eqb_refl.
  - intros -> Ht Hfresh.
    unfold login_required, with_users.
    cbn [x_user_id x_auth_token users_data].
    rewrite (nonempty_eqb tok) by assumption.
    rewrite (find_app_none _ _ _ (find_token_none tok _ Hfresh)).
    cbn. now rewrite String.eqb_refl.
Qed.

Lemma register_then_authenticate_witness :
  login_required
    (fst (register_user one_book_state "ann" "pw" "student" "tok-2" "h3"))
    (mkHeaders None (Some "tok-2"))
  = Some (mkUser 3 "ann" "h3" "student" "tok-2").
Proof.
  assert ("ann" <> "") as H1 by discriminate.
  assert ("pw" <> "") as H2 by discriminate.
  assert ("tok-2" <> "") as H3 by discriminate.
  assert (forall v, In v (users_data one_book_state) -> username v <> "ann")
    as H4 by (intros v [<-|[<-|[]]]; discriminate).
  assert (forall v, In v (users_data one_book_state) -> token v <> "tok-2")
    as H5 by (intros v [<-|[<-|[]]]; discriminate).
  destruct (register_then_authenticate
              one_book_state "ann" "pw" "student" "tok-2" "h3"
              H1 H2 (or_introl eq_refl) H4)
    as (_ & _ & _ & _ & _ & E).
  exact (E eq_refl H3 H5).
Defined.

(** X7.  [login_user] after a first registration: when the password
    checker accepts the password against the hash stored by the
    registration, the login answers 200 with the id and role of the
    registration, and with the token exactly for a student with a non-empty
    token; when the checker rejects it, the answer is the 401 that an
    unknown username gets. *)
Theorem register_then_login :
  forall (check_password_hash : string -> string -> bool)
         st uname pwd pwd' urole new_token pw_hash,
    uname <> "" -> pwd <> "" -> pwd' <> "" ->
    urole = "student" \/ urole = "librarian" ->
    (forall v, In v (users_data st) -> username v <> uname) ->
    let st' := fst (register_user st uname pwd urole new_token pw_hash) in
    login_user check_password_hash st' uname pwd'
    = if check_password_hash pw_hash pwd'
      then Ok 200
              (mkLoginBody "Login successful"
                 (_get_next_id (map uid (users_data st))) urole
                 (if (urole =? "student")%string && negb (new_token =? "")%string
                  then Some new_token else None))
      else Err 401 "Invalid username or password".
Proof.
  intros check st uname pwd pwd' urole tok h Hu Hp Hp' Hrole Hfree st'.
  pose proof (first_registration_row st uname pwd urole tok h Hu Hp Hrole Hfree)
    as E.
  subst st'. unfold login_user. rewrite E.
  rewrite (nonempty_eqb uname), (nonempty_eqb pwd') by assumption.
  cbn [orb].
  assert (find (fun u : User => (username u =? uname)%string) (users_data st)
          = None) as F.
  { destruct (find _ _) as [v|] eqn:F; [|reflexivity].
    apply find_some in F as [Hin E']. apply String.eqb_eq in E'.
    now apply Hfree in Hin. }
  rewrite (find_app_none _ _ _ F). cbn [username].
  rewrite String.eqb_refl. cbn [password_hash uid role token].
  destruct (check h pwd'); cbn [negb]; [|reflexivity].
  destruct Hrole as [-> | ->]; reflexivity.
Qed.

Lemma register_then_login_witness :
  login_user String.eqb
             (fst (register_user empty_state "stu" "pw" "student" "tok-1" "pw"))
             "stu" "pw"
  = Ok 200 (mkLoginBody "Login successful" 1 "student" (Some "tok-1")).
Proof.
  assert ("stu" <> "") as H1 by discriminate.
  assert ("pw" <> "") as H2 by discriminate.
  assert (forall v, In v (users_data empty_state) -> username v <> "stu")
    as H3 by (intros v []).
  exact (register_then_login String.eqb empty_state "stu" "pw" "pw" "student"
                             "tok-1" "pw" H1 H2 H2 (or_introl eq_refl) H3).
Defined.
(** ** Roles, refusals and what they leave behind *)

Lemma role_refused required u st k :
  role u <> required ->
  role_required required u st k
  = (st, fail 403 ("Access denied: " ++ required ++ " role required")).
Proof.
  intros H. unfold role_required.
  apply String.eqb_neq in H. now rewrite H.
Qed.

Lemma catalogue_decrement p books :
  map catalogue_entry (update_first p decrement_available books)
  = map catalogue_entry books.
Proof. apply map_update_first_same. reflexivity. Qed.

(** X8.  Each endpoint that changes the tables is closed to the other
    role: called by a user whose role is not the one its decorator names,
    it answers 403 and changes nothing.  And whatever a user who is not a
    librarian calls, the catalogue stays as it is: no book is added or
    removed and no column of a book other than [available_copies]
    changes. *)
Theorem catalogue_belongs_to_librarians :
  forall st current_user a,
    (role current_user <> required_role a ->
     perform st current_user a
     = (st, fail 403 ("Access denied: " ++ required_role a ++ " role required")))
    /\ (role current_user <> "librarian" ->
        map catalogue_entry (books_data (fst (perform st current_user a)))
        = map catalogue_entry (books_data st)).
Proof.
  intros st u a. split.
  - intros H. destruct a; simpl in *; now apply role_refused.
  - intros H. destruct a; simpl;
      try (unfold add_book, update_book, delete_book, return_book;
           rewrite role_refused by assumption; reflexivity).
    + unfold borrow_book, role_required.
      destruct (negb _); [reflexivity|].
      destruct (find _ _); [|reflexivity].
      destruct (_ <=? _); [reflexivity|].
      match goal with |- context [?c >=? 3] => destruct (c >=? 3) end;
        [reflexivity|].
      cbv zeta. destruct (find _ _); [|simpl; apply catalogue_decrement].
      destruct (_ =? _)%string; [reflexivity|].
      destruct (_ =? _)%string; simpl; apply catalogue_decrement.
    + unfold reserve_book, role_required.
      destruct (negb _); [reflexivity|].
      destruct (find _ _); [|reflexivity].
      cbv zeta. destruct (find _ _); reflexivity.
    + unfold cancel_reservation, role_required.
      destruct (negb _); [reflexivity|].
      cbv zeta. destruct (find _ _); [|reflexivity].
      destruct (negb _); reflexivity.
Qed.

Lemma catalogue_belongs_to_librarians_witness :
  perform one_book_state sample_student (DeleteBook 1)
  = (one_book_state, fail 403 "Access denied: librarian role required")
  /\ map catalogue_entry
         (books_data (fst (perform one_book_state sample_student
                                   (BorrowBook 1 noon noon))))
     = map catalogue_entry (books_data one_book_state).
Proof.
  split.
  - apply (proj1 (catalogue_belongs_to_librarians
                    one_book_state sample_student (DeleteBook 1))).
    discriminate.
  - apply (proj2 (catalogue_belongs_to_librarians
                    one_book_state sample_student (BorrowBook 1 noon noon))).
    discriminate.
Defined.


(** ** Updating a book *)

Lemma find_store_book st k book b0 :
  find (has_book_id k) (books_data st) = Some b0 ->
  bid book = bid b0 ->
  find (has_book_id k) (books_data (store_book st k book)) = Some book
  /\ (forall j, j <> k ->
                find (has_book_id j) (books_data (store_book st k book))
                = find (has_book_id j) (books_data st))
  /\ map bid (books_data (store_book st k book)) = map bid (books_data st)
  /\ borrowing_records_data (store_book st k book) = borrowing_records_data st
  /\ users_data (store_book st k book) = users_data st.
Proof.
  intros Fb Ek. pose proof (find_book_spec _ _ _ Fb) as [_ Hk].
  unfold store_book, with_books. simpl.
  split; [|split; [|split; [|split; reflexivity]]].
  - rewrite (find_update_first_hit _ (fun _ => book) _ _ Fb); [reflexivity|].
    unfold has_book_id. apply Z.eqb_eq. congruence.
  - intros j Hj. apply find_update_first_other.
    intros y Hy. unfold has_book_id in *. apply Z.eqb_eq in Hy.
    rewrite Hy, Ek, Hk. split; apply Z.eqb_neq; auto.
  - apply books_keys_store. congruence.
Qed.

Lemma patch_keeps_id data book :
  bid (patch_details data (patch_names data book)) = bid book
  /\ forall n, bid (patch_copies n (patch_details data (patch_names data book)))
               = bid book.
Proof.
  unfold patch_details, patch_names, patch_copies.
  destruct (patch_title data), (patch_author data), (patch_isbn data),
    (patch_publication_year data); auto.
Qed.



(** X11.  A refused update is not undone.  [update_book] assigns the keys
    of the body one after the other and answers an error in the middle:
    when the ISBN of the body belongs to another book the answer is 409 and
    the row already carries the title and author of the body; when the
    new total is below the copies on loan the answer is 400 and the row
    already carries the title, author, ISBN and year of the body.  In both
    cases the copy counts of the row are those it had. *)
Theorem update_book_refused_keeps_earlier_keys :
  forall st librarian k book data,
    role librarian = "librarian" ->
    find (has_book_id k) (books_data st) = Some book ->
    let st' := fst (update_book st librarian k data) in
    (isbn_conflict st k data book = true ->
     snd (update_book st librarian k data)
     = fail 409 "Book with this ISBN already exists"
     /\ find (has_book_id k) (books_data st') = Some (patch_names data book))
    /\ (isbn_conflict st k data book = false ->
        forall n, patch_total_copies data = Some n ->
                  n < total_copies book - available_copies book ->
        snd (update_book st librarian k data)
        = fail 400 "Cannot reduce total copies below currently borrowed copies"
        /\ find (has_book_id k) (books_data st')
           = Some (patch_details data (patch_names data book))
        /\ available_copies (patch_details data (patch_names data book))
           = available_copies book
        /\ total_copies (patch_details data (patch_names data book))
           = total_copies book).
Proof.
  intros st lib k book data Hrole Fb st'. subst st'. split.
  - intros Hc.
    assert (update_book st lib k data
            = (store_book st k (patch_names data book),
               fail 409 "Book with this ISBN already exists")) as E.
    { unfold update_book, role_required. rewrite Hrole, Fb.
      cbn [String.eqb Ascii.eqb Bool.eqb negb].
      unfold isbn_conflict in Hc. unfold patch_names.
      destruct (patch_title data), (patch_author data), (patch_isbn data);
        cbn [isbn set_title set_author] in *;
        rewrite ?Hc; try discriminate; reflexivity. }
    rewrite E. cbn [fst snd]. split; [reflexivity|].
    apply (find_store_book st k _ book Fb).
    unfold patch_names. destruct (patch_title data), (patch_author data);
      reflexivity.
  - intros Hfree n En Hlt.
    assert (update_book st lib k data
            = (store_book st k (patch_details data (patch_names data book)),
               fail 400 "Cannot reduce total copies below currently borrowed copies"))
      as E.
    { unfold update_book, role_required, update_total_copies. rewrite Hrole, Fb.
      cbn [String.eqb Ascii.eqb Bool.eqb negb]. rewrite En.
      unfold isbn_conflict in Hfree. unfold patch_details, patch_names.
      apply Z.ltb_lt in Hlt.
      destruct (patch_title data), (patch_author data), (patch_isbn data),
        (patch_publication_year data); cbn [isbn set_title set_author] in *;
        rewrite ?Hfree; cbn; rewrite Hlt; reflexivity. }
    rewrite E. cbn [fst snd]. split; [reflexivity|].
    split; [apply (find_store_book st k _ book Fb), patch_keeps_id|].
    unfold patch_details, patch_names.
    destruct (patch_title data), (patch_author data), (patch_isbn data),
      (patch_publication_year data); auto.
Qed.

Lemma update_book_refused_keeps_earlier_keys_witness :
  snd (update_book limit_state sample_librarian 1
         (mkBookPatch (Some "Renamed") None None None (Some 0)))
  = fail 400 "Cannot reduce total copies below currently borrowed copies"
  /\ find (has_book_id 1)
          (books_data
             (fst (update_book limit_state sample_librarian 1
                     (mkBookPatch (Some "Renamed") None None None (Some 0)))))
     = Some (mkBook 1 "Renamed" "Test Author" "TEST-1" (Some 2023) 0 1).
Proof.
  destruct (proj2 (update_book_refused_keeps_earlier_keys
                     limit_state sample_librarian 1
                     (mkBook 1 "Test Book" "Test Author" "TEST-1" (Some 2023) 0 1)
                     (mkBookPatch (Some "Renamed") None None None (Some 0))
                     eq_refl eq_refl)
                  eq_refl 0 eq_refl)
    as (E1 & E2 & _); [reflexivity|].
  split; [exact E1|exact E2].
Defined.
(** ** Adding, reserving, cancelling, borrowing *)


(** X13.  [reserve_book] by a student answers 404 when the book is not in
    the store and 400 when the student already has a reserved or borrowed
    record for it, in both cases without a change.  Otherwise it succeeds,
    without looking at [available_copies] or at the number of loans of the
    student: it appends one record with a new identifier, status
    [reserved] and the three dates empty, and leaves the books as they
    are. *)
Theorem reserve_book_spec :
  forall st student k,
    role student = "student" ->
    let records := borrowing_records_data st in
    let new_record :=
      mkRecord (_get_next_id (map rid records)) (uid student) k
               None None None "reserved" in
    (find (has_book_id k) (books_data st) = None ->
     reserve_book st student k = (st, fail 404 "Book not found"))
    /\ (forall book r,
          find (has_book_id k) (books_data st) = Some book ->
          In r records -> student_id r = uid student -> book_id r = k ->
          status r = "borrowed" \/ status r = "reserved" ->
          reserve_book st student k
          = (st, fail 400 "You have already borrowed or reserved this book"))
    /\ (forall book,
          find (has_book_id k) (books_data st) = Some book ->
          active_count st (uid student) k = 0%nat ->
          reserve_book st student k
          = (mkState (users_data st) (books_data st) (records ++ [new_record]),
             mkResponse 201 "Book reserved successfully" (RecordPayload new_record))
          /\ forall r, In r records -> rid r < rid new_record).
Proof.
  intros st u k Hrole records new_record. subst records new_record.
  unfold reserve_book, role_required. rewrite Hrole.
  cbn [String.eqb Ascii.eqb Bool.eqb negb]. cbv zeta.
  split; [|split].
  - intros ->. reflexivity.
  - intros book r -> Hin Hs Hk Ha.
    destruct (find (active_for (uid u) k) (borrowing_records_data st)) eqn:F;
      [reflexivity|].
    pose proof (find_none _ _ F r Hin) as Hr.
    assert (active_for (uid u) k r = true) as T
        by (apply active_for_spec; repeat split; auto;
            now apply is_active_spec).
    congruence.
  - intros book -> Hcount.
    destruct (find (active_for (uid u) k) (borrowing_records_data st)) as [r|]
      eqn:F.
    + apply find_some in F as [Hin Hr].
      pose proof (count_positive _ _ _ Hin Hr) as P.
      unfold active_count in Hcount. lia.
    + split; [reflexivity|].
      intros r Hin. apply next_id_fresh. now apply in_map.
Qed.

Lemma reserve_book_spec_witness :
  reserve_book limit_state sample_student 4
  = (mkState (users_data limit_state) (books_data limit_state)
             (borrowing_records_data limit_state
              ++ [mkRecord 4 2 4 None None None "reserved"]),
     mkResponse 201 "Book reserved successfully"
                (RecordPayload (mkRecord 4 2 4 None None None "reserved"))).
Proof.
  destruct (reserve_book_spec limit_state sample_student 4 eq_refl)
    as (_ & _ & H).
  exact (proj1 (H (mkBook 4 "Test Book" "Test Author" "TEST-4" (Some 2023) 0 0)
                  eq_refl eq_refl)).
Defined.

(** X14.  [cancel_reservation] by a student answers 404 when no record
    has both the identifier and the student (so also for the record of
    another student, in a reachable state), and 400 when the record's
    status is not [reserved]; nothing changes then.  Otherwise the record
    gets status [cancelled] and the return date [now], its other columns
    and every other record stay, and so do the books and the users. *)
Theorem cancel_reservation_spec :
  forall st student borrow_id now,
    role student = "student" ->
    let records := borrowing_records_data st in
    let st' := fst (cancel_reservation st student borrow_id now) in
    (find (own_record borrow_id (uid student)) records = None ->
     cancel_reservation st student borrow_id now
     = (st, fail 404 "Reservation record not found or does not belong to you"))
    /\ (forall r, reachable st -> In r records -> rid r = borrow_id ->
                  student_id r <> uid student ->
                  find (own_record borrow_id (uid student)) records = None)
    /\ (forall r,
          find (own_record borrow_id (uid student)) records = Some r ->
          status r <> "reserved" ->
          cancel_reservation st student borrow_id now
          = (st, fail 400 "Only reserved books can be cancelled"))
    /\ (forall r,
          find (own_record borrow_id (uid student)) records = Some r ->
          status r = "reserved" ->
          let r' :=
            mkRecord (rid r) (student_id r) (book_id r) (borrow_date r)
                     (due_date r) (Some now) "cancelled" in
          snd (cancel_reservation st student borrow_id now)
          = mkResponse 200 "Reservation cancelled successfully" (RecordPayload r')
          /\ find (own_record borrow_id (uid student)) (borrowing_records_data st')
             = Some r'
          /\ (forall x, In x records -> x <> r ->
                        In x (borrowing_records_data st'))
          /\ books_data st' = books_data st
          /\ users_data st' = users_data st).
Proof.
  intros st u i now Hrole records st'. subst records st'.
  unfold cancel_reservation, role_required. rewrite Hrole.
  cbn [String.eqb Ascii.eqb Bool.eqb negb]. cbv zeta.
  split; [|split; [|split]].
  - intros ->. reflexivity.
  - intros r R Hin Hid Hs.
    destruct (find _ _) as [x|] eqn:F; [|reflexivity].
    apply find_some in F as [Hx Hown].
    unfold own_record in Hown. apply andb_true_iff in Hown as [E1 E2].
    apply Z.eqb_eq in E1, E2.
    destruct (reachable_consistent st R) as (_ & Hnd & _).
    assert (x = r); [|congruence].
    assert (find (fun z => rid z =? i) (borrowing_records_data st) = Some x) as Fx
        by (apply (find_key_unique rid); auto).
    assert (find (fun z => rid z =? i) (borrowing_records_data st) = Some r) as Fr
        by (apply (find_key_unique rid); auto).
    congruence.
  - intros r -> Hs. apply String.eqb_neq in Hs. rewrite Hs. reflexivity.
  - intros r Fr Hs. rewrite Fr, Hs. cbn [String.eqb Ascii.eqb Bool.eqb negb fst snd].
    split; [reflexivity|]. cbn [borrowing_records_data books_data users_data with_records].
    split; [|split; [|split; reflexivity]].
    + rewrite (find_update_first_hit _ (mark_cancelled now) _ _ Fr).
      * reflexivity.
      * apply find_some in Fr as [_ Fr]. exact Fr.
    + intros x Hx Hne. clear Hs. revert Fr Hx.
      induction (borrowing_records_data st) as [|y l IH]; simpl; [tauto|].
      destruct (own_record i (uid u) y).
      * intros [= ->] [E|Hx]; [congruence|now right].
      * intros F [E|Hx]; [now left|right; auto].
Qed.

Lemma cancel_reservation_spec_witness :
  snd (cancel_reservation reserved_state sample_student 1 noon)
  = mkResponse 200 "Reservation cancelled successfully"
               (RecordPayload (mkRecord 1 2 1 None None (Some noon) "cancelled"))
  /\ cancel_reservation reserved_state sample_librarian 1 noon
     = (reserved_state, fail 403 "Access denied: student role required").
Proof.
  split.
  - destruct (cancel_reservation_spec reserved_state sample_student 1 noon eq_refl)
      as (_ & _ & _ & H).
    exact (proj1 (H (mkRecord 1 2 1 None None None "reserved") eq_refl eq_refl)).
  - reflexivity.
Defined.
(** X15.  The answer "You have already borrowed this book" is given to a
    student exactly when the book is in the store with a copy available,
    the student has fewer than three loans and the first non-terminal
    record of the student for the book has status [borrowed]; the tables
    are then unchanged.  With no copy available or at the limit the earlier
    checks answer instead. *)
Theorem already_borrowed_message :
  forall st student k now1 now2,
    role student = "student" ->
    (message (snd (borrow_book st student k now1 now2))
     = "You have already borrowed this book"
     <-> exists book r,
         find (has_book_id k) (books_data st) = Some book
         /\ 0 < available_copies book
         /\ borrowed_count st (uid student) < 3
         /\ find (active_for (uid student) k) (borrowing_records_data st) = Some r
         /\ status r = "borrowed")
    /\ (message (snd (borrow_book st student k now1 now2))
        = "You have already borrowed this book" ->
        borrow_book st student k now1 now2
        = (st, fail 400 "You have already borrowed this book")).
Proof.
  intros st u k now1 now2 Hrole.
  unfold borrow_book, role_required, borrowed_count. rewrite Hrole.
  cbn [String.eqb Ascii.eqb Bool.eqb negb]. cbv zeta.
  destruct (find (has_book_id k) (books_data st)) as [book|].
  2:{ split; [split|]; [discriminate| |discriminate].
      intros (b & r & H & _). discriminate. }
  destruct (available_copies book <=? 0) eqn:E0.
  { apply Z.leb_le in E0.
    split; [split|]; [discriminate| |discriminate].
    intros (b & r & [= <-] & H & _). lia. }
  apply Z.leb_gt in E0.
  match goal with |- context [?c >=? 3] => destruct (c >=? 3) eqn:E3 end.
  { rewrite Z.geb_leb in E3. apply Z.leb_le in E3.
    split; [split|]; [discriminate| |discriminate].
    intros (b & r & _ & _ & H & _). lia. }
  rewrite Z.geb_leb in E3. apply Z.leb_gt in E3.
  destruct (find (active_for (uid u) k) (borrowing_records_data st)) as [r|].
  2:{ split; [split|]; [discriminate| |discriminate].
      intros (b & r & _ & _ & _ & H & _). discriminate. }
  destruct (status r =? "borrowed")%string eqn:Es.
  - apply String.eqb_eq in Es.
    split; [split|]; [|reflexivity|reflexivity].
    intros _. exists book, r. auto.
  - apply String.eqb_neq in Es.
    destruct (status r =? "reserved")%string;
      (split; [split|]; [discriminate| |discriminate]);
      intros (b & x & _ & _ & _ & [= <-] & H); contradiction.
Qed.

Lemma already_borrowed_message_witness :
  let st := fst (borrow_book
                   (fst (add_book (run empty_state setup) sample_librarian
                                  (book_form "TEST-1" 2)))
                   sample_student 1 noon noon) in
  borrow_book st sample_student 1 noon noon
  = (st, fail 400 "You have already borrowed this book").
Proof.
  intros st.
  apply (proj2 (already_borrowed_message st sample_student 1 noon noon eq_refl)).
  reflexivity.
Defined.

(** X16.  A first borrow.  For a student below the limit, a book with a
    copy available and no reserved or borrowed record of the student for
    it: the answer is 201 with a new record, appended to the table under a
    new identifier, with status [borrowed], the borrow date [now] and no
    return date; its due date is the end of the twentieth working day
    after [now], 28 days later for a borrow on Monday to Friday, 27 after
    a Saturday and 26 after a Sunday.  The book has one available copy
    less and the other books are as before. *)
Theorem first_borrow :
  forall st student k book now1 now2,
    role student = "student" ->
    find (has_book_id k) (books_data st) = Some book ->
    0 < available_copies book ->
    borrowed_count st (uid student) < 3 ->
    active_count st (uid student) k = 0%nat ->
    let due := end_of_day (add_days now1 (28 - weekend_shift now1)) in
    let new_record :=
      mkRecord (_get_next_id (map rid (borrowing_records_data st)))
               (uid student) k (Some now1) (Some due) None "borrowed" in
    let st' := fst (borrow_book st student k now1 now2) in
    snd (borrow_book st student k now1 now2)
    = mkResponse 201 "Book borrowed successfully" (RecordPayload new_record)
    /\ borrowing_records_data st' = borrowing_records_data st ++ [new_record]
    /\ (forall r, In r (borrowing_records_data st) -> rid r < rid new_record)
    /\ is_working_day due = true
    /\ find (has_book_id k) (books_data st')
       = Some (set_available_copies book (available_copies book - 1))
    /\ (forall j, j <> k ->
                  find (has_book_id j) (books_data st')
                  = find (has_book_id j) (books_data st))
    /\ users_data st' = users_data st.
Proof.
  intros st u k book now1 now2 Hrole Fb Hav Hlim Hnone due new_record st'.
  assert (calculate_due_date now1 default_max_weeks = due) as Edue.
  { unfold default_max_weeks, due.
    exact (proj1 (default_due_date now1)). }
  assert (find (active_for (uid u) k) (borrowing_records_data st) = None) as Fr.
  { destruct (find (active_for (uid u) k) (borrowing_records_data st))
      as [r|] eqn:F; [|reflexivity].
    apply find_some in F as [Hin Hr].
    pose proof (count_positive _ _ _ Hin Hr). unfold active_count in Hnone. lia. }
  subst st'. unfold borrow_book, role_required. rewrite Hrole, Fb.
  cbn [String.eqb Ascii.eqb Bool.eqb negb].
  apply Z.leb_gt in Hav. rewrite Hav.
  unfold borrowed_count in Hlim. rewrite geb_false by assumption.
  cbv zeta. rewrite Fr, Edue. fold new_record.
  cbn [fst snd borrowing_records_data books_data users_data].
  split; [reflexivity|]. split; [reflexivity|].
  split; [intros r Hin; apply next_id_fresh; now apply in_map|].
  split.
  { exact (proj2 (default_due_date now1)). }
  split; [|split; [|reflexivity]].
  - apply (find_update_first_hit _ decrement_available _ _ Fb).
    apply find_some in Fb as [_ Hk]. exact Hk.
  - intros j Hj. now apply find_other_book.
Qed.

Lemma first_borrow_witness :
  snd (borrow_book one_book_state sample_student 1 noon noon)
  = mkResponse 201 "Book borrowed successfully"
      (RecordPayload
         (mkRecord 1 2 1 (Some noon)
                   (Some (mkDatetime 738914 23 59 59 999999)) None "borrowed")).
Proof.
  exact (proj1 (first_borrow one_book_state sample_student 1
                  (mkBook 1 "Test Book" "Test Author" "TEST-1" (Some 2023) 1 1)
                  noon noon eq_refl eq_refl eq_refl eq_refl eq_refl)).
Defined.
(** ** The history of the records *)

Lemma evolves_refl r : evolves r r.
Proof. unfold evolves. auto. Qed.

Lemma Forall2_evolves_refl rs : Forall2 evolves rs rs.
Proof. induction rs; constructor; auto using evolves_refl. Qed.

Lemma Forall2_evolves_update p f rs x :
  find p rs = Some x -> evolves x (f x) ->
  Forall2 evolves rs (update_first p f rs).
Proof.
  intros F E. revert F. induction rs as [|y l IH]; simpl; [discriminate|].
  destruct (p y).
  - intros [= ->]. constructor; [assumption|apply Forall2_evolves_refl].
  - intros F. constructor; [apply evolves_refl|auto].
Qed.

Lemma history_same rs : history_step rs rs.
Proof.
  exists rs, []. rewrite app_nil_r.
  split; [reflexivity|]. split; [apply Forall2_evolves_refl|now left].
Qed.

Lemma history_append rs r : is_active r = true -> history_step rs (rs ++ [r]).
Proof.
  intros H. exists rs, [r].
  split; [reflexivity|]. split; [apply Forall2_evolves_refl|right; eauto].
Qed.

Lemma history_update p f rs x :
  find p rs = Some x -> evolves x (f x) ->
  history_step rs (update_first p f rs).
Proof.
  intros F E. exists (update_first p f rs), []. rewrite app_nil_r.
  split; [reflexivity|].
  split; [eapply Forall2_evolves_update; eauto|now left].
Qed.

Lemma perform_history st u a :
  history_step (borrowing_records_data st)
               (borrowing_records_data (fst (perform st u a))).
Proof.
  destruct a; simpl.
  - rewrite add_book_records. apply history_same.
  - rewrite update_book_records. apply history_same.
  - rewrite delete_book_records. apply history_same.
  - unfold borrow_book, role_required.
    destruct (negb _); [apply history_same|].
    destruct (find _ _); [|apply history_same].
    destruct (_ <=? _); [apply history_same|].
    match goal with |- context [?c >=? 3] => destruct (c >=? 3) end;
      [apply history_same|].
    cbv zeta.
    destruct (find (active_for (uid u) k) (borrowing_records_data st))
      as [r|] eqn:Fr; [|simpl; now apply history_append].
    destruct (status r =? "borrowed")%string; [apply history_same|].
    destruct (status r =? "reserved")%string eqn:Es;
      [|simpl; now apply history_append].
    simpl. apply (history_update _ _ _ r Fr).
    apply String.eqb_eq in Es. unfold evolves, legal_transition. simpl.
    rewrite Es. auto 10.
  - unfold reserve_book, role_required.
    destruct (negb _); [apply history_same|].
    destruct (find _ _); [|apply history_same].
    cbv zeta. destruct (find _ _); [apply history_same|].
    simpl. now apply history_append.
  - unfold cancel_reservation, role_required.
    destruct (negb _); [apply history_same|].
    cbv zeta.
    destruct (find _ _) as [r|] eqn:Fr; [|apply history_same].
    destruct (status r =? "reserved")%string eqn:Es; [|apply history_same].
    simpl. apply (history_update _ _ _ r Fr).
    apply String.eqb_eq in Es. unfold evolves, legal_transition. simpl.
    rewrite Es. auto 10.
  - unfold return_book, role_required.
    destruct (negb _); [apply history_same|].
    cbv zeta.
    destruct (find _ _) as [r|] eqn:Fr; [|apply history_same].
    destruct (is_active r) eqn:Ha; [|apply history_same].
    cbn [negb].
    destruct (find (has_book_id (book_id r)) (books_data st));
      [|apply history_same].
    simpl. apply (history_update _ _ _ r Fr).
    apply is_active_spec in Ha. unfold evolves, legal_transition. simpl.
    destruct Ha as [-> | ->]; auto 10.
Qed.

Lemma serve_history st req :
  history_step (borrowing_records_data st)
               (borrowing_records_data (fst (serve st req))).
Proof.
  destruct req; simpl.
  - rewrite (proj2 (register_user_tables st uname pwd urole new_token pw_hash)).
    apply history_same.
  - destruct (login_required st h); [apply perform_history|apply history_same].
Qed.

(** X17.  Whatever the request, the record table changes only along the
    life cycle: every row that was there is still there, in its place and
    with its identifier, student and book, and either as it was or with
    its status moved from [reserved] to [borrowed], [cancelled] or
    [returned], or from [borrowed] to [returned]; at most one row is
    added, at the end, with status [reserved] or [borrowed]. *)
Theorem records_follow_the_life_cycle :
  forall st req,
    exists updated added,
      borrowing_records_data (fst (serve st req)) = updated ++ added
      /\ Forall2 (fun r r' =>
                    rid r' = rid r /\ student_id r' = student_id r
                    /\ book_id r' = book_id r
                    /\ (r' = r
                        \/ (status r = "reserved" /\ status r' = "borrowed")
                        \/ (status r = "reserved" /\ status r' = "cancelled")
                        \/ (status r = "reserved" /\ status r' = "returned")
                        \/ (status r = "borrowed" /\ status r' = "returned")))
                 (borrowing_records_data st) updated
      /\ (added = []
          \/ exists r, added = [r]
                       /\ (status r = "borrowed" \/ status r = "reserved")).
Proof.
  intros st req.
  destruct (serve_history st req) as (updated & added & E & F & A).
  exists updated, added. split; [exact E|]. split; [exact F|].
  destruct A as [->|(r & -> & Ha)]; [now left|].
  right. exists r. split; [reflexivity|]. now apply is_active_spec.
Qed.

Lemma nth_error_history rs rs' n r :
  history_step rs rs' -> nth_error rs n = Some r ->
  exists r', nth_error rs' n = Some r' /\ evolves r r'.
Proof.
  intros (updated & added & -> & F & _) Hn.
  assert (exists r', nth_error updated n = Some r' /\ evolves r r') as (r' & H & E).
  { revert n Hn. induction F as [|x y l l' Hxy F IH]; intros [|n] Hn;
      simpl in *; try discriminate.
    - injection Hn as <-. eauto.
    - auto. }
  exists r'. split; [|assumption].
  rewrite nth_error_app1; [assumption|].
  apply nth_error_Some. congruence.
Qed.

Lemma evolves_terminal r r' : terminal r -> evolves r r' -> r' = r.
Proof.
  intros T (_ & _ & _ & [E|L]); [assumption|].
  unfold terminal, legal_transition in *.
  destruct T as [T|T]; rewrite T in L;
    destruct L as [[L _]|[[L _]|[[L _]|[L _]]]]; discriminate.
Qed.

(** X18.  No sequence of requests deletes or moves a record: the row at a
    position of the record table is found at that position ever after,
    with the same identifier, student and book; and once its status is
    [returned] or [cancelled] the whole row stays as it is. *)
Theorem records_are_kept :
  forall st reqs n r,
    nth_error (borrowing_records_data st) n = Some r ->
    exists r',
      nth_error (borrowing_records_data (run st reqs)) n = Some r'
      /\ rid r' = rid r /\ student_id r' = student_id r
      /\ book_id r' = book_id r
      /\ (status r = "returned" \/ status r = "cancelled" -> r' = r).
Proof.
  intros st reqs. revert st.
  induction reqs as [|req reqs IH]; intros st n r Hn; simpl.
  - exists r. auto.
  - destruct (nth_error_history _ _ n r (serve_history st req) Hn)
      as (r1 & H1 & E1).
    destruct (IH _ n r1 H1) as (r' & H' & Eid & Es & Ek & Ht).
    exists r'. destruct E1 as (E1 & E2 & E3 & E4).
    split; [assumption|]. repeat split; try congruence.
    intros T. pose proof (evolves_terminal r r1 T (conj E1 (conj E2 (conj E3 E4)))).
    subst r1. auto.
Qed.

Lemma records_are_kept_witness :
  exists r',
    nth_error
      (borrowing_records_data
         (run returned_state
              [Call student_headers (BorrowBook 1 noon noon);
               Call librarian_headers (ReturnBook 1 noon);
               Call librarian_headers (ReturnBook 2 noon)]))
      0
    = Some r'
    /\ r' = mkRecord 1 2 1 (Some noon) (Some (calculate_due_date noon 4))
                     (Some noon) "returned".
Proof.
  destruct (records_are_kept
              returned_state
              [Call student_headers (BorrowBook 1 noon noon);
               Call librarian_headers (ReturnBook 1 noon);
               Call librarian_headers (ReturnBook 2 noon)]
              0
              (mkRecord 1 2 1 (Some noon) (Some (calculate_due_date noon 4))
                        (Some noon) "returned")
              eq_refl)
    as (r' & H & _ & _ & _ & T).
  exists r'. split; [exact H|]. apply T. left. reflexivity.
Defined.
(** ** The shape of the records *)

Lemma shape_reserved r :
  record_shape r -> status r = "reserved" ->
  no_loan_dates r /\ return_date r = None.
Proof.
  intros [(_ & H)|[(E & _)|[(E & _)|(E & _)]]] Hs; [exact H|..];
    rewrite Hs in E; discriminate.
Qed.

Lemma shape_borrowed r :
  record_shape r -> status r = "borrowed" ->
  on_loan_dates r /\ return_date r = None.
Proof.
  intros [(E & _)|[(_ & H)|[(E & _)|(E & _)]]] Hs; [|exact H|..];
    rewrite Hs in E; discriminate.
Qed.

Lemma Forall_update_first {A : Type} (P : A -> Prop) p f (l : list A) x :
  Forall P l -> find p l = Some x -> P (f x) ->
  Forall P (update_first p f l).
Proof.
  intros H F Hx. revert F. induction H as [|y l Hy H IH]; simpl; [discriminate|].
  destruct (p y).
  - intros [= ->]. constructor; assumption.
  - intros F. constructor; auto.
Qed.

Lemma perform_shape st u a :
  Forall record_shape (borrowing_records_data st) ->
  Forall record_shape (borrowing_records_data (fst (perform st u a))).
Proof.
  intros S. destruct a; simpl.
  - now rewrite add_book_records.
  - now rewrite update_book_records.
  - now rewrite delete_book_records.
  - unfold borrow_book, role_required.
    destruct (negb _); [exact S|].
    destruct (find (has_book_id k) (books_data st)); [|exact S].
    destruct (_ <=? _); [exact S|].
    match goal with |- context [?c >=? 3] => destruct (c >=? 3) end; [exact S|].
    cbv zeta.
    assert (Forall record_shape
              (borrowing_records_data st ++
               [mkRecord (_get_next_id (map rid (borrowing_records_data st)))
                         (uid u) k (Some now1)
                         (Some (calculate_due_date now1 default_max_weeks))
                         None "borrowed"])) as Hfresh.
    { apply Forall_app. split; [exact S|]. constructor; [|constructor].
      right. left. unfold on_loan_dates. simpl. eauto 6. }
    destruct (find (active_for (uid u) k) (borrowing_records_data st))
      as [r|] eqn:Fr; [|exact Hfresh].
    destruct (status r =? "borrowed")%string; [exact S|].
    destruct (status r =? "reserved")%string eqn:Es; [|exact Hfresh].
    simpl. apply (Forall_update_first _ _ _ _ r S Fr).
    apply String.eqb_eq in Es.
    assert (record_shape r) as Hr
        by (rewrite Forall_forall in S; apply S; apply find_some in Fr; tauto).
    destruct (shape_reserved r Hr Es) as [_ Hret].
    right. left. unfold on_loan_dates. simpl. eauto 6.
  - unfold reserve_book, role_required.
    destruct (negb _); [exact S|].
    destruct (find (has_book_id k) (books_data st)); [|exact S].
    cbv zeta.
    destruct (find (active_for (uid u) k) (borrowing_records_data st));
      [exact S|].
    simpl. apply Forall_app. split; [exact S|]. constructor; [|constructor].
    left. unfold no_loan_dates. simpl. auto.
  - unfold cancel_reservation, role_required.
    destruct (negb _); [exact S|].
    cbv zeta.
    destruct (find (own_record borrow_id (uid u)) (borrowing_records_data st))
      as [r|] eqn:Fr; [|exact S].
    destruct (status r =? "reserved")%string eqn:Es; [|exact S].
    simpl. apply (Forall_update_first _ _ _ _ r S Fr).
    apply String.eqb_eq in Es.
    assert (record_shape r) as Hr
        by (rewrite Forall_forall in S; apply S; apply find_some in Fr; tauto).
    destruct (shape_reserved r Hr Es) as [Hno _].
    right. right. left. unfold no_loan_dates in *. simpl. eauto.
  - unfold return_book, role_required.
    destruct (negb _); [exact S|].
    cbv zeta.
    destruct (find (has_record_id borrow_id) (borrowing_records_data st))
      as [r|] eqn:Fr; [|exact S].
    destruct (is_active r) eqn:Ha; [|exact S]. cbn [negb].
    destruct (find (has_book_id (book_id r)) (books_data st)); [|exact S].
    simpl. apply (Forall_update_first _ _ _ _ r S Fr).
    assert (record_shape r) as Hr
        by (rewrite Forall_forall in S; apply S; apply find_some in Fr; tauto).
    right. right. right.
    apply is_active_spec in Ha as [Es|Es].
    + destruct (shape_borrowed r Hr Es) as [Hon _].
      unfold on_loan_dates, no_loan_dates in *. simpl. eauto.
    + destruct (shape_reserved r Hr Es) as [Hno _].
      unfold on_loan_dates, no_loan_dates in *. simpl. eauto.
Qed.

Lemma reachable_shape st :
  reachable st -> Forall record_shape (borrowing_records_data st).
Proof.
  induction 1.
  - constructor.
  - now rewrite (proj2 (register_user_tables st uname pwd urole new_token pw_hash)).
  - now apply perform_shape.
Qed.

(** X19.  In every reachable state the date columns of a record go with
    its status: a reservation has no date; a loan has a borrow date and a
    due date and no return date; a cancelled record has a return date and
    no borrow or due date; a returned record has a return date, and
    either both loan dates or, for a returned reservation, neither.  No
    other status occurs.  Every due date is the last instant of a working
    day. *)
Theorem record_dates_match_status :
  forall st r,
    reachable st -> In r (borrowing_records_data st) ->
    ((status r = "reserved" /\ borrow_date r = None /\ due_date r = None
      /\ return_date r = None)
     \/ (status r = "borrowed" /\ borrow_date r <> None /\ due_date r <> None
         /\ return_date r = None)
     \/ (status r = "cancelled" /\ borrow_date r = None /\ due_date r = None
         /\ return_date r <> None)
     \/ (status r = "returned" /\ return_date r <> None
         /\ (borrow_date r = None <-> due_date r = None)))
    /\ (forall due, due_date r = Some due ->
                    is_working_day due = true
                    /\ (hour due, minute due, second due, microsecond due)
                       = (23, 59, 59, 999999)).
Proof.
  intros st r R Hin.
  pose proof (reachable_shape st R) as S.
  rewrite Forall_forall in S. specialize (S r Hin).
  assert (forall due, on_loan_dates r -> due_date r = Some due ->
                      is_working_day due = true
                      /\ (hour due, minute due, second due, microsecond due)
                         = (23, 59, 59, 999999)) as Hdue.
  { intros due (_ & now & E) E'. rewrite E in E'. injection E' as <-.
    unfold default_max_weeks.
    destruct (default_due_date now) as [Ed W].
    rewrite Ed. split; [exact W|reflexivity]. }
  unfold record_shape, no_loan_dates in S. split.
  - destruct S as [(Es & (B & D) & Rt)|[(Es & On & Rt)|
                   [(Es & (B & D) & t & Rt)|(Es & L & t & Rt)]]].
    + left. auto.
    + right. left. destruct On as ((b & B) & now & D).
      repeat split; congruence.
    + right. right. left. repeat split; congruence.
    + right. right. right. split; [assumption|]. split; [congruence|].
      destruct L as [(B & D)|((b & B) & now & D)]; split; congruence.
  - intros due E.
    destruct S as [(_ & (_ & D) & _)|[(_ & On & _)|
                   [(_ & (_ & D) & _)|(_ & [(_ & D)|On] & _)]]];
      try congruence; now apply Hdue.
Qed.

Lemma record_dates_match_status_witness :
  reachable returned_state
  /\ is_working_day (calculate_due_date noon 4) = true.
Proof.
  assert (reachable returned_state) as R
      by (repeat apply run_reachable; apply reach_empty).
  split; [exact R|].
  apply (proj2 (record_dates_match_status
                  returned_state
                  (mkRecord 1 2 1 (Some noon) (Some (calculate_due_date noon 4))
                            (Some noon) "returned")
                  R (or_introl eq_refl))
               (calculate_due_date noon 4) eq_refl).
Defined.
(** ** References between the tables *)

Lemma register_user_keeps_users st uname pwd urole new_token pw_hash :
  exists tail,
    map id_and_role
        (users_data (fst (register_user st uname pwd urole new_token pw_hash)))
    = map id_and_role (users_data st) ++ tail.
Proof.
  unfold register_user.
  destruct (_ || _); [exists []; now rewrite app_nil_r|].
  destruct (negb _); [exists []; now rewrite app_nil_r|].
  cbv zeta.
  destruct (find _ (users_data st)) as [u|].
  - destruct (urole =? "student")%string;
      [|exists []; now rewrite app_nil_r].
    destruct (negb _); [exists []; now rewrite app_nil_r|].
    exists []. simpl. rewrite app_nil_r.
    now rewrite (map_update_first_same id_and_role).
  - destruct (urole =? "student")%string; simpl; rewrite map_app; eauto.
Qed.

Lemma registered_student_kept st s uname pwd urole new_token pw_hash :
  (exists u, In u (users_data st) /\ uid u = s /\ role u = "student") ->
  exists u,
    In u (users_data (fst (register_user st uname pwd urole new_token pw_hash)))
    /\ uid u = s /\ role u = "student".
Proof.
  intros (u & Hin & Es & Er).
  destruct (register_user_keeps_users st uname pwd urole new_token pw_hash)
    as (tail & E).
  assert (In (s, "student")
             (map id_and_role
                  (users_data
                     (fst (register_user st uname pwd urole new_token pw_hash)))))
    as H.
  { rewrite E. apply in_or_app. left.
    apply in_map_iff. exists u. split; [|assumption].
    unfold id_and_role. congruence. }
  apply in_map_iff in H as (u' & E' & Hin').
  exists u'. unfold id_and_role in E'. injection E' as E1 E2. auto.
Qed.

Lemma references_update st bs' p f x :
  references_ok st ->
  map bid bs' = map bid (books_data st) ->
  find p (borrowing_records_data st) = Some x ->
  student_id (f x) = student_id x ->
  (is_active (f x) = true -> is_active x = true /\ book_id (f x) = book_id x) ->
  references_ok
    (mkState (users_data st) bs'
             (update_first p f (borrowing_records_data st))).
Proof.
  intros Ref Ekeys F Es Ha r Hin. simpl in *. rewrite Ekeys.
  apply in_update_first in Hin as [Hin|(y & Fy & ->)]; [exact (Ref r Hin)|].
  rewrite F in Fy. injection Fy as <-.
  apply find_some in F as [Hx _]. destruct (Ref x Hx) as [Hu Hb].
  rewrite Es. split; [exact Hu|].
  intros A. destruct (Ha A) as [A' ->]. auto.
Qed.

Lemma references_append st bs' new :
  references_ok st ->
  map bid bs' = map bid (books_data st) ->
  (exists u, In u (users_data st) /\ uid u = student_id new
             /\ role u = "student") ->
  In (book_id new) (map bid (books_data st)) ->
  references_ok
    (mkState (users_data st) bs' (borrowing_records_data st ++ [new])).
Proof.
  intros Ref Ekeys Hu Hb r Hin. simpl in *. rewrite Ekeys.
  apply in_app_or in Hin as [Hin|[<-|[]]]; [exact (Ref r Hin)|auto].
Qed.

Lemma references_books st bs' :
  references_ok st ->
  (forall k, In k (map bid (books_data st)) ->
             (exists r, In r (borrowing_records_data st)
                        /\ is_active r = true /\ book_id r = k) ->
             In k (map bid bs')) ->
  references_ok (with_books st bs').
Proof.
  intros Ref H r Hin. simpl in *. destruct (Ref r Hin) as [Hu Hb].
  split; [exact Hu|]. intros A. apply H; eauto.
Qed.

Lemma perform_references st u a :
  In u (users_data st) ->
  references_ok st -> references_ok (fst (perform st u a)).
Proof.
  intros Hu Ref. destruct a; simpl.
  - unfold add_book, role_required.
    destruct (negb _); [exact Ref|]. cbv zeta.
    destruct (_ || _); [exact Ref|].
    destruct (existsb _ _); [exact Ref|].
    simpl. apply references_books; [exact Ref|].
    intros j Hj _. rewrite map_app. apply in_or_app. now left.
  - destruct (update_book_shape st u k data)
      as [->|(b0 & book & Fb & -> & Ek & _)]; [exact Ref|].
    apply references_books; [exact Ref|].
    intros j Hj _. rewrite books_keys_store; [assumption|].
    apply find_book_spec in Fb as [_ <-]. exact Ek.
  - unfold delete_book, role_required.
    destruct (negb _); [exact Ref|].
    destruct (find (has_book_id k) (books_data st)); [|exact Ref].
    cbv zeta.
    destruct (filter (active_on k) (borrowing_records_data st)) eqn:Fa;
      [|exact Ref].
    simpl. apply references_books; [exact Ref|].
    intros j Hj (r & Hin & Ha & Ej).
    apply in_map_iff in Hj as (bk & Eb & Hb).
    apply in_map_iff. exists bk. split; [assumption|].
    apply (remove_first_keeps bid); [assumption|].
    intros E. assert (In r (filter (active_on k) (borrowing_records_data st))) as X.
    { apply filter_In. split; [assumption|]. unfold active_on.
      rewrite Ej, <- Eb, E, Z.eqb_refl, Ha. reflexivity. }
    rewrite Fa in X. contradiction.
  - unfold borrow_book, role_required.
    destruct (negb (role u =? "student")%string) eqn:Hrole; [exact Ref|].
    apply negb_false_iff, String.eqb_eq in Hrole.
    destruct (find (has_book_id k) (books_data st)) as [book|] eqn:Fb;
      [|exact Ref].
    destruct (_ <=? _); [exact Ref|].
    match goal with |- context [?c >=? 3] => destruct (c >=? 3) end; [exact Ref|].
    cbv zeta.
    assert (references_ok
              (mkState (users_data st)
                 (update_first (has_book_id k) decrement_available (books_data st))
                 (borrowing_records_data st ++
                  [mkRecord (_get_next_id (map rid (borrowing_records_data st)))
                            (uid u) k (Some now1)
                            (Some (calculate_due_date now1 default_max_weeks))
                            None "borrowed"]))) as Hfresh.
    { apply references_append; [exact Ref|apply books_keys_decrement|eauto|].
      eapply found_book_key; eauto. }
    destruct (find (active_for (uid u) k) (borrowing_records_data st))
      as [r|] eqn:Fr; [|exact Hfresh].
    destruct (status r =? "borrowed")%string; [exact Ref|].
    destruct (status r =? "reserved")%string eqn:Es; [|exact Hfresh].
    simpl. apply (references_update st _ _ _ r);
      auto using books_keys_decrement.
    intros _. split; [|reflexivity].
    apply find_some in Fr as [_ Fr]. apply active_for_spec in Fr. tauto.
  - unfold reserve_book, role_required.
    destruct (negb (role u =? "student")%string) eqn:Hrole; [exact Ref|].
    apply negb_false_iff, String.eqb_eq in Hrole.
    destruct (find (has_book_id k) (books_data st)) as [book|] eqn:Fb;
      [|exact Ref].
    cbv zeta.
    destruct (find (active_for (uid u) k) (borrowing_records_data st));
      [exact Ref|].
    simpl. unfold with_records.
    apply (references_append st (books_data st)); eauto.
    eapply found_book_key; eauto.
  - unfold cancel_reservation, role_required.
    destruct (negb _); [exact Ref|].
    cbv zeta.
    destruct (find (own_record borrow_id (uid u)) (borrowing_records_data st))
      as [r|] eqn:Fr; [|exact Ref].
    destruct (negb _); [exact Ref|].
    simpl. unfold with_records.
    apply (references_update st (books_data st) _ _ r); auto.
    intros A. rewrite (is_active_terminal _ "cancelled") in A
      by (first [reflexivity | discriminate]).
    discriminate.
  - unfold return_book, role_required.
    destruct (negb _); [exact Ref|].
    cbv zeta.
    destruct (find (has_record_id borrow_id) (borrowing_records_data st))
      as [r|] eqn:Fr; [|exact Ref].
    destruct (negb _); [exact Ref|].
    destruct (find (has_book_id (book_id r)) (books_data st)); [|exact Ref].
    simpl. apply (references_update st _ _ _ r); auto.
    + destruct (was_borrowed r); [apply books_keys_increment|reflexivity].
    + intros A. rewrite (is_active_terminal _ "returned") in A
        by (first [reflexivity | discriminate]).
      discriminate.
Qed.

Lemma reachable_references st : reachable st -> references_ok st.
Proof.
  induction 1.
  - intros r [].
  - intros r Hin.
    destruct (register_user_tables st uname pwd urole new_token pw_hash)
      as [Eb Er].
    rewrite Er in Hin. rewrite Eb.
    destruct (IHreachable r Hin) as [Hu Hb].
    split; [|exact Hb]. now apply registered_student_kept.
  - now apply perform_references.
Qed.

(** X20.  In every reachable state each borrowing record belongs to a
    registered user whose role is [student], and each record with status
    [reserved] or [borrowed] points to a book that is in the store. *)
Theorem records_reference_rows :
  forall st r,
    reachable st -> In r (borrowing_records_data st) ->
    (exists u, In u (users_data st) /\ uid u = student_id r
               /\ role u = "student")
    /\ (status r = "reserved" \/ status r = "borrowed" ->
        exists b, In b (books_data st) /\ bid b = book_id r).
Proof.
  intros st r R Hin.
  destruct (reachable_references st R r Hin) as [Hu Hb].
  split; [exact Hu|]. intros Hs.
  assert (is_active r = true) as A by (apply is_active_spec; tauto).
  apply Hb in A. apply in_map_iff in A as (b & E & Hinb). eauto.
Qed.

Lemma records_reference_rows_witness :
  reachable limit_state
  /\ exists u, In u (users_data limit_state) /\ uid u = 2 /\ role u = "student".
Proof.
  assert (reachable limit_state) as R by (apply run_reachable, reach_empty).
  split; [exact R|].
  exact (proj1 (records_reference_rows
                  limit_state
                  (mkRecord 1 2 1 (Some noon) (Some (calculate_due_date noon 4))
                            None "borrowed")
                  R (or_introl eq_refl))).
Defined.
(** ** Bounds of the copy counts *)




(** ** The endpoints that only read *)
















(** ** A reservation and the stock *)

Lemma no_active_record st s k :
  active_count st s k = 0%nat ->
  find (active_for s k) (borrowing_records_data st) = None.
Proof.
  intros H. destruct (find _ _) as [r|] eqn:F; [|reflexivity].
  apply find_some in F as [Hin Hr].
  pose proof (count_positive _ _ _ Hin Hr). unfold active_count in H. lia.
Qed.

(** X25.  A reservation does not set a copy aside.  When a student has
    reserved a book whose last copy is available, another student can
    still borrow that copy; the borrow of the student who holds the
    reservation is then refused with "No copies of this book are
    currently available", and the reservation stays in the table with
    status [reserved]. *)
Theorem reservation_holds_no_copy :
  forall st holder other k book now1 now2 now3 now4,
    role holder = "student" ->
    role other = "student" ->
    uid holder <> uid other ->
    find (has_book_id k) (books_data st) = Some book ->
    available_copies book = 1 ->
    active_count st (uid holder) k = 0%nat ->
    active_count st (uid other) k = 0%nat ->
    borrowed_count st (uid other) < 3 ->
    let reservation :=
      mkRecord (_get_next_id (map rid (borrowing_records_data st)))
               (uid holder) k None None None "reserved" in
    let st1 := fst (reserve_book st holder k) in
    let st2 := fst (borrow_book st1 other k now1 now2) in
    snd (reserve_book st holder k)
    = mkResponse 201 "Book reserved successfully" (RecordPayload reservation)
    /\ find (has_book_id k) (books_data st1) = Some book
    /\ code (snd (borrow_book st1 other k now1 now2)) = 201
    /\ message (snd (borrow_book st1 other k now1 now2))
       = "Book borrowed successfully"
    /\ borrow_book st2 holder k now3 now4
       = (st2, fail 400 "No copies of this book are currently available")
    /\ find (active_for (uid holder) k) (borrowing_records_data st2)
       = Some reservation.
Proof.
  intros st A B k book now1 now2 now3 now4 HA HB Hne Fb Hav NA NB LB
         reservation st1 st2.
  pose proof (no_active_record st _ _ NA) as FA.
  pose proof (no_active_record st _ _ NB) as FB.
  assert (reserve_book st A k
          = (mkState (users_data st) (books_data st)
                     (borrowing_records_data st ++ [reservation]),
             mkResponse 201 "Book reserved successfully"
                        (RecordPayload reservation))) as E1.
  { unfold reserve_book, role_required. rewrite HA, Fb.
    cbn [String.eqb Ascii.eqb Bool.eqb negb]. cbv zeta. rewrite FA.
    reflexivity. }
  subst st2 st1. rewrite E1. cbn [fst snd].
  assert (active_for (uid B) k reservation = false) as NotB.
  { unfold active_for. cbn [student_id reservation].
    apply Z.eqb_neq in Hne. now rewrite Hne. }
  assert (active_for (uid A) k reservation = true) as IsA.
  { unfold active_for, is_active. cbn. now rewrite !Z.eqb_refl. }
  set (loan := mkRecord
                 (_get_next_id (map rid (borrowing_records_data st ++ [reservation])))
                 (uid B) k (Some now1)
                 (Some (calculate_due_date now1 default_max_weeks))
                 None "borrowed").
  assert (borrow_book
            (mkState (users_data st) (books_data st)
                     (borrowing_records_data st ++ [reservation]))
            B k now1 now2
          = (mkState (users_data st)
                     (update_first (has_book_id k) decrement_available
                                   (books_data st))
                     ((borrowing_records_data st ++ [reservation]) ++ [loan]),
             mkResponse 201 "Book borrowed successfully" (RecordPayload loan)))
    as E2.
  { unfold borrow_book, role_required. rewrite HB.
    cbn [String.eqb Ascii.eqb Bool.eqb negb books_data borrowing_records_data
         users_data].
    rewrite Fb, Hav. cbn [Z.leb Z.compare].
    rewrite count_app_one.
    rewrite (borrowed_by_status _ reservation "reserved")
      by (first [reflexivity | discriminate]).
    unfold borrowed_count in LB.
    rewrite geb_false by lia.
    cbv zeta. rewrite (find_app_none _ _ _ FB), NotB. reflexivity. }
  rewrite E2. cbn [fst snd code message].
  split; [reflexivity|]. split; [exact Fb|].
  split; [reflexivity|]. split; [reflexivity|].
  assert (find (has_book_id k)
               (update_first (has_book_id k) decrement_available (books_data st))
          = Some (decrement_available book)) as Fb2.
  { apply (find_update_first_hit _ decrement_available _ _ Fb).
    apply find_some in Fb as [_ Hk]. exact Hk. }
  split.
  - unfold borrow_book, role_required. rewrite HA.
    cbn [String.eqb Ascii.eqb Bool.eqb negb books_data].
    rewrite Fb2. cbn [decrement_available set_available_copies available_copies].
    rewrite Hav. reflexivity.
  - cbn [borrowing_records_data].
    apply find_app_some. rewrite (find_app_none _ _ _ FA), IsA. reflexivity.
Qed.

Lemma reservation_holds_no_copy_witness :
  let ann := mkUser 3 "ann" "h3" "student" "tok-2" in
  let st := fst (register_user one_book_state "ann" "pw" "student" "tok-2" "h3") in
  let st2 :=
    fst (borrow_book (fst (reserve_book st sample_student 1)) ann 1 noon noon) in
  borrow_book st2 sample_student 1 noon noon
  = (st2, fail 400 "No copies of this book are currently available").
Proof.
  intros ann st st2.
  assert (uid sample_student <> uid ann) as Hne by discriminate.
  exact (proj1 (proj2 (proj2 (proj2 (proj2
           (reservation_holds_no_copy
              st sample_student ann 1
              (mkBook 1 "Test Book" "Test Author" "TEST-1" (Some 2023) 1 1)
              noon noon noon noon
              eq_refl eq_refl Hne eq_refl eq_refl eq_refl eq_refl eq_refl)))))).
Defined.
(** ** Identifiers count up *)

Lemma max_id_seq m :
  forall a x,
    max_id x (map Z.of_nat (seq a m))
    = match m with
      | O => x
      | S _ => Z.max x (Z.of_nat (a + m - 1))
      end.
Proof.
  induction m as [|m IH]; intros a x; simpl; [reflexivity|].
  rewrite IH. destruct m; [|simpl]; lia.
Qed.

Lemma next_id_seq n :
  _get_next_id (map Z.of_nat (seq 1 n)) = Z.of_nat (S n).
Proof.
  destruct n as [|n]; [reflexivity|].
  cbn [seq map _get_next_id]. rewrite max_id_seq. destruct n; lia.
Qed.

Lemma counting_append {A : Type} (key : A -> Z) (l : list A) (x : A) :
  map key l = map Z.of_nat (seq 1 (List.length l)) ->
  key x = _get_next_id (map key l) ->
  map key (l ++ [x]) = map Z.of_nat (seq 1 (List.length (l ++ [x]))).
Proof.
  intros H E. rewrite length_app, map_app. simpl.
  rewrite Nat.add_1_r, seq_S, map_app. simpl.
  rewrite E, H, next_id_seq. reflexivity.
Qed.

Lemma length_update_first {A : Type} (p : A -> bool) (f : A -> A) (l : list A) :
  List.length (update_first p f l) = List.length l.
Proof.
  induction l as [|x l IH]; simpl; [reflexivity|].
  destruct (p x); simpl; [reflexivity|now rewrite IH].
Qed.

Lemma counting_update {A : Type} (key : A -> Z) p f (l : list A) :
  (forall x, key (f x) = key x) ->
  map key l = map Z.of_nat (seq 1 (List.length l)) ->
  map key (update_first p f l)
  = map Z.of_nat (seq 1 (List.length (update_first p f l))).
Proof.
  intros Hf H. now rewrite length_update_first, (map_update_first_same key).
Qed.

Lemma perform_record_ids_count st u a :
  map rid (borrowing_records_data st)
  = map Z.of_nat (seq 1 (List.length (borrowing_records_data st))) ->
  map rid (borrowing_records_data (fst (perform st u a)))
  = map Z.of_nat
        (seq 1 (List.length (borrowing_records_data (fst (perform st u a))))).
Proof.
  intros H. destruct a; simpl.
  - now rewrite add_book_records.
  - now rewrite update_book_records.
  - now rewrite delete_book_records.
  - unfold borrow_book, role_required.
    destruct (negb _); [exact H|].
    destruct (find (has_book_id k) (books_data st)); [|exact H].
    destruct (_ <=? _); [exact H|].
    match goal with |- context [?c >=? 3] => destruct (c >=? 3) end; [exact H|].
    cbv zeta.
    destruct (find (active_for (uid u) k) (borrowing_records_data st)) as [r|];
      [|simpl; now apply counting_append].
    destruct (status r =? "borrowed")%string; [exact H|].
    destruct (status r =? "reserved")%string;
      simpl; [now apply counting_update|now apply counting_append].
  - unfold reserve_book, role_required.
    destruct (negb _); [exact H|].
    destruct (find (has_book_id k) (books_data st)); [|exact H].
    cbv zeta.
    destruct (find (active_for (uid u) k) (borrowing_records_data st));
      [exact H|].
    simpl. now apply counting_append.
  - unfold cancel_reservation, role_required.
    destruct (negb _); [exact H|].
    cbv zeta.
    destruct (find (own_record borrow_id (uid u)) (borrowing_records_data st));
      [|exact H].
    destruct (negb _); [exact H|].
    simpl. now apply counting_update.
  - unfold return_book, role_required.
    destruct (negb _); [exact H|].
    cbv zeta.
    destruct (find (has_record_id borrow_id) (borrowing_records_data st))
      as [r|]; [|exact H].
    destruct (negb _); [exact H|].
    destruct (find (has_book_id (book_id r)) (books_data st)); [|exact H].
    simpl. now apply counting_update.
Qed.

Lemma register_user_ids_count st uname pwd urole new_token pw_hash :
  map uid (users_data st) = map Z.of_nat (seq 1 (List.length (users_data st))) ->
  map uid (users_data (fst (register_user st uname pwd urole new_token pw_hash)))
  = map Z.of_nat
        (seq 1 (List.length
                  (users_data
                     (fst (register_user st uname pwd urole new_token pw_hash))))).
Proof.
  intros H. unfold register_user.
  destruct (_ || _); [exact H|].
  destruct (negb _); [exact H|].
  cbv zeta.
  destruct (find _ (users_data st)) as [u|].
  - destruct (urole =? "student")%string; [|exact H].
    destruct (negb _); [exact H|].
    simpl. now apply counting_update.
  - destruct (urole =? "student")%string; simpl; now apply counting_append.
Qed.

Lemma reachable_ids_count st :
  reachable st ->
  map uid (users_data st) = map Z.of_nat (seq 1 (List.length (users_data st)))
  /\ map rid (borrowing_records_data st)
     = map Z.of_nat (seq 1 (List.length (borrowing_records_data st))).
Proof.
  induction 1 as [|st uname pwd urole tok h R [IHu IHr]|st u a R [IHu IHr] Hu].
  - split; reflexivity.
  - split; [now apply register_user_ids_count|].
    now rewrite (proj2 (register_user_tables st uname pwd urole tok h)).
  - split; [now rewrite perform_users|now apply perform_record_ids_count].
Qed.

Lemma nth_error_seq m :
  forall a n, (n < m)%nat -> nth_error (seq a m) n = Some (a + n)%nat.
Proof.
  induction m as [|m IH]; intros a n Hn; [lia|].
  destruct n as [|n]; simpl; [f_equal; lia|].
  rewrite IH by lia. f_equal. lia.
Qed.

Lemma nth_of_counting {A : Type} (key : A -> Z) (l : list A) n x :
  map key l = map Z.of_nat (seq 1 (List.length l)) ->
  nth_error l n = Some x -> key x = Z.of_nat n + 1.
Proof.
  intros H Hn.
  assert (nth_error (map key l) n = Some (key x)) as E
      by (now apply map_nth_error).
  rewrite H in E.
  assert (n < List.length l)%nat as Hlt by (apply nth_error_Some; congruence).
  rewrite (map_nth_error Z.of_nat n (seq 1 (List.length l))
                         (nth_error_seq _ 1 n Hlt)) in E.
  injection E as <-. lia.
Qed.

(** X26.  Users and borrowing records are numbered in the order in which
    they were created: in every reachable state the row at position [n]
    (from 0) of the user table has id [n + 1], and the row at position
    [n] of the record table has id [n + 1]. *)
Theorem ids_count_up :
  forall st n,
    reachable st ->
    (forall u, nth_error (users_data st) n = Some u ->
               uid u = Z.of_nat n + 1)
    /\ (forall r, nth_error (borrowing_records_data st) n = Some r ->
                  rid r = Z.of_nat n + 1).
Proof.
  intros st n R. destruct (reachable_ids_count st R) as [Hu Hr].
  split; intros x Hx; eapply nth_of_counting; eauto.
Qed.

Lemma ids_count_up_witness :
  reachable limit_state
  /\ rid (mkRecord 3 2 3 (Some noon) (Some (calculate_due_date noon 4))
                   None "borrowed")
     = Z.of_nat 2 + 1.
Proof.
  assert (reachable limit_state) as R by (apply run_reachable, reach_empty).
  split; [exact R|].
  exact (proj2 (ids_count_up limit_state 2 R) _ eq_refl).
Defined.
(** ** Round trips *)

Lemma update_first_undo {A : Type} (p : A -> bool) (f g : A -> A)
      (l : list A) (x : A) :
  find p l = Some x -> p (f x) = true -> g (f x) = x ->
  update_first p g (update_first p f l) = l.
Proof.
  induction l as [|y l IH]; simpl; [discriminate|].
  destruct (p y) eqn:Hp.
  - intros [= ->] Hf Hg. simpl. now rewrite Hf, Hg.
  - intros F Hf Hg. simpl. rewrite Hp. now rewrite IH.
Qed.

Lemma remove_first_app_last {A : Type} (p : A -> bool) (l : list A) (x : A) :
  find p l = None -> p x = true -> remove_first p (l ++ [x]) = l.
Proof.
  induction l as [|y l IH]; simpl; intros F Hx.
  - now rewrite Hx.
  - destruct (p y); [discriminate|]. now rewrite IH.
Qed.

Lemma increment_decrement b : increment_available (decrement_available b) = b.
Proof.
  destruct b. unfold increment_available, decrement_available,
    set_available_copies. simpl. f_equal. lia.
Qed.

(** X27.  Borrowing and returning is a round trip for the inventory.
    After a first borrow (student below the limit, a copy available, no
    reserved or borrowed record of the student for the book), the return
    of the new record by a librarian succeeds and the book table is again
    exactly what it was before the borrow; the record table has gained
    one row, the returned loan, and the users are untouched. *)
Theorem borrow_then_return_restores_books :
  forall st student librarian k book now1 now2 now3,
    role student = "student" ->
    role librarian = "librarian" ->
    find (has_book_id k) (books_data st) = Some book ->
    0 < available_copies book ->
    borrowed_count st (uid student) < 3 ->
    active_count st (uid student) k = 0%nat ->
    let st1 := fst (borrow_book st student k now1 now2) in
    let loan_id := _get_next_id (map rid (borrowing_records_data st)) in
    let returned :=
      mkRecord loan_id (uid student) k (Some now1)
               (Some (calculate_due_date now1 4)) (Some now3) "returned" in
    return_book st1 librarian loan_id now3
    = (mkState (users_data st) (books_data st)
               (borrowing_records_data st ++ [returned]),
       mkResponse 200 "Book returned successfully" (RecordPayload returned)).
Proof.
  intros st u lib k book now1 now2 now3 Hstu Hlib Fb Hav Hlim Hnone
         st1 loan_id returned.
  pose proof (no_active_record st _ _ Hnone) as Fr.
  pose proof (find_some _ _ Fb) as [_ Hk].
  set (loan := mkRecord loan_id (uid u) k (Some now1)
                        (Some (calculate_due_date now1 default_max_weeks))
                        None "borrowed").
  assert (borrow_book st u k now1 now2
          = (mkState (users_data st)
                     (update_first (has_book_id k) decrement_available
                                   (books_data st))
                     (borrowing_records_data st ++ [loan]),
             mkResponse 201 "Book borrowed successfully" (RecordPayload loan)))
    as E1.
  { unfold borrow_book, role_required. rewrite Hstu, Fb.
    cbn [String.eqb Ascii.eqb Bool.eqb negb].
    apply Z.leb_gt in Hav. rewrite Hav.
    unfold borrowed_count in Hlim. rewrite geb_false by assumption.
    cbv zeta. rewrite Fr. reflexivity. }
  subst st1. rewrite E1. cbn [fst].
  unfold return_book, role_required. rewrite Hlib.
  cbn [String.eqb Ascii.eqb Bool.eqb negb borrowing_records_data books_data
       users_data].
  cbv zeta.
  assert (find (has_record_id loan_id) (borrowing_records_data st) = None)
    as Ffresh by apply find_fresh_record.
  rewrite (find_app_none _ _ _ Ffresh).
  assert (has_record_id loan_id loan = true) as Hid
      by (unfold has_record_id; simpl; apply Z.eqb_refl).
  rewrite Hid.
  change (is_active loan) with true. cbn [negb book_id loan].
  rewrite (find_update_first_hit _ decrement_available _ _ Fb Hk).
  change (was_borrowed loan) with true. cbv iota.
  rewrite (update_first_undo _ decrement_available increment_available _ book
                             Fb Hk (increment_decrement book)).
  rewrite (update_first_app_last _ _ _ _ Ffresh Hid).
  reflexivity.
Qed.

Lemma borrow_then_return_restores_books_witness :
  books_data
    (fst (return_book
            (fst (borrow_book one_book_state sample_student 1 noon noon))
            sample_librarian 1 noon))
  = books_data one_book_state.
Proof.
  exact (f_equal (fun p => books_data (fst p))
           (borrow_then_return_restores_books
              one_book_state sample_student sample_librarian 1
              (mkBook 1 "Test Book" "Test Author" "TEST-1" (Some 2023) 1 1)
              noon noon noon eq_refl eq_refl eq_refl eq_refl eq_refl eq_refl)).
Defined.

(** X28.  Adding and deleting is a round trip.  In a reachable state,
    after a librarian has added a book (complete form, ISBN not in the
    store), deleting the book under the identifier it was given succeeds
    and the three tables are again exactly what they were before the
    book was added. *)
Theorem add_then_delete_restores_tables :
  forall st librarian data,
    reachable st ->
    role librarian = "librarian" ->
    form_title data <> "" -> form_author data <> "" -> form_isbn data <> "" ->
    (forall b, In b (books_data st) -> isbn b <> form_isbn data) ->
    let st1 := fst (add_book st librarian data) in
    let new_id := _get_next_id (map bid (books_data st)) in
    code (snd (add_book st librarian data)) = 201
    /\ delete_book st1 librarian new_id
       = (st, mkResponse 200 "Book deleted successfully" NoPayload).
Proof.
  intros st lib data R Hrole H1 H2 H3 Hfree st1 new_id.
  set (new_book :=
         mkBook new_id (form_title data) (form_author data) (form_isbn data)
                (year_column (form_publication_year data))
                (match form_total_copies data with Some n => n | None => 0 end)
                (match form_total_copies data with Some n => n | None => 0 end)).
  assert (add_book st lib data
          = (with_books st (books_data st ++ [new_book]),
             mkResponse 201 "Book added successfully" (BookPayload new_book)))
    as E1.
  { unfold add_book, role_required. rewrite Hrole.
    cbn [String.eqb Ascii.eqb Bool.eqb negb]. cbv zeta.
    rewrite !nonempty_eqb by assumption. cbn [orb].
    replace (existsb (fun b => (isbn b =? form_isbn data)%string) (books_data st))
      with false; [reflexivity|].
    symmetry. destruct (existsb _ _) eqn:E; [|reflexivity].
    apply existsb_exists in E as (b & Hin & Eb).
    apply String.eqb_eq in Eb. now apply Hfree in Hin. }
  subst st1. rewrite E1. cbn [fst snd code]. split; [reflexivity|].
  assert (find (has_book_id new_id) (books_data st) = None) as Ffresh.
  { destruct (find _ _) as [b|] eqn:F; [|reflexivity].
    apply find_book_spec in F as [Hin E]. apply (in_map bid) in Hin.
    apply next_id_fresh in Hin. subst new_id. lia. }
  assert (has_book_id new_id new_book = true) as Hid
      by (unfold has_book_id; simpl; apply Z.eqb_refl).
  assert (filter (active_on new_id) (borrowing_records_data st) = []) as Fa.
  { apply length_zero_iff_nil, count_zero. intros r Hin.
    destruct (active_on new_id r) eqn:A; [|reflexivity].
    unfold active_on in A. apply andb_true_iff in A as [Ek Ha].
    apply Z.eqb_eq in Ek.
    destruct (reachable_references st R r Hin) as [_ Hb].
    specialize (Hb Ha). rewrite Ek in Hb.
    apply next_id_fresh in Hb. subst new_id. lia. }
  unfold delete_book, role_required. rewrite Hrole.
  cbn [String.eqb Ascii.eqb Bool.eqb negb]. unfold with_books.
  cbn [books_data borrowing_records_data users_data].
  rewrite (find_app_none _ _ _ Ffresh), Hid. cbv zeta. rewrite Fa.
  rewrite (remove_first_app_last _ _ _ Ffresh Hid).
  destruct st; reflexivity.
Qed.

Lemma add_then_delete_restores_tables_witness :
  reachable limit_state
  /\ delete_book
       (fst (add_book limit_state sample_librarian (book_form "TEST-6" 2)))
       sample_librarian 6
     = (limit_state, mkResponse 200 "Book deleted successfully" NoPayload).
Proof.
  assert (reachable limit_state) as R by (apply run_reachable, reach_empty).
  split; [exact R|].
  assert (forall b, In b (books_data limit_state) -> isbn b <> "TEST-6") as Hfree
      by (intros b [<-|[<-|[<-|[<-|[<-|[]]]]]]; discriminate).
  assert ("Test Book" <> "") as H1 by discriminate.
  assert ("Test Author" <> "") as H2 by discriminate.
  assert ("TEST-6" <> "") as H3 by discriminate.
  exact (proj2 (add_then_delete_restores_tables
                  limit_state sample_librarian (book_form "TEST-6" 2)
                  R eq_refl H1 H2 H3 Hfree)).
Defined.
